(** * Indicator validation scripts: alignment, extraction and comparison

    A shallow embedding of the data path of three scripts:

    - [modern_indicators/tools/plot_hit_or_miss.py]: [parse_ohlcv],
      [parse_tssb_csv], [extract_computed_values], [align_data], and in
      [main] the reading of the exporter's output and the statistics of the
      comparison loop;
    - [modern_indicators/plot_cmma.py]: the data of the panels of
      [create_comparison_plot] and of [create_zoomed_plot], and the
      indicators [main] passes to them;
    - [scripts/export_dataset_to_questdb.py]: [to_number] and [build_ilp].

    Python [float] is IEEE binary64, modelled by Rocq's primitive [float];
    Python [int] is unbounded, modelled by [Z]; a [dict] is a [gmap]; a numpy
    array is a [list float] updated by index.  The calls into matplotlib
    (figures, axes, layout, saving) are not embedded: an outcome below is
    the data a function has computed when it reaches them, and nothing is
    stated about what those calls do or raise. *)

From Stdlib Require Import Floats ZArith Ascii String DecimalString.
From stdpp Require Import base option list gmap strings sorting.

Local Open Scope Z_scope.
Local Open Scope nat_scope.

(** * Part I: the programs *)

(** ** Python floats *)

Module PyFloat.

(** [np.nan] *)
Definition nan : float := PrimFloat.nan.

(** [np.isnan] *)
Definition isnan (x : float) : bool :=
  match Prim2SF x with
  | S754_nan => true
  | _ => false
  end.

(** [np.isfinite]: neither NaN nor an infinity *)
Definition isfinite (x : float) : bool :=
  match Prim2SF x with
  | S754_nan | S754_infinity _ => false
  | _ => true
  end.

(** the conversion of an element count to [float] *)
Definition float_of_nat (n : nat) : float :=
  PrimFloat.of_uint63 (Uint63.of_Z (Z.of_nat n)).

(** [np.fmax]: the larger operand, a NaN operand being ignored *)
Definition fmax (x y : float) : float :=
  if isnan x then y
  else if isnan y then x
  else if (x <? y)%float then y else x.

End PyFloat.

(** ** Python sequences and strings *)

Module PySeq.

(** [enumerate(l)], counting from [n] *)
Fixpoint enumerate_from {A} (n : nat) (l : list A) : list (nat * A) :=
  match l with
  | [] => []
  | x :: l' => (n, x) :: enumerate_from (S n) l'
  end.

Definition enumerate {A} (l : list A) : list (nat * A) := enumerate_from 0 l.

(** [l.index(x) if x in l else None] *)
Fixpoint index_of `{EqDecision A} (x : A) (l : list A) : option nat :=
  match l with
  | [] => None
  | y :: l' => if decide (y = x) then Some 0 else S <$> index_of x l'
  end.

(** [a[start:stop]] for [0 <= start <= stop] *)
Definition slice {A} (start stop : nat) (a : list A) : list A :=
  take (stop - start) (drop start a).

(** boolean-mask selection [a[mask]] *)
Fixpoint select {A} (mask : list bool) (a : list A) : list A :=
  match mask, a with
  | true :: mask', x :: a' => x :: select mask' a'
  | false :: mask', _ :: a' => select mask' a'
  | _, _ => []
  end.

(** [np.where(mask)[0]]: the positions holding [True], ascending *)
Definition where_true (mask : list bool) : list nat :=
  select mask (seq 0 (length mask)).

End PySeq.

Module PyStr.

(** ASCII whitespace as [str.split()] sees it (tab, LF, VT, FF, CR, the
    separators 28..31 and space); whitespace outside ASCII is not modelled. *)
Definition is_space (c : ascii) : bool :=
  let n := nat_of_ascii c in
  ((9 <=? n) && (n <=? 13)) || ((28 <=? n) && (n <=? 31)) || (n =? 32).

(** [s.split()]: the maximal runs of non-whitespace characters.  Leading and
    trailing whitespace yields no token, so [s.strip().split()] is the same
    list. *)
Fixpoint split (s : string) : list string :=
  match s with
  | EmptyString => []
  | String c s' =>
      if is_space c then split s'
      else match s' with
           | EmptyString => [String c EmptyString]
           | String c' _ =>
               if is_space c' then String c EmptyString :: split s'
               else match split s' with
                    | w :: ws => String c w :: ws
                    | [] => [String c EmptyString]
                    end
           end
  end.

(** [s.split('\n')] *)
Fixpoint split_lines (s : string) : list string :=
  match s with
  | EmptyString => [EmptyString]
  | String c s' =>
      if Ascii.eqb c "010"%char then EmptyString :: split_lines s'
      else match split_lines s' with
           | l :: ls => String c l :: ls
           | [] => [String c EmptyString]
           end
  end.

(** [sub in s] *)
Fixpoint str_in (sub s : string) : bool :=
  String.prefix sub s ||
  match s with
  | EmptyString => false
  | String _ s' => str_in sub s'
  end.

(** [s.lstrip()], [s.rstrip()] and [s.strip()] *)
Fixpoint lstrip (s : string) : string :=
  match s with
  | EmptyString => EmptyString
  | String c s' => if is_space c then lstrip s' else s
  end.

Fixpoint rstrip (s : string) : string :=
  match s with
  | EmptyString => EmptyString
  | String c s' =>
      match rstrip s' with
      | EmptyString => if is_space c then EmptyString else String c EmptyString
      | r => String c r
      end
  end.

Definition strip (s : string) : string := lstrip (rstrip s).

End PyStr.

(** ** Exceptions *)

Inductive exn :=
  | ValueError
  | IndexError
  | KeyError (key : string)
  | OverflowError.

Inductive result (A : Type) :=
  | Ok (a : A)
  | Raise (e : exn).
Arguments Ok {A} a.
Arguments Raise {A} e.

Definition rbind {A B} (r : result A) (k : A -> result B) : result B :=
  match r with
  | Ok a => k a
  | Raise e => Raise e
  end.

Notation "x <- r ;; k" := (rbind r (fun x => k))
  (at level 100, r at next level, right associativity).

(** a [for] loop whose body may raise *)
Fixpoint for_each {A S} (body : S -> A -> result S) (st : S) (l : list A) : result S :=
  match l with
  | [] => Ok st
  | x :: l' => st' <- body st x ;; for_each body st' l'
  end.

(** ** tools/plot_hit_or_miss.py *)

Module HitOrMiss.
Import PyFloat PySeq PyStr.

(** The three indicator columns the script follows. *)
Inductive field := TGT_115 | TGT_315 | TGT_555.

#[global] Instance field_eq_dec : EqDecision field.
Proof. solve_decision. Defined.

Definition field_name (f : field) : string :=
  match f with
  | TGT_115 => "TGT_115"%string
  | TGT_315 => "TGT_315"%string
  | TGT_555 => "TGT_555"%string
  end.

(** The dict [parse_ohlcv] returns. *)
Record ohlcv_data := {
  o_date : list Z;
  o_time : list Z;
  o_open : list float;
  o_high : list float;
  o_low : list float;
  o_close : list float;
  o_volume : list float
}.

(** The dict [parse_tssb_csv] returns. *)
Record csv_data := {
  c_date : list Z;
  c_time : list Z;
  c_115 : list float;
  c_315 : list float;
  c_555 : list float
}.

Definition csv_field (f : field) (d : csv_data) : list float :=
  match f with
  | TGT_115 => c_115 d
  | TGT_315 => c_315 d
  | TGT_555 => c_555 d
  end.

Section Parsers.
(** Python's [int(s)] and [float(s)] on a string; [None] stands for the
    [ValueError] of a string that does not convert. *)
Variable py_int : string -> option Z.
Variable py_float : string -> option float.

(** *** parse_tssb_csv *)

(** [if idx:] on an optional index: [None] and [0] are both falsy *)
Definition truthy (idx : option nat) : bool :=
  match idx with
  | Some (S _) => true
  | _ => false
  end.

(** [filter(None, idxs)] *)
Definition filter_truthy (idxs : list (option nat)) : list nat :=
  omap (fun idx => if truthy idx then idx else None) idxs.

(** [max(iterable)] *)
Definition py_max (l : list nat) : result nat :=
  match l with
  | [] => Raise ValueError
  | x :: l' => Ok (foldl Nat.max x l')
  end.

(** [int(parts[k])] *)
Definition int_at (parts : list string) (k : nat) : result Z :=
  match parts !! k with
  | None => Raise IndexError
  | Some s =>
      match py_int s with
      | Some z => Ok z
      | None => Raise ValueError
      end
  end.

(** One guarded block
    [if idx: try: col.append(float(parts[idx])) except: col.append(np.nan)].
    The bare [except] catches the failed conversion and an index error
    alike. *)
Definition read_cell (parts : list string) (idx : option nat)
    (col : list float) : list float :=
  if truthy idx then
    match (idx ≫= (fun k : nat => parts !! k)) ≫= py_float with
    | Some v => col ++ [v]
    | None => col ++ [nan]
    end
  else col.

(** The body of [for line in f]. *)
Definition parse_row (idx_115 idx_315 idx_555 : option nat)
    (acc : csv_data) (line : string) : result csv_data :=
  let parts := split line in
  m <- py_max (filter_truthy [idx_115; idx_315; idx_555]) ;;
  if decide (m < length parts) then
    d <- int_at parts 0 ;;
    t <- int_at parts 1 ;;
    Ok {| c_date := c_date acc ++ [d];
          c_time := c_time acc ++ [t];
          c_115 := read_cell parts idx_115 (c_115 acc);
          c_315 := read_cell parts idx_315 (c_315 acc);
          c_555 := read_cell parts idx_555 (c_555 acc) |}
  else Ok acc.

Definition empty_csv : csv_data :=
  {| c_date := []; c_time := []; c_115 := []; c_315 := []; c_555 := [] |}.

(** [header.index(name) if name in header else None] *)
Definition column_index (header : list string) (f : field) : option nat :=
  index_of (field_name f) header.

(** The file is given by its first line and the lines after it. *)
Definition parse_tssb_csv (header_line : string) (data_lines : list string)
    : result csv_data :=
  let header := split header_line in
  let tgt_115_idx := column_index header TGT_115 in
  let tgt_315_idx := column_index header TGT_315 in
  let tgt_555_idx := column_index header TGT_555 in
  for_each (parse_row tgt_115_idx tgt_315_idx tgt_555_idx) empty_csv data_lines.

(** *** extract_computed_values *)

Record scan_state := {
  in_section : bool;
  computed_values : gmap Z float
}.

(** What the loop does after a line: go on, or [break]. *)
Inductive flow :=
  | Next (st : scan_state)
  | Break (st : scan_state).

Definition is_header (indicator_name line : string) : bool :=
  str_in indicator_name line && str_in "Up=" line.

Definition is_data (line : string) : bool :=
  str_in "Bar" line && str_in "Expected" line.

Definition is_summary (line : string) : bool :=
  str_in "Summary:" line.

(** The [try] block of a data line: the bar index and the computed value,
    or [None] when one of the three conversions raises. *)
Definition read_triple (parts : list string) : option (Z * float) :=
  bar_idx ← (parts !! 0) ≫= py_int;
  _ ← (parts !! 1) ≫= py_float;
  computed ← (parts !! 2) ≫= py_float;
  Some (bar_idx, computed).

Definition record_data (line : string) (cv : gmap Z float) : gmap Z float :=
  let parts := split line in
  if decide (4 <= length parts) then
    match read_triple parts with
    | Some (bar_idx, computed) => <[bar_idx := computed]> cv
    | None => cv
    end
  else cv.

(** The body of [for line in lines]. *)
Definition scan_line (indicator_name : string) (st : scan_state)
    (line : string) : flow :=
  if is_header indicator_name line then
    Next {| in_section := true; computed_values := computed_values st |}
  else
    let cv :=
      if in_section st && is_data line
      then record_data line (computed_values st)
      else computed_values st in
    let st' := {| in_section := in_section st; computed_values := cv |} in
    if in_section st && is_summary line then Break st' else Next st'.

Fixpoint scan_lines (indicator_name : string) (st : scan_state)
    (lines : list string) : scan_state :=
  match lines with
  | [] => st
  | line :: rest =>
      match scan_line indicator_name st line with
      | Next st' => scan_lines indicator_name st' rest
      | Break st' => st'
      end
  end.

(** The lines the loop examines: all of them, or those up to the line it
    breaks on. *)
Fixpoint examined (indicator_name : string) (st : scan_state)
    (lines : list string) : list string :=
  match lines with
  | [] => []
  | line :: rest =>
      match scan_line indicator_name st line with
      | Next st' => line :: examined indicator_name st' rest
      | Break _ => [line]
      end
  end.

Definition scan_start : scan_state :=
  {| in_section := false; computed_values := ∅ |}.

Definition extract_computed_values (output_text indicator_name : string)
    : gmap Z float :=
  computed_values
    (scan_lines indicator_name scan_start (split_lines output_text)).

End Parsers.

(** *** align_data *)

Record aligned := {
  aligned_115 : list float;
  aligned_315 : list float;
  aligned_555 : list float
}.

Definition aligned_field (f : field) (a : aligned) : list float :=
  match f with
  | TGT_115 => aligned_115 a
  | TGT_315 => aligned_315 a
  | TGT_555 => aligned_555 a
  end.

(** [zip(d['date'], d['time'])] *)
Definition bar_keys (ohlcv : ohlcv_data) : list (Z * Z) :=
  zip (o_date ohlcv) (o_time ohlcv).

Definition row_keys (csv : csv_data) : list (Z * Z) :=
  zip (c_date csv) (c_time csv).

(** The first loop: [ohlcv_map[(date, time)] = i]. *)
Definition build_ohlcv_map (keys : list (Z * Z)) : gmap (Z * Z) nat :=
  foldl (fun m '(i, key) => <[key := i]> m) ∅ (enumerate keys).

(** [if i < len(col): out[ohlcv_idx] = col[i]].  The position comes from
    the index, so it lies within the array and the store cannot raise. *)
Definition place (col : list float) (i ohlcv_idx : nat) (out : list float)
    : list float :=
  if decide (i < length col) then
    match col !! i with
    | Some v => <[ohlcv_idx := v]> out
    | None => out
    end
  else out.

(** The body of the second loop. *)
Definition align_row (ohlcv_map : gmap (Z * Z) nat) (csv : csv_data)
    (out : aligned) (row : nat * (Z * Z)) : aligned :=
  let '(i, key) := row in
  match ohlcv_map !! key with
  | Some ohlcv_idx =>
      {| aligned_115 := place (c_115 csv) i ohlcv_idx (aligned_115 out);
         aligned_315 := place (c_315 csv) i ohlcv_idx (aligned_315 out);
         aligned_555 := place (c_555 csv) i ohlcv_idx (aligned_555 out) |}
  | None => out
  end.

Definition align_data (ohlcv : ohlcv_data) (csv : csv_data) : aligned :=
  let ohlcv_map := build_ohlcv_map (bar_keys ohlcv) in
  let n := length (o_date ohlcv) in
  let start := {| aligned_115 := replicate n nan;
                  aligned_315 := replicate n nan;
                  aligned_555 := replicate n nan |} in
  foldl (align_row ohlcv_map csv) start (enumerate (row_keys csv)).

(** *** The statistics block of main *)

Section Statistics.
(** [np.sum] over a one-dimensional array.  numpy fixes the order of the
    additions internally; the statistics below are stated for any order. *)
Variable np_sum : list float -> float.

(** [np.nanmean]: NaN entries are replaced by zero in the sum and left out
    of the count. *)
Definition nanmean (a : list float) : float :=
  let arr := map (fun x => if isnan x then 0%float else x) a in
  let cnt := length (filter (fun x => isnan x = false) a) in
  (np_sum arr / float_of_nat cnt)%float.

(** [np.nanmax]: [np.fmax.reduce]; an empty array raises. *)
Definition nanmax (a : list float) : result float :=
  match a with
  | [] => Raise ValueError
  | x :: a' => Ok (foldl fmax x a')
  end.

(** [~np.isnan(csv_vals) & ~np.isnan(computed_vals)]; both arrays have
    [n_bars] entries. *)
Definition valid_mask (csv_vals computed_vals : list float) : list bool :=
  zip_with (fun c p => negb (isnan c) && negb (isnan p)) csv_vals computed_vals.

Record stats := {
  start_idx : nat;
  end_idx : nat;
  diff : list float;
  mae : float;
  max_error : float;
  mean_rel_error : float
}.

Inductive outcome :=
  | NoValidData (warning : string)
  | Compared (s : stats).

(** One turn of [for name, csv_vals, computed_vals in indicators], up to the
    statistics; the drawing calls are left out. *)
Definition compare_indicator (name : string)
    (csv_vals computed_vals : list float) : result outcome :=
  let valid := valid_mask csv_vals computed_vals in
  let valid_indices := where_true valid in
  match valid_indices with
  | [] => Ok (NoValidData ("Warning: No valid data for " +:+ name))
  | first :: _ =>
      let start_idx := first in
      let end_idx := List.last valid_indices first in
      let csv_slice := slice start_idx (end_idx + 1) csv_vals in
      let diff :=
        zip_with (fun p c => (p - c)%float)
          (slice start_idx (end_idx + 1) computed_vals) csv_slice in
      let mae := nanmean (map abs diff) in
      max_error <- nanmax (map abs diff) ;;
      let mean_rel_error :=
        (nanmean (map abs (zip_with (fun d c => (d / c)%float) diff csv_slice))
         * 100)%float in
      Ok (Compared {| start_idx := start_idx; end_idx := end_idx;
                      diff := diff; mae := mae; max_error := max_error;
                      mean_rel_error := mean_rel_error |})
  end.

End Statistics.

(** *** parse_ohlcv *)

Section OhlcvParser.
Variable py_int : string -> option Z.
Variable py_float : string -> option float.

(** [float(parts[k])] *)
Definition float_at (parts : list string) (k : nat) : result float :=
  match parts !! k with
  | None => Raise IndexError
  | Some s =>
      match py_float s with
      | Some v => Ok v
      | None => Raise ValueError
      end
  end.

Definition empty_ohlcv : ohlcv_data :=
  {| o_date := []; o_time := []; o_open := []; o_high := []; o_low := [];
     o_close := []; o_volume := [] |}.

(** The body of [for line in f]: the conversions are not guarded, so the
    first one that fails ends the parse. *)
Definition parse_ohlcv_row (acc : ohlcv_data) (line : string)
    : result ohlcv_data :=
  let parts := split line in
  if decide (7 <= length parts) then
    d <- int_at py_int parts 0 ;;
    t <- int_at py_int parts 1 ;;
    o <- float_at parts 2 ;;
    h <- float_at parts 3 ;;
    l <- float_at parts 4 ;;
    c <- float_at parts 5 ;;
    v <- float_at parts 6 ;;
    Ok {| o_date := o_date acc ++ [d];
          o_time := o_time acc ++ [t];
          o_open := o_open acc ++ [o];
          o_high := o_high acc ++ [h];
          o_low := o_low acc ++ [l];
          o_close := o_close acc ++ [c];
          o_volume := o_volume acc ++ [v] |}
  else Ok acc.

(** The file is given by its lines. *)
Definition parse_ohlcv (lines : list string) : result ohlcv_data :=
  for_each parse_ohlcv_row empty_ohlcv lines.

(** *** The exporter's output, read in main *)

Record computed := {
  computed_115 : list float;
  computed_315 : list float;
  computed_555 : list float
}.

Definition computed_field (f : field) (c : computed) : list float :=
  match f with
  | TGT_115 => computed_115 c
  | TGT_315 => computed_315 c
  | TGT_555 => computed_555 c
  end.

(** The position a numpy array of [n] entries gives to the index [idx], a
    Python [int]: a negative index counts from the end, and an index outside
    [-n, n) raises.  numpy first converts the index to its signed 64-bit
    index type; an index in [2^63, 2^64) does not fit, is converted through
    an unsigned 64-bit scalar instead, and raises [OverflowError]; every
    other index outside [-n, n) raises [IndexError]. *)
Definition np_index (n : nat) (idx : Z) : result nat :=
  if decide (0 <= idx < Z.of_nat n)%Z then Ok (Z.to_nat idx)
  else if decide (- Z.of_nat n <= idx < 0)%Z then Ok (Z.to_nat (Z.of_nat n + idx))
  else if decide (2 ^ 63 <= idx < 2 ^ 64)%Z then Raise OverflowError
  else Raise IndexError.

(** [a[idx] = v] *)
Definition np_store (a : list float) (idx : Z) (v : float)
    : result (list float) :=
  k <- np_index (length a) idx ;;
  Ok (<[k := v]> a).

(** The body of [for line in result.stdout.strip().split('\n')]: each right
    hand side is converted before its store. *)
Definition export_row (acc : computed) (line : string) : result computed :=
  let parts := split line in
  if decide (length parts = 4) then
    idx <- int_at py_int parts 0 ;;
    v1 <- float_at parts 1 ;;
    a1 <- np_store (computed_115 acc) idx v1 ;;
    v2 <- float_at parts 2 ;;
    a2 <- np_store (computed_315 acc) idx v2 ;;
    v3 <- float_at parts 3 ;;
    a3 <- np_store (computed_555 acc) idx v3 ;;
    Ok {| computed_115 := a1; computed_315 := a2; computed_555 := a3 |}
  else Ok acc.

(** Lines 264 to 274 of main, from the text the exporter printed. *)
Definition parse_export (n_bars : nat) (stdout : string) : result computed :=
  for_each export_row
    {| computed_115 := replicate n_bars nan;
       computed_315 := replicate n_bars nan;
       computed_555 := replicate n_bars nan |}
    (split_lines (strip stdout)).

End OhlcvParser.

End HitOrMiss.

(** ** plot_cmma.py *)

Module Cmma.
Import PyFloat PySeq.

(** A [pandas.DataFrame] over the default index [0 .. n_rows-1]: every column
    holds [n_rows] floats. *)
Record DataFrame := {
  n_rows : nat;
  columns : gmap string (list float)
}.

(** [len(df)] *)
Definition df_len (df : DataFrame) : nat := n_rows df.

(** [df[col]]; a missing column raises [KeyError] *)
Definition df_col (df : DataFrame) (col : string) : result (list float) :=
  match columns df !! col with
  | Some c => Ok c
  | None => Raise (KeyError col)
  end.

(** [df[mask]]: the rows where the mask holds *)
Definition df_select (mask : list bool) (df : DataFrame) : DataFrame :=
  {| n_rows := length (select mask (seq 0 (n_rows df)));
     columns := select mask <$> columns df |}.

(** The threshold of the ratio panel, the double nearest to [1e-10]. *)
Definition ratio_eps : float := 0x1.b7cdfd9d7bdbbp-34%float.

Section Statistics.
(** [np.sum] and [np.corrcoef(x, y)[0, 1]], numpy's own reductions. *)
Variable np_sum : list float -> float.
Variable np_corrcoef : list float -> list float -> float.

(** [np.mean] *)
Definition np_mean (a : list float) : float :=
  (np_sum a / float_of_nat (length a))%float.

(** [np.isfinite(df[csv_col]) & np.isfinite(df[computed_col])] *)
Definition valid_mask (csv computed : list float) : list bool :=
  zip_with (fun c p => isfinite c && isfinite p) csv computed.

(** [np.where(np.abs(csv_vals) > 1e-10, computed_vals / csv_vals, 1.0)] *)
Definition ratio_of (csv_vals computed_vals : list float) : list float :=
  zip_with
    (fun c p => if (ratio_eps <? abs c)%float then (p / c)%float else 1%float)
    csv_vals computed_vals.

Record panels := {
  x : list float;
  csv_vals : list float;
  computed_vals : list float;
  diff : list float;
  mae : float;
  ratio : list float;
  corr : float
}.

Inductive outcome :=
  | NoValidData (warning : string)
  | Plotted (p : panels).

(** The data of the four panels; the drawing calls and the end points of
    the diagonal of the scatter panel are left out. *)
Definition create_comparison_plot (df : DataFrame)
    (indicator_name csv_col computed_col : string) : result outcome :=
  csv <- df_col df csv_col ;;
  computed <- df_col df computed_col ;;
  let mask := valid_mask csv computed in
  let df_valid := df_select mask df in
  if decide (df_len df_valid = 0) then
    Ok (NoValidData ("WARNING: No valid data for " +:+ indicator_name))
  else
    x <- df_col df_valid "bar" ;;
    csv_vals <- df_col df_valid csv_col ;;
    computed_vals <- df_col df_valid computed_col ;;
    let diff := zip_with (fun p c => (p - c)%float) computed_vals csv_vals in
    Ok (Plotted {| x := x; csv_vals := csv_vals;
                   computed_vals := computed_vals; diff := diff;
                   mae := np_mean (map abs diff);
                   ratio := ratio_of csv_vals computed_vals;
                   corr := np_corrcoef csv_vals computed_vals |}).

End Statistics.

(** *** create_zoomed_plot *)

(** [a[:k]]: a negative [k] leaves the last [-k] entries out *)
Definition head_slice {A} (k : Z) (a : list A) : list A :=
  if decide (k < 0)%Z then take (Z.to_nat (Z.of_nat (length a) + k)) a
  else take (Z.to_nat k) a.

(** [df.iloc[:k]] *)
Definition df_iloc_head (k : Z) (df : DataFrame) : DataFrame :=
  {| n_rows := length (head_slice k (seq 0 (n_rows df)));
     columns := head_slice k <$> columns df |}.

Section Zoom.
Variable np_sum : list float -> float.

Record zoom_panels := {
  zoom_len : nat;
  zoom_x : list float;
  zoom_csv_vals : list float;
  zoom_computed_vals : list float;
  zoom_diff : list float;
  zoom_mae : float
}.

Inductive zoom_outcome :=
  | ZoomNoValidData (warning : string)
  | Zoomed (p : zoom_panels).

(** The data of the two panels; the drawing calls are left out. *)
Definition create_zoomed_plot (df : DataFrame)
    (indicator_name csv_col computed_col : string) (zoom_bars : Z)
    : result zoom_outcome :=
  csv <- df_col df csv_col ;;
  computed <- df_col df computed_col ;;
  let mask := valid_mask csv computed in
  let df_valid := df_select mask df in
  if decide (df_len df_valid = 0) then
    Ok (ZoomNoValidData ("WARNING: No valid data for " +:+ indicator_name))
  else
    let df_zoom := df_iloc_head zoom_bars df_valid in
    x <- df_col df_zoom "bar" ;;
    csv_vals <- df_col df_zoom csv_col ;;
    computed_vals <- df_col df_zoom computed_col ;;
    let diff := zip_with (fun p c => (p - c)%float) computed_vals csv_vals in
    Ok (Zoomed {| zoom_len := df_len df_zoom; zoom_x := x;
                  zoom_csv_vals := csv_vals;
                  zoom_computed_vals := computed_vals;
                  zoom_diff := diff;
                  zoom_mae := np_mean np_sum (map abs diff) |}).

End Zoom.

(** The indicators main goes through: the name, the reference column and the
    computed column of each (the file-name prefix is left out), and the
    [zoom_bars] main passes to [create_zoomed_plot]. *)
Definition indicators : list (string * string * string) :=
  [("CMMA_S", "csv_CMMA_S", "computed_CMMA_S");
   ("CMMA_M", "csv_CMMA_M", "computed_CMMA_M");
   ("CMMA_L", "csv_CMMA_L", "computed_CMMA_L")]%string.

Definition main_zoom_bars : Z := 200.

End Cmma.

(** ** scripts/export_dataset_to_questdb.py *)

Module QuestDb.
Import PyStr.

(** A row of [csv.DictReader]: the column names of the header, each once as
    in a dict, with the cells of the row, [None] for a cell the row does not
    have.  Rows longer than the header are not modelled. *)
Definition row := list (string * option string).

(** [row.get(key)] *)
Fixpoint row_get (key : string) (r : row) : option string :=
  match r with
  | [] => None
  | (k, v) :: r' => if decide (k = key) then v else row_get key r'
  end.

(** The truth value of an optional string: [None] and [""] are false. *)
Definition nonempty (v : option string) : bool :=
  match v with
  | Some EmptyString | None => false
  | Some _ => true
  end.

(** [a or b] *)
Definition py_or (a b : option string) : option string :=
  if nonempty a then a else b.

(** [s.replace(old, new)] for one-character strings *)
Fixpoint replace_char (old new : ascii) (s : string) : string :=
  match s with
  | EmptyString => EmptyString
  | String c s' =>
      String (if Ascii.eqb c old then new else c) (replace_char old new s')
  end.

(** [sep.join(l)] *)
Fixpoint join (sep : string) (l : list string) : string :=
  match l with
  | [] => EmptyString
  | [a] => a
  | a :: l' => a +:+ sep +:+ join sep l'
  end.

(** [str(z)] for an integer *)
Definition int_str (z : Z) : string := NilZero.string_of_int (Z.to_int z).

(** [int(v)] for a float: the value cut towards zero; NaN raises
    [ValueError] and an infinity raises [OverflowError]. *)
Inductive truncation :=
  | Truncated (z : Z)
  | TruncValueError
  | TruncOverflowError.

Definition int_of_float (v : float) : truncation :=
  match Prim2SF v with
  | S754_nan => TruncValueError
  | S754_infinity _ => TruncOverflowError
  | S754_zero _ => Truncated 0
  | S754_finite s m e =>
      let a := Z.shiftl (Zpos m) e in
      Truncated (if s then (- a)%Z else a)
  end.

(** [key in {"timestamp_unix", "timestamp", "Date", "Time"}] *)
Definition reserved (key : string) : bool :=
  bool_decide (key ∈ ["timestamp_unix"; "timestamp"; "Date"; "Time"]%string).

(** [key.replace(" ", "_").replace(",", "_")] *)
Definition safe_key (key : string) : string :=
  replace_char "," "_" (replace_char " " "_" key).

Section Conversions.
(** Python's [int(s)] and [float(s)] on a string, [None] for [ValueError],
    and the text an f-string gives a float. *)
Variable py_int : string -> option Z.
Variable py_float : string -> option float.
Variable float_str : float -> string.

Definition to_number (value : option string) : option string :=
  match value with
  | None => None
  | Some v =>
      if decide (v = EmptyString) then None
      else if str_in "." v then float_str <$> py_float v
      else (fun z => int_str z +:+ "i") <$> py_int v
  end.

(** The list [fields] the loop over [row.items()] builds. *)
Definition build_fields (r : row) : list string :=
  omap (fun kv : string * option string =>
          if reserved kv.1 then None
          else (fun number => safe_key kv.1 +:+ "=" +:+ number)
                 <$> to_number kv.2)
       r.

(** What a call of [build_ilp] ends in: a line, [None], or the
    [OverflowError] that [int(float(ts_raw))] lets through. *)
Inductive ilp :=
  | Line (s : string)
  | NoLine
  | Overflow.

Definition build_ilp (measurement : string) (r : row) (tag_dataset : bool)
    : ilp :=
  let ts_raw := py_or (row_get "timestamp_unix" r) (row_get "timestamp" r) in
  if negb (nonempty ts_raw) then NoLine
  else
    match ts_raw ≫= py_float with
    | None => NoLine
    | Some v =>
        match int_of_float v with
        | TruncValueError => NoLine
        | TruncOverflowError => Overflow
        | Truncated ts_seconds =>
            let fields := build_fields r in
            if decide (fields = []) then NoLine
            else
              let tags :=
                if tag_dataset then ["dataset=" +:+ measurement] else [] in
              let tags_part := join "," tags in
              let line :=
                if decide (tags_part = EmptyString) then measurement
                else measurement +:+ "," +:+ tags_part in
              Line (line +:+ " " +:+ join "," fields +:+ " "
                    +:+ int_str (ts_seconds * 1000000000))
        end
    end.
End Conversions.

End QuestDb.

(** ** The specification's wording *)

(** The extractor as the specification words it: two states, idle and
    collecting; a header line enters collecting, a summary line met while
    collecting returns to idle, data lines met while collecting add their
    entry, and every line of the text is stepped through.  A line is tested
    in the order of the code: header, data, summary. *)
Module TwoStateSpec.
Import HitOrMiss.

Inductive mode := Idle | Collecting.

Section Machine.
Variable py_int : string -> option Z.
Variable py_float : string -> option float.

Definition step (indicator_name : string) (st : mode * gmap Z float)
    (line : string) : mode * gmap Z float :=
  if is_header indicator_name line then (Collecting, st.2)
  else
    match st.1 with
    | Idle => (Idle, st.2)
    | Collecting =>
        let cv :=
          if is_data line then record_data py_int py_float line st.2
          else st.2 in
        if is_summary line then (Idle, cv) else (Collecting, cv)
    end.

Definition run (indicator_name : string) (st : mode * gmap Z float)
    (lines : list string) : mode * gmap Z float :=
  foldl (step indicator_name) st lines.

Definition extract (output_text indicator_name : string) : gmap Z float :=
  (run indicator_name (Idle, ∅) (PyStr.split_lines output_text)).2.
End Machine.
End TwoStateSpec.

(** The relative error as the specification words it: the mean of
    |difference / reference|, times 100, over the valid positions (both values
    finite) whose reference is not zero. *)
Module SpecStats.
Import PyFloat.

Definition rel_terms (csv_vals computed_vals : list float) : list float :=
  omap (fun cv : float * float =>
          if isfinite cv.1 && isfinite cv.2 && negb (cv.1 =? 0)%float
          then Some (abs ((cv.2 - cv.1) / cv.1))
          else None)
       (zip csv_vals computed_vals).

Definition mean_rel_error (np_sum : list float -> float)
    (csv_vals computed_vals : list float) : float :=
  let terms := rel_terms csv_vals computed_vals in
  (np_sum terms / float_of_nat (length terms) * 100)%float.
End SpecStats.

(** ** Definitions of the statements and proofs *)

Module Import Aux.
Import PyFloat PySeq HitOrMiss.

(** The second loop, one output array at a time. *)
Definition align_one (m : gmap (Z * Z) nat) (col : list float)
    (out : list float) (row : nat * (Z * Z)) : list float :=
  match m !! row.2 with
  | Some idx => place col row.1 idx out
  | None => out
  end.

(** The second loop on one column, from an array of missing markers. *)
Definition run (m : gmap (Z * Z) nat) (n : nat) (col : list float)
    (rows : list (Z * Z)) : list float :=
  foldl (align_one m col) (replicate n nan) (enumerate rows).

(** Row [i] writes position [p]: its key is indexed at [p] and the column
    has an entry for it. *)
Definition writes (m : gmap (Z * Z) nat) (col : list float)
    (rows : list (Z * Z)) (p i : nat) : Prop :=
  exists key, rows !! i = Some key /\ m !! key = Some p /\ is_Some (col !! i).

(** Position [p] of [out] is settled for [rows]: it holds the entry of the
    last row that writes it, and the missing marker when no row does. *)
Definition settled (m : gmap (Z * Z) nat) (col : list float)
    (rows : list (Z * Z)) (p : nat) (out : list float) : Prop :=
  (forall i v, writes m col rows p i -> col !! i = Some v ->
     (forall j, i < j -> ~ writes m col rows p j) -> out !! p = Some v) /\
  ((forall i, ~ writes m col rows p i) -> out !! p = Some nan).

(** The index variable the loop body consults for a field. *)
Definition pick (f : field) (i115 i315 i555 : option nat) : option nat :=
  match f with
  | TGT_115 => i115
  | TGT_315 => i315
  | TGT_555 => i555
  end.

Definition mode_of (st : HitOrMiss.scan_state) : TwoStateSpec.mode :=
  if HitOrMiss.in_section st then TwoStateSpec.Collecting else TwoStateSpec.Idle.

(** The span statistics, from the mask, the differences and the relative
    terms of the whole arrays. *)
Definition span_stats (np_sum : list float -> float) (name : string)
    (valid : list bool) (d q : list float) : result outcome :=
  match where_true valid with
  | [] => Ok (NoValidData ("Warning: No valid data for " +:+ name))
  | first :: _ =>
      let last_idx := List.last (where_true valid) first in
      let diff := slice first (last_idx + 1) d in
      max_error <- nanmax (map abs diff) ;;
      Ok (Compared
            {| start_idx := first; end_idx := last_idx; diff := diff;
               mae := nanmean np_sum (map abs diff);
               max_error := max_error;
               mean_rel_error :=
                 (nanmean np_sum (map abs (slice first (last_idx + 1) q))
                  * 100)%float |})
  end.

(** All seven columns hold [n] entries. *)
Definition ohlcv_rows (d : ohlcv_data) (n : nat) : Prop :=
  length (o_date d) = n /\ length (o_time d) = n /\ length (o_open d) = n /\
  length (o_high d) = n /\ length (o_low d) = n /\ length (o_close d) = n /\
  length (o_volume d) = n.

(** The date and time columns hold [n] entries, and so does every collected
    indicator column; the columns that are not collected are empty. *)
Definition csv_rows (i115 i315 i555 : option nat) (d : csv_data) (n : nat)
    : Prop :=
  length (c_date d) = n /\ length (c_time d) = n /\
  forall f, length (csv_field f d) =
            if truthy (pick f i115 i315 i555) then n else 0.

(** The three arrays hold [n] entries. *)
Definition computed_rows (c : computed) (n : nat) : Prop :=
  forall f, length (computed_field f c) = n.

(** The entry [(b, c)] stems from a data line that follows a header line. *)
Definition from_section (py_int : string -> option Z)
    (py_float : string -> option float) (indicator_name : string)
    (lines : list string) (b : Z) (c : float) : Prop :=
  exists i j header data,
    i < j /\ lines !! i = Some header /\ lines !! j = Some data /\
    is_header indicator_name header = true /\
    is_header indicator_name data = false /\
    is_data data = true /\ 4 <= length (PyStr.split data) /\
    read_triple py_int py_float (PyStr.split data) = Some (b, c).

(** Some line is a header line of the indicator. *)
Definition has_header (indicator_name : string) (lines : list string) : Prop :=
  exists i header,
    lines !! i = Some header /\ is_header indicator_name header = true.

(** What holds of the state after the lines [seen]. *)
Definition scanned (py_int : string -> option Z)
    (py_float : string -> option float) (indicator_name : string)
    (seen : list string) (st : scan_state) : Prop :=
  (in_section st = true -> has_header indicator_name seen) /\
  forall b c, computed_values st !! b = Some c -> from_section py_int py_float indicator_name seen b c.

(** Every column of the frame holds [n_rows] entries. *)
Definition df_wf (df : Cmma.DataFrame) : Prop :=
  forall col c, Cmma.columns df !! col = Some c -> length c = Cmma.n_rows df.

(** What a NaN-skipping mean sums and what it divides by: the array with
    its NaN entries taken as zero, and the number of its entries that are
    not NaN. *)
Definition nan_as_zero (a : list float) : list float :=
  map (fun t => if isnan t then 0%float else t) a.

Definition count_not_nan (a : list float) : nat :=
  length (filter (fun t => isnan t = false) a).

(** A list up to and including its first entry that passes [P] (the whole
    list when none does), and what follows that entry (nothing when none
    does). *)
Fixpoint take_through {A} (P : A -> bool) (l : list A) : list A :=
  match l with
  | [] => []
  | a :: l' => if P a then [a] else a :: take_through P l'
  end.

Fixpoint drop_through {A} (P : A -> bool) (l : list A) : list A :=
  match l with
  | [] => []
  | a :: l' => if P a then l' else drop_through P l'
  end.

(** A line that ends the section: a summary line that is not a header
    line. *)
Definition closes (indicator_name line : string) : bool :=
  negb (is_header indicator_name line) && is_summary line.

(** The lines of the section: those after the first header line, up to and
    including the first line that ends the section. *)
Definition section_lines (indicator_name : string) (lines : list string)
    : list string :=
  take_through (closes indicator_name)
    (drop_through (is_header indicator_name) lines).

(** The lines up to the end of the section, the first header line
    included: the whole text when it has no header line. *)
Definition examined_lines (indicator_name : string) (lines : list string)
    : list string :=
  take_through (is_header indicator_name) lines ++
  section_lines indicator_name lines.

(** The entries of the data lines of the section, a later line overwriting
    an earlier one with the same bar index. *)
Definition section_entries (py_int : string -> option Z)
    (py_float : string -> option float) (indicator_name : string)
    (lines : list string) : gmap Z float :=
  foldl (fun cv line => record_data py_int py_float line cv) ∅
    (filter (fun line => is_header indicator_name line = false /\
                         is_data line = true)
       (section_lines indicator_name lines)).
End Aux.

(** ** Concrete inputs *)

Module Samples.
Import HitOrMiss.

Definition digit_value (c : ascii) : option Z :=
  let n := nat_of_ascii c in
  if (48 <=? n) && (n <=? 57) then Some (Z.of_nat (n - 48)) else None.

Fixpoint digits_value (acc : Z) (s : string) : option Z :=
  match s with
  | EmptyString => Some acc
  | String c s' =>
      match digit_value c with
      | Some d => digits_value (10 * acc + d)%Z s'
      | None => None
      end
  end.

(** [int] on the strings the examples convert: a non-empty run of decimal
    digits has its value, and no other string of the examples converts. *)
Definition int_of_digits (s : string) : option Z :=
  match s with
  | EmptyString => None
  | _ => digits_value 0 s
  end.

(** [float] on the strings the examples convert. *)
Definition float_of_literal (s : string) : option float :=
  if decide (s = "0.0"%string) then Some 0%float
  else if decide (s = "1.0"%string) then Some 1%float
  else if decide (s = "2.5"%string) then Some 2.5%float
  else if decide (s = "3.0"%string) then Some 3%float
  else if decide (s = "inf"%string) then Some infinity
  else if decide (s = "nan"%string) then Some PyFloat.nan
  else None.

(** A sum taken from left to right. *)
Definition sum_left (a : list float) : float :=
  match a with
  | [] => 0%float
  | v :: a' => foldl PrimFloat.add v a'
  end.

(** Pearson's coefficient from centred sums. *)
Definition pearson (xs ys : list float) : float :=
  let n := PyFloat.float_of_nat (length xs) in
  let mx := (sum_left xs / n)%float in
  let my := (sum_left ys / n)%float in
  let dx := map (fun v => (v - mx)%float) xs in
  let dy := map (fun v => (v - my)%float) ys in
  let sxy := sum_left (zip_with PrimFloat.mul dx dy) in
  let sxx := sum_left (zip_with PrimFloat.mul dx dx) in
  let syy := sum_left (zip_with PrimFloat.mul dy dy) in
  (sxy / PrimFloat.sqrt sxx / PrimFloat.sqrt syy)%float.

Definition newline : string := String "010"%char EmptyString.

(** A log whose section is closed by its summary and then opened again. *)
Definition reopened_log : string :=
  ("TGT_115 Up=1" +:+ newline +:+
   "Summary: done" +:+ newline +:+
   "TGT_115 Up=1" +:+ newline +:+
   "7 1.0 2.5 Bar Expected")%string.

(** Two bars with one key; one reference row with that key. *)
Definition twin_bars : ohlcv_data :=
  {| o_date := [20240101; 20240101]%Z; o_time := [930; 930]%Z;
     o_open := [1; 1]%float; o_high := [1; 1]%float; o_low := [1; 1]%float;
     o_close := [1; 1]%float; o_volume := [1; 1]%float |}.

Definition one_row : csv_data :=
  {| c_date := [20240101]%Z; c_time := [930]%Z;
     c_115 := [2.5]%float; c_315 := []; c_555 := [] |}.

(** Three bars; reference rows for the first and the last, the first key
    twice. *)
Definition three_bars : ohlcv_data :=
  {| o_date := [20240101; 20240101; 20240101]%Z;
     o_time := [930; 931; 932]%Z;
     o_open := [1; 1; 1]%float; o_high := [1; 1; 1]%float;
     o_low := [1; 1; 1]%float; o_close := [1; 1; 1]%float;
     o_volume := [1; 1; 1]%float |}.

Definition three_rows : csv_data :=
  {| c_date := [20240101; 20240101; 20240101; 20231231]%Z;
     c_time := [930; 932; 930; 1600]%Z;
     c_115 := [1; 3; 2.5; 0]%float; c_315 := []; c_555 := [] |}.

(** A frame with one row whose reference value is NaN. *)
Definition cmma_frame : Cmma.DataFrame :=
  {| Cmma.n_rows := 3;
     Cmma.columns :=
       <["bar"%string := [0; 1; 2]%float]>
         (<["csv_CMMA_S"%string := [0%float; PyFloat.nan; 2%float]]>
            (<["computed_CMMA_S"%string := [1; 2; 3]%float]> ∅)) |}.
(** OHLCV lines: two bars around a line that is too short. *)
Definition ohlcv_lines : list string :=
  ["20240101 930 1.0 2.5 0.0 1.0 3.0"; "end of session";
   "20240101 931 1.0 2.5 0.0 1.0 3.0"]%string.

(** Reference rows with the keys of [three_bars], in their order. *)
Definition same_rows : csv_data :=
  {| c_date := [20240101; 20240101; 20240101]%Z;
     c_time := [930; 931; 932]%Z;
     c_115 := [1; 2.5; 3]%float; c_315 := []; c_555 := [] |}.

(** Two reference rows, and the same two the other way round. *)
Definition two_rows : csv_data :=
  {| c_date := [20240101; 20240101]%Z; c_time := [930; 932]%Z;
     c_115 := [1; 3]%float; c_315 := []; c_555 := [] |}.

Definition two_rows_swapped : csv_data :=
  {| c_date := [20240101; 20240101]%Z; c_time := [932; 930]%Z;
     c_115 := [3; 1]%float; c_315 := []; c_555 := [] |}.

(** A frame without a [bar] column, and one with every column of main. *)
Definition frame_without_bar : Cmma.DataFrame :=
  {| Cmma.n_rows := 2;
     Cmma.columns :=
       <["csv_CMMA_S"%string := [1; 2]%float]>
         (<["computed_CMMA_S"%string := [1; 3]%float]> ∅) |}.

Definition full_frame : Cmma.DataFrame :=
  {| Cmma.n_rows := 1;
     Cmma.columns :=
       list_to_map
         [("bar", [0]); ("csv_CMMA_S", [1]); ("computed_CMMA_S", [2.5]);
          ("csv_CMMA_M", [PyFloat.nan]); ("computed_CMMA_M", [1]);
          ("csv_CMMA_L", [3]); ("computed_CMMA_L", [3])]%string%float |}.

(** [int] on a run of digits with an optional minus sign before it. *)
Definition signed_int (s : string) : option Z :=
  match s with
  | String "-"%char digits => Z.opp <$> int_of_digits digits
  | _ => int_of_digits s
  end.

(** The text of the floats the examples format. *)
Definition float_text (v : float) : string :=
  if (v =? 2.5)%float then "2.5"%string
  else if (v =? 1)%float then "1.0"%string
  else "0.0"%string.

(** A row of the exporter's CSV. *)
Definition ilp_row : QuestDb.row :=
  [("Date", Some "20240101"); ("timestamp_unix", Some "");
   ("timestamp", Some "3.0"); ("CMMA S,x", Some "2.5"); ("n", Some "12");
   ("note", Some "abc"); ("gap", None)]%string.
End Samples.

(** * Part II: properties *)

(** ** Sequences *)

Section SeqFacts.
Import PySeq.
Context {A : Type}.

Lemma enumerate_from_snoc n (l : list A) a :
  enumerate_from n (l ++ [a]) = enumerate_from n l ++ [(n + length l, a)].
Proof.
  revert n. induction l as [|y l IH]; intros n; simpl.
  - by rewrite Nat.add_0_r.
  - by rewrite IH, Nat.add_succ_comm.
Qed.

Lemma enumerate_snoc (l : list A) a :
  enumerate (l ++ [a]) = enumerate l ++ [(length l, a)].
Proof. apply (enumerate_from_snoc 0). Qed.

Lemma elem_of_enumerate_from n (l : list A) i a :
  (i, a) ∈ enumerate_from n l -> n <= i /\ l !! (i - n) = Some a.
Proof.
  revert n. induction l as [|y l IH]; intros n; simpl.
  - intros H. by apply elem_of_nil in H.
  - intros [H|H]%elem_of_cons.
    + injection H as -> ->. split; [lia|]. by rewrite Nat.sub_diag.
    + apply IH in H as [Hle Hl]. split; [lia|].
      replace (i - n) with (S (i - S n)) by lia. done.
Qed.

Lemma elem_of_enumerate (l : list A) i a :
  (i, a) ∈ enumerate l -> l !! i = Some a.
Proof.
  intros H. apply elem_of_enumerate_from in H as [_ H].
  by rewrite Nat.sub_0_r in H.
Qed.

Lemma foldl_agree {S B} (f g : S -> B -> S) (l : list B) (st : S) :
  (forall b s, b ∈ l -> f s b = g s b) -> foldl f st l = foldl g st l.
Proof.
  revert st. induction l as [|b l IH]; intros st H; simpl; [done|].
  rewrite (H b st) by left. apply IH. intros b' s Hb'. apply H. by right.
Qed.
End SeqFacts.

(** ** align_data *)

Section AlignFacts.
Import PyFloat PySeq HitOrMiss.

(** The index holds, for each key, the position of its last occurrence. *)
Lemma build_ohlcv_map_Some (keys : list (Z * Z)) key i :
  build_ohlcv_map keys !! key = Some i <->
  keys !! i = Some key /\ forall j, i < j -> keys !! j <> Some key.
Proof.
  unfold build_ohlcv_map. revert i.
  induction keys as [|k keys IH] using rev_ind; intros i.
  - simpl. rewrite lookup_empty. split; [done|]. by intros [? _].
  - rewrite enumerate_snoc, foldl_app. simpl.
    destruct (decide (k = key)) as [->|Hne].
    + rewrite lookup_insert_eq. split.
      * intros [= <-]. split.
        { by rewrite lookup_app_r, Nat.sub_diag by lia. }
        intros j Hj. rewrite lookup_ge_None_2; [done|].
        rewrite length_app. simpl. lia.
      * intros [Hi Hlast]. f_equal.
        destruct (decide (i = length keys)) as [->|Hi']; [done|].
        exfalso. apply (Hlast (length keys)).
        -- apply lookup_lt_Some in Hi. rewrite length_app in Hi.
           simpl in Hi. lia.
        -- by rewrite lookup_app_r, Nat.sub_diag by lia.
    + rewrite lookup_insert_ne by done. rewrite IH. split.
      * intros [Hi Hlast]. split.
        { by apply lookup_app_l_Some. }
        intros j Hj Hk. apply lookup_snoc_Some in Hk as [[_ Hk]|[_ Hk]].
        -- by apply (Hlast j).
        -- done.
      * intros [Hi Hlast].
        apply lookup_snoc_Some in Hi as [[Hlen Hi]|[_ Hi]]; [|done].
        split; [done|]. intros j Hj Hk. apply (Hlast j Hj).
        by apply lookup_app_l_Some.
Qed.

Lemma build_ohlcv_map_None (keys : list (Z * Z)) key :
  build_ohlcv_map keys !! key = None <-> key ∉ keys.
Proof.
  unfold build_ohlcv_map.
  induction keys as [|k keys IH] using rev_ind.
  - simpl. rewrite lookup_empty. split; [intros _; apply not_elem_of_nil|done].
  - rewrite enumerate_snoc, foldl_app. simpl.
    rewrite not_elem_of_app, lookup_insert_None, IH.
    rewrite list_elem_of_singleton. intuition congruence.
Qed.

Lemma build_ohlcv_map_bound (keys : list (Z * Z)) key i :
  build_ohlcv_map keys !! key = Some i -> i < length keys.
Proof.
  intros [H _]%build_ohlcv_map_Some. by apply lookup_lt_Some in H.
Qed.

Lemma bar_keys_length ohlcv : length (bar_keys ohlcv) <= length (o_date ohlcv).
Proof. unfold bar_keys. rewrite length_zip. lia. Qed.

Lemma place_eq col i idx out :
  place col i idx out =
  match col !! i with Some v => <[idx := v]> out | None => out end.
Proof.
  unfold place. destruct (decide (i < length col)) as [H|H]; [done|].
  by rewrite lookup_ge_None_2 by lia.
Qed.

Lemma align_row_field f m csv out row :
  aligned_field f (align_row m csv out row) =
  align_one m (csv_field f csv) (aligned_field f out) row.
Proof.
  destruct row as [i key]. unfold align_row, align_one. simpl.
  destruct (m !! key); by destruct f.
Qed.

Lemma foldl_align_row_field f m csv rows out :
  aligned_field f (foldl (align_row m csv) out rows) =
  foldl (align_one m (csv_field f csv)) (aligned_field f out) rows.
Proof.
  revert out. induction rows as [|row rows IH]; intros out; simpl; [done|].
  by rewrite IH, align_row_field.
Qed.

Lemma align_data_field f ohlcv csv :
  aligned_field f (align_data ohlcv csv) =
  foldl (align_one (build_ohlcv_map (bar_keys ohlcv)) (csv_field f csv))
    (replicate (length (o_date ohlcv)) nan) (enumerate (row_keys csv)).
Proof. unfold align_data. rewrite foldl_align_row_field. by destruct f. Qed.

Lemma aligned_ext a b :
  (forall f, aligned_field f a = aligned_field f b) -> a = b.
Proof.
  intros H. destruct a, b.
  pose proof (H TGT_115). pose proof (H TGT_315). pose proof (H TGT_555).
  simpl in *. by subst.
Qed.
End AlignFacts.

Section AlignLoop.
Import PyFloat PySeq HitOrMiss.

Variable m : gmap (Z * Z) nat.
Variable n : nat.
Variable col : list float.

Lemma run_snoc rows k :
  run m n col (rows ++ [k]) =
  match m !! k with
  | Some idx =>
      match col !! length rows with
      | Some v => <[idx := v]> (run m n col rows)
      | None => run m n col rows
      end
  | None => run m n col rows
  end.
Proof.
  unfold run. rewrite enumerate_snoc, foldl_app. simpl.
  unfold align_one at 1. simpl. destruct (m !! k); [|done].
  by rewrite place_eq.
Qed.

Lemma writes_snoc_lt rows k p i :
  i < length rows -> writes m col (rows ++ [k]) p i <-> writes m col rows p i.
Proof.
  intros Hi. unfold writes. by setoid_rewrite (lookup_app_l rows [k] i Hi).
Qed.

Lemma writes_lt rows p i : writes m col rows p i -> i < length rows.
Proof. intros (key & H & _). by apply lookup_lt_Some in H. Qed.

Lemma writes_snoc_last rows k p :
  writes m col (rows ++ [k]) p (length rows) <->
  m !! k = Some p /\ is_Some (col !! length rows).
Proof.
  unfold writes. rewrite lookup_app_r, Nat.sub_diag by lia. simpl. split.
  - intros (key & [= <-] & H). done.
  - intros H. by exists k.
Qed.

Lemma writes_snoc_inv rows k p i :
  writes m col (rows ++ [k]) p i ->
  ~ writes m col (rows ++ [k]) p (length rows) ->
  writes m col rows p i.
Proof.
  intros Hw Hno. pose proof (writes_lt _ _ _ Hw) as Hi.
  rewrite length_app in Hi. simpl in Hi.
  destruct (decide (i = length rows)) as [->|Hne]; [done|].
  apply (writes_snoc_lt rows k p i); [lia|done].
Qed.

Lemma run_length rows : length (run m n col rows) = n.
Proof.
  induction rows as [|k rows IH] using rev_ind.
  - apply length_replicate.
  - rewrite run_snoc. destruct (m !! k); [|done].
    destruct (col !! length rows); [|done]. by rewrite length_insert.
Qed.

(** A row that does not write position [p] leaves it settled. *)
Lemma settled_snoc_skip rows k p out :
  ~ writes m col (rows ++ [k]) p (length rows) ->
  settled m col rows p out -> settled m col (rows ++ [k]) p out.
Proof.
  intros Hno [HA HB]. split.
  - intros i v Hw Hv Hmax.
    pose proof (writes_snoc_inv _ _ _ _ Hw Hno) as Hw'.
    apply (HA i v Hw' Hv). intros j Hj Hwj. apply (Hmax j Hj).
    apply writes_snoc_lt; [by eapply writes_lt|done].
  - intros Hnone. apply HB. intros i Hw. apply (Hnone i).
    apply writes_snoc_lt; [by eapply writes_lt|done].
Qed.

(** After the loop, a position holds the entry of the last row that wrote
    it, and the missing marker when no row did. *)
Lemma run_spec rows p :
  p < n -> settled m col rows p (run m n col rows).
Proof.
  intros Hp. induction rows as [|k rows IH] using rev_ind.
  - split.
    + intros i v (key & H & _). done.
    + intros _. by apply lookup_replicate_2.
  - rewrite run_snoc.
    pose proof (writes_snoc_last rows k p) as Hlast.
    destruct (m !! k) as [idx|] eqn:Hk.
    2:{ apply settled_snoc_skip; [|done]. rewrite Hlast. by intros [? _]. }
    destruct (col !! length rows) as [w|] eqn:Hw.
    2:{ apply settled_snoc_skip; [|done]. rewrite Hlast. by intros [_ [? ?]]. }
    destruct (decide (idx = p)) as [->|Hne].
    + assert (writes m col (rows ++ [k]) p (length rows)) as Hyes
        by (apply Hlast; split; [done|by eexists]).
      split.
      * intros i v Hwi Hv Hmax.
        destruct (decide (i = length rows)) as [->|Hi].
        -- rewrite list_lookup_insert_eq by (rewrite run_length; lia).
           congruence.
        -- exfalso. apply (Hmax (length rows)); [|done].
           pose proof (writes_lt _ _ _ Hwi) as Hi'.
           rewrite length_app in Hi'. simpl in Hi'. lia.
      * intros Hnone. exfalso. by apply (Hnone (length rows)).
    + assert (settled m col (rows ++ [k]) p (run m n col rows)) as [HA HB].
      { apply settled_snoc_skip; [|done]. rewrite Hlast.
        intros [? _]; congruence. }
      split.
      * intros i v Hwi Hv Hmax.
        rewrite list_lookup_insert_ne by done. by apply (HA i v).
      * intros Hnone. rewrite list_lookup_insert_ne by done. by apply HB.
Qed.
End AlignLoop.

Section AlignTheorems.
Import PyFloat PySeq HitOrMiss.

Lemma ohlcv_map_bound ohlcv key idx :
  build_ohlcv_map (bar_keys ohlcv) !! key = Some idx ->
  idx < length (o_date ohlcv).
Proof.
  intros H%build_ohlcv_map_bound. pose proof (bar_keys_length ohlcv). lia.
Qed.

Lemma align_data_run f ohlcv csv :
  aligned_field f (align_data ohlcv csv) =
  run (build_ohlcv_map (bar_keys ohlcv)) (length (o_date ohlcv))
    (csv_field f csv) (row_keys csv).
Proof. apply align_data_field. Qed.

(** The value a field array holds at the position a key is indexed at comes
    from the last row that carries the key and has the field. *)
Lemma align_data_last_row f ohlcv csv key p r v :
  build_ohlcv_map (bar_keys ohlcv) !! key = Some p ->
  row_keys csv !! r = Some key ->
  csv_field f csv !! r = Some v ->
  (forall r', r < r' -> row_keys csv !! r' = Some key ->
     csv_field f csv !! r' = None) ->
  aligned_field f (align_data ohlcv csv) !! p = Some v.
Proof.
  intros Hm Hr Hv Hlast. rewrite align_data_run.
  pose proof (ohlcv_map_bound _ _ _ Hm) as Hp.
  destruct (run_spec (build_ohlcv_map (bar_keys ohlcv)) _
              (csv_field f csv) (row_keys csv) p Hp) as [HA _].
  apply (HA r v); [|done|].
  - exists key. by rewrite Hv.
  - intros j Hj (key' & Hj' & Hm' & [w Hw]).
    assert (key' = key) as ->.
    { apply build_ohlcv_map_Some in Hm as [Hm _].
      apply build_ohlcv_map_Some in Hm' as [Hm' _]. congruence. }
    rewrite (Hlast j Hj Hj') in Hw. done.
Qed.

Lemma align_data_untouched f ohlcv csv p :
  p < length (o_date ohlcv) ->
  (forall r key, row_keys csv !! r = Some key ->
     build_ohlcv_map (bar_keys ohlcv) !! key = Some p ->
     csv_field f csv !! r = None) ->
  aligned_field f (align_data ohlcv csv) !! p = Some nan.
Proof.
  intros Hp Hnone. rewrite align_data_run.
  destruct (run_spec (build_ohlcv_map (bar_keys ohlcv)) _
              (csv_field f csv) (row_keys csv) p Hp) as [_ HB].
  apply HB. intros i (key & Hi & Hm & [w Hw]).
  rewrite (Hnone i key Hi Hm) in Hw. done.
Qed.

Lemma align_data_absent_row ohlcv csv csv' r key :
  row_keys csv !! r = Some key ->
  build_ohlcv_map (bar_keys ohlcv) !! key = None ->
  row_keys csv' = row_keys csv ->
  (forall g i, i <> r -> csv_field g csv' !! i = csv_field g csv !! i) ->
  align_data ohlcv csv' = align_data ohlcv csv.
Proof.
  intros Hr Hm Hkeys Hsame. apply aligned_ext. intros f.
  rewrite !align_data_field, Hkeys. apply foldl_agree.
  intros [i k] out Hin%elem_of_enumerate. unfold align_one. simpl.
  destruct (build_ohlcv_map (bar_keys ohlcv) !! k) as [idx|] eqn:Hk; [|done].
  rewrite !place_eq. destruct (decide (i = r)) as [->|Hne].
  - congruence.
  - by rewrite Hsame.
Qed.

(** C1, as amended.  Alignment is purely key-based.  For a key of the
    primary series, let [b] be the LAST bar carrying it and [r] the LAST
    reference row carrying it that has the field: the aligned series of
    the field holds [r]'s value at position [b].  Every output array has
    one slot per bar; a slot that no reference row with an indexed key and
    a value for the field maps to holds the missing marker NaN; and a
    reference row whose key is absent from the index contributes nothing:
    whatever its field values are, the output is the same. *)
Theorem align_data_key_based ohlcv csv f :
  length (aligned_field f (align_data ohlcv csv)) = length (o_date ohlcv) /\
  (forall b r key v,
     bar_keys ohlcv !! b = Some key ->
     (forall b', b < b' -> bar_keys ohlcv !! b' <> Some key) ->
     row_keys csv !! r = Some key ->
     csv_field f csv !! r = Some v ->
     (forall r', r < r' -> row_keys csv !! r' = Some key ->
        csv_field f csv !! r' = None) ->
     aligned_field f (align_data ohlcv csv) !! b = Some v) /\
  (forall p,
     p < length (o_date ohlcv) ->
     (forall r key, row_keys csv !! r = Some key ->
        build_ohlcv_map (bar_keys ohlcv) !! key = Some p ->
        csv_field f csv !! r = None) ->
     aligned_field f (align_data ohlcv csv) !! p = Some nan) /\
  (forall r key csv',
     row_keys csv !! r = Some key ->
     build_ohlcv_map (bar_keys ohlcv) !! key = None ->
     row_keys csv' = row_keys csv ->
     (forall g i, i <> r -> csv_field g csv' !! i = csv_field g csv !! i) ->
     align_data ohlcv csv' = align_data ohlcv csv).
Proof.
  repeat split.
  - rewrite align_data_run. apply run_length.
  - intros b r key v Hb Hblast Hr Hv Hrlast.
    apply (align_data_last_row f ohlcv csv key b r v); try done.
    by apply build_ohlcv_map_Some.
  - apply align_data_untouched.
  - intros r key csv'. apply align_data_absent_row.
Qed.

(** C5.  Duplicate keys resolve last-write-wins at both stages.  The index
    maps a key to the bar position of its last occurrence in the primary
    series; and when two reference rows carry the same indexed key, the
    aligned value at the indexed position is the value of the later row
    (the last one of the file with that key), not that of the earlier. *)
Theorem duplicate_keys_last_write_wins ohlcv csv :
  (forall key i,
     build_ohlcv_map (bar_keys ohlcv) !! key = Some i <->
     bar_keys ohlcv !! i = Some key /\
     forall j, i < j -> bar_keys ohlcv !! j <> Some key) /\
  (forall f key p r1 r2 v1 v2,
     build_ohlcv_map (bar_keys ohlcv) !! key = Some p ->
     r1 < r2 ->
     row_keys csv !! r1 = Some key -> csv_field f csv !! r1 = Some v1 ->
     row_keys csv !! r2 = Some key -> csv_field f csv !! r2 = Some v2 ->
     (forall j, r2 < j -> row_keys csv !! j <> Some key) ->
     aligned_field f (align_data ohlcv csv) !! p = Some v2).
Proof.
  split.
  - intros key i. apply build_ohlcv_map_Some.
  - intros f key p r1 r2 v1 v2 Hm _ _ _ Hr2 Hv2 Hlast.
    apply (align_data_last_row f ohlcv csv key p r2 v2); try done.
    intros r' Hr' Hk. by destruct (Hlast r' Hr').
Qed.
End AlignTheorems.

Section AlignExamples.
Import PyFloat PySeq HitOrMiss Samples.

(** C1 is not the code's behaviour as stated: of two bars with one key only
    the last receives the reference value, and of two reference rows with one
    key only the last leaves its value. *)
Lemma align_data_misses_earlier_duplicate :
  (bar_keys twin_bars !! 0 = Some (20240101, 930)%Z /\
   row_keys one_row !! 0 = Some (20240101, 930)%Z /\
   csv_field TGT_115 one_row !! 0 = Some 2.5%float /\
   aligned_field TGT_115 (align_data twin_bars one_row) = [nan; 2.5%float] /\
   nan <> 2.5%float) /\
  (bar_keys three_bars !! 0 = Some (20240101, 930)%Z /\
   row_keys three_rows !! 0 = Some (20240101, 930)%Z /\
   csv_field TGT_115 three_rows !! 0 = Some 1%float /\
   aligned_field TGT_115 (align_data three_bars three_rows)
   = [2.5%float; nan; 3%float]).
Proof.
  repeat split; try (vm_compute; reflexivity).
  intros H. apply (f_equal isnan) in H. done.
Qed.

Lemma align_data_key_based_witness :
  aligned_field TGT_115 (align_data three_bars three_rows) !! 0
  = Some 2.5%float.
Proof.
  apply (proj1 (proj2 (align_data_key_based three_bars three_rows TGT_115))
           0 2 (20240101, 930)%Z 2.5%float).
  - reflexivity.
  - intros [|[|[|b']]] Hb; simpl; (lia || discriminate).
  - reflexivity.
  - reflexivity.
  - intros [|[|[|[|r']]]] Hr; simpl; intros; (lia || done).
Defined.

Lemma duplicate_keys_last_write_wins_witness :
  aligned_field TGT_115 (align_data three_bars three_rows) !! 0
  = Some 2.5%float.
Proof.
  apply (proj2 (duplicate_keys_last_write_wins three_bars three_rows)
           TGT_115 (20240101, 930)%Z 0 0 2 1%float 2.5%float).
  - vm_compute. reflexivity.
  - lia.
  - reflexivity.
  - reflexivity.
  - reflexivity.
  - reflexivity.
  - intros [|[|[|[|j]]]] Hj; simpl; (lia || discriminate).
Defined.
End AlignExamples.

(** ** parse_tssb_csv *)

Section ParseFacts.
Import PyFloat PySeq PyStr HitOrMiss.

Variable py_int : string -> option Z.
Variable py_float : string -> option float.

Lemma for_each_app {A S} (body : S -> A -> result S) st l1 l2 :
  for_each body st (l1 ++ l2) =
  (st' <- for_each body st l1 ;; for_each body st' l2).
Proof.
  revert st. induction l1 as [|a l1 IH]; intros st; simpl; [done|].
  destruct (body st a); simpl; [apply IH|done].
Qed.

Lemma filter_truthy_all_falsy i115 i315 i555 :
  (forall f, truthy (pick f i115 i315 i555) = false) ->
  filter_truthy [i115; i315; i555] = [].
Proof.
  intros H. pose proof (H TGT_115) as H1. pose proof (H TGT_315) as H2.
  pose proof (H TGT_555) as H3. simpl in *.
  unfold filter_truthy. simpl. by rewrite H1, H2, H3.
Qed.

Lemma parse_row_no_index i115 i315 i555 acc line :
  (forall f, truthy (pick f i115 i315 i555) = false) ->
  parse_row py_int py_float i115 i315 i555 acc line = Raise ValueError.
Proof.
  intros H. unfold parse_row. by rewrite filter_truthy_all_falsy.
Qed.

(** What an accepted row appends. *)
Lemma parse_row_accepted i115 i315 i555 acc line m d t :
  py_max (filter_truthy [i115; i315; i555]) = Ok m ->
  m < length (split line) ->
  int_at py_int (split line) 0 = Ok d ->
  int_at py_int (split line) 1 = Ok t ->
  parse_row py_int py_float i115 i315 i555 acc line =
  Ok {| c_date := c_date acc ++ [d];
        c_time := c_time acc ++ [t];
        c_115 := read_cell py_float (split line) i115 (c_115 acc);
        c_315 := read_cell py_float (split line) i315 (c_315 acc);
        c_555 := read_cell py_float (split line) i555 (c_555 acc) |}.
Proof.
  intros Hm Hlen Hd Ht. unfold parse_row. rewrite Hm. simpl.
  rewrite decide_True by done. by rewrite Hd, Ht.
Qed.

Lemma parse_row_field i115 i315 i555 acc line acc' f :
  parse_row py_int py_float i115 i315 i555 acc line = Ok acc' ->
  csv_field f acc' = csv_field f acc \/
  csv_field f acc' =
    read_cell py_float (split line) (pick f i115 i315 i555) (csv_field f acc).
Proof.
  unfold parse_row.
  destruct (py_max _) as [m|]; simpl; [|done].
  destruct (decide _); [|intros [= <-]; by left].
  destruct (int_at _ _ 0); simpl; [|done].
  destruct (int_at _ _ 1); simpl; [|done].
  intros [= <-]. right. by destruct f.
Qed.

Lemma read_cell_falsy parts idx col :
  truthy idx = false -> read_cell py_float parts idx col = col.
Proof. intros H. unfold read_cell. by rewrite H. Qed.

Lemma for_each_parse_row_falsy i115 i315 i555 f lines acc acc' :
  truthy (pick f i115 i315 i555) = false ->
  for_each (parse_row py_int py_float i115 i315 i555) acc lines = Ok acc' ->
  csv_field f acc' = csv_field f acc.
Proof.
  intros Hf. revert acc. induction lines as [|line lines IH]; intros acc; simpl.
  - by intros [= <-].
  - destruct (parse_row _ _ _ _ _ acc line) as [acc1|] eqn:Hrow; simpl; [|done].
    intros H. rewrite (IH _ H).
    destruct (parse_row_field _ _ _ _ _ _ f Hrow) as [->| ->]; [done|].
    by apply read_cell_falsy.
Qed.

Lemma foldl_max_bound (l : list nat) x k :
  k = x \/ k ∈ l -> k <= foldl Nat.max x l.
Proof.
  revert x k. induction l as [|y l IH]; intros x k; simpl.
  - intros [->|H]; [done|]. by apply elem_of_nil in H.
  - intros [->|[->|H]%elem_of_cons].
    + trans (Nat.max x y); [lia|]. apply IH. by left.
    + trans (Nat.max x y); [lia|]. apply IH. by left.
    + apply IH. by right.
Qed.

Lemma py_max_bound l m k : py_max l = Ok m -> k ∈ l -> k <= m.
Proof.
  destruct l as [|x l]; simpl; [done|]. intros [= <-].
  intros [->|H]%elem_of_cons; apply foldl_max_bound; auto.
Qed.

Lemma py_max_is_Ok l k : k ∈ l -> exists m, py_max l = Ok m.
Proof. destruct l; [by intros ?%elem_of_nil|]. simpl. eauto. Qed.

Lemma elem_of_filter_truthy idxs k :
  k ∈ filter_truthy idxs <-> Some k ∈ idxs /\ k <> 0.
Proof.
  unfold filter_truthy. rewrite list_elem_of_omap. split.
  - intros (idx & Hin & H). destruct idx as [[|k']|]; simpl in H; try done.
    injection H as <-. done.
  - intros [Hin Hk]. exists (Some k). split; [done|].
    by destruct k.
Qed.

Lemma column_index_first header f :
  header !! 0 = Some (field_name f) -> column_index header f = Some 0.
Proof.
  unfold column_index. destruct header as [|h header]; simpl; [done|].
  intros [= ->]. by rewrite decide_True.
Qed.
End ParseFacts.

Section ParseTheorems.
Import PyFloat PySeq PyStr HitOrMiss.

Variable py_int : string -> option Z.
Variable py_float : string -> option float.

Lemma foldl_max_attained (l : list nat) x : foldl Nat.max x l ∈ x :: l.
Proof.
  revert x. induction l as [|y l IH]; intros x; simpl; [left|].
  pose proof (IH (Nat.max x y)) as H.
  apply elem_of_cons in H as [H|H].
  - rewrite H.
    destruct (Nat.max_spec x y) as [[_ Hmax]|[_ Hmax]]; rewrite Hmax.
    + right. left.
    + left.
  - by do 2 right.
Qed.

Lemma py_max_attained l m : py_max l = Ok m -> m ∈ l.
Proof.
  destruct l as [|x l]; simpl; [done|]. intros [= <-].
  apply foldl_max_attained.
Qed.

Lemma column_guard header (parts : list string) f k :
  column_index header f = Some k -> k <> 0 ->
  (forall g k', column_index header g = Some k' -> k' < length parts) ->
  exists m,
    py_max (filter_truthy [column_index header TGT_115;
                           column_index header TGT_315;
                           column_index header TGT_555]) = Ok m /\
    m < length parts.
Proof.
  intros Hf Hk Hall.
  set (idxs := [column_index header TGT_115; column_index header TGT_315;
                column_index header TGT_555]).
  assert (k ∈ filter_truthy idxs) as Hin.
  { apply elem_of_filter_truthy. split; [|done]. rewrite <- Hf.
    unfold idxs. destruct f; set_solver. }
  destruct (py_max_is_Ok _ _ Hin) as [m Hm]. exists m. split; [done|].
  apply py_max_attained, elem_of_filter_truthy in Hm as [Hm _].
  unfold idxs in Hm.
  apply elem_of_cons in Hm as [Hm|Hm]; [by apply (Hall TGT_115)|].
  apply elem_of_cons in Hm as [Hm|Hm]; [by apply (Hall TGT_315)|].
  apply list_elem_of_singleton in Hm. by apply (Hall TGT_555).
Qed.

Lemma read_cell_fails parts k cell col :
  k <> 0 -> parts !! k = Some cell -> py_float cell = None ->
  read_cell py_float parts (Some k) col = col ++ [nan].
Proof.
  intros Hk Hcell Hfail. unfold read_cell. destruct k; [done|]. simpl.
  rewrite Hcell. simpl. by rewrite Hfail.
Qed.

Lemma read_cell_converts parts k cell v col :
  k <> 0 -> parts !! k = Some cell -> py_float cell = Some v ->
  read_cell py_float parts (Some k) col = col ++ [v].
Proof.
  intros Hk Hcell Hv. unfold read_cell. destruct k; [done|]. simpl.
  rewrite Hcell. simpl. by rewrite Hv.
Qed.

(** C8.  A row that is long enough for the requested columns and whose
    date and time convert is accepted.  If the cell of a collected column
    fails [float], the row still yields a record: the date and the time are
    appended, the failing cell is recorded as NaN (not as zero, and without
    an exception), and every other collected column gets the value of its
    own cell. *)
Theorem unparsable_cell_recorded_as_nan
    header_line before line acc f k cell s0 s1 d t :
  parse_tssb_csv py_int py_float header_line before = Ok acc ->
  column_index (split header_line) f = Some k -> k <> 0 ->
  (forall g k', column_index (split header_line) g = Some k' ->
     k' < length (split line)) ->
  split line !! 0 = Some s0 -> py_int s0 = Some d ->
  split line !! 1 = Some s1 -> py_int s1 = Some t ->
  split line !! k = Some cell -> py_float cell = None ->
  exists acc',
    parse_tssb_csv py_int py_float header_line (before ++ [line]) = Ok acc' /\
    c_date acc' = c_date acc ++ [d] /\
    c_time acc' = c_time acc ++ [t] /\
    csv_field f acc' = csv_field f acc ++ [nan] /\
    nan <> 0%float /\
    (forall g k' cell' v,
       g <> f ->
       column_index (split header_line) g = Some k' -> k' <> 0 ->
       split line !! k' = Some cell' -> py_float cell' = Some v ->
       csv_field g acc' = csv_field g acc ++ [v]).
Proof.
  intros Hbefore Hf Hk Hall H0 Hd H1 Ht Hcell Hfail.
  unfold parse_tssb_csv in *. rewrite for_each_app, Hbefore. simpl.
  destruct (column_guard _ (split line) f k Hf Hk Hall) as (m & Hm & Hlen).
  erewrite parse_row_accepted; [|exact Hm|exact Hlen| |].
  2:{ unfold int_at. by rewrite H0, Hd. }
  2:{ unfold int_at. by rewrite H1, Ht. }
  simpl. eexists. split; [done|]. simpl. repeat split.
  - destruct f; simpl; rewrite Hf; by eapply read_cell_fails.
  - intros Heq. apply (f_equal isnan) in Heq. done.
  - intros g k' cell' v _ Hg Hk' Hcell' Hv.
    destruct g; simpl; rewrite Hg; by eapply read_cell_converts.
Qed.

(** C9.  A requested column that is the first name of the header gets the
    index 0, which the loop body reads as false: whatever the data lines
    are, a parse that returns has collected no value for that column. *)
Theorem column_at_position_zero_not_collected header_line data_lines f :
  split header_line !! 0 = Some (field_name f) ->
  column_index (split header_line) f = Some 0 /\
  field_name f ∈ split header_line /\
  forall d,
    parse_tssb_csv py_int py_float header_line data_lines = Ok d ->
    csv_field f d = [].
Proof.
  intros H0. pose proof (column_index_first _ _ H0) as Hidx.
  split; [done|]. split.
  { apply list_elem_of_lookup. eauto. }
  intros d Hparse. unfold parse_tssb_csv in Hparse.
  apply (for_each_parse_row_falsy _ _ _ _ _ f) in Hparse.
  - rewrite Hparse. by destruct f.
  - destruct f; simpl; by rewrite Hidx.
Qed.

(** C10.  When every requested column is absent from the header or sits at
    position 0, the first data line already raises [ValueError], the
    maximum of an empty sequence; only a file without data lines parses. *)
Theorem no_collected_column_raises header_line data_lines :
  (forall f, column_index (split header_line) f = None \/
             column_index (split header_line) f = Some 0) ->
  data_lines <> [] ->
  parse_tssb_csv py_int py_float header_line data_lines = Raise ValueError.
Proof.
  intros Hidx Hne. unfold parse_tssb_csv.
  destruct data_lines as [|line rest]; [done|]. simpl.
  rewrite parse_row_no_index; [done|].
  intros f. destruct (Hidx f) as [H|H]; destruct f; simpl; by rewrite H.
Qed.
End ParseTheorems.

Section ParseExamples.
Import PyFloat PySeq PyStr HitOrMiss Samples.

Lemma unparsable_cell_recorded_as_nan_witness :
  exists acc',
    parse_tssb_csv int_of_digits float_of_literal
      "Date Time TGT_115 TGT_315"
      (["20240101 930 1.0 2.5"%string] ++ ["20240101 931 x 3.0"%string])
    = Ok acc' /\
    c_date acc' = [20240101; 20240101]%Z /\
    c_time acc' = [930; 931]%Z /\
    c_115 acc' = [1%float; nan] /\
    c_315 acc' = [2.5%float; 3%float].
Proof.
  destruct (unparsable_cell_recorded_as_nan int_of_digits float_of_literal
              "Date Time TGT_115 TGT_315" ["20240101 930 1.0 2.5"%string]
              "20240101 931 x 3.0"
              {| c_date := [20240101%Z]; c_time := [930%Z];
                 c_115 := [1%float]; c_315 := [2.5%float]; c_555 := [] |}
              TGT_115 2 "x" "20240101" "931" 20240101%Z 931%Z)
    as (acc' & Hparse & Hd & Ht & Hf & _ & Hother).
  - vm_compute. reflexivity.
  - reflexivity.
  - lia.
  - intros [] k'; vm_compute; intros [= <-]; lia.
  - reflexivity.
  - reflexivity.
  - reflexivity.
  - reflexivity.
  - reflexivity.
  - reflexivity.
  - exists acc'. repeat split; try done.
    apply (Hother TGT_315 3 "3.0"%string 3%float); (done || reflexivity).
Defined.

Lemma column_at_position_zero_not_collected_witness :
  exists d,
    parse_tssb_csv int_of_digits float_of_literal "TGT_115 Time TGT_315"
      ["20240101 930 1.0"; "20240101 931 2.5"]%string = Ok d /\
    c_date d = [20240101; 20240101]%Z /\
    c_315 d = [1%float; 2.5%float] /\
    csv_field TGT_115 d = [].
Proof.
  eexists. split; [vm_compute; reflexivity|].
  split; [reflexivity|]. split; [reflexivity|].
  apply (proj2 (proj2 (column_at_position_zero_not_collected
                         int_of_digits float_of_literal
                         "TGT_115 Time TGT_315"
                         ["20240101 930 1.0"; "20240101 931 2.5"]%string
                         TGT_115 eq_refl))).
  vm_compute. reflexivity.
Defined.

Lemma no_collected_column_raises_witness :
  parse_tssb_csv int_of_digits float_of_literal "Date Time CMMA_S"
    ["20240101 930 1.0"]%string = Raise ValueError.
Proof.
  apply no_collected_column_raises.
  - intros []; left; reflexivity.
  - discriminate.
Defined.
End ParseExamples.

(** ** extract_computed_values *)

Section ExtractFacts.
Import PyStr HitOrMiss.

Variable py_int : string -> option Z.
Variable py_float : string -> option float.
Variable indicator_name : string.

Local Abbreviation scan_line' := (scan_line py_int py_float indicator_name).
Local Abbreviation scan_lines' := (scan_lines py_int py_float indicator_name).

Lemma scan_line_header st line :
  is_header indicator_name line = true ->
  scan_line' st line =
  Next {| in_section := true; computed_values := computed_values st |}.
Proof. intros H. unfold scan_line. by rewrite H. Qed.

Lemma scan_line_idle st line :
  is_header indicator_name line = false -> in_section st = false ->
  scan_line' st line = Next st.
Proof.
  intros H Hidle. unfold scan_line. rewrite H, Hidle. simpl.
  by destruct st; simpl in *; subst.
Qed.

Lemma scan_line_unmatched st line :
  is_header indicator_name line = false -> is_data line = false ->
  is_summary line = false ->
  scan_line' st line = Next st.
Proof.
  intros H Hd Hs. unfold scan_line. rewrite H, Hd, Hs, !andb_false_r.
  by destruct st.
Qed.

Lemma record_data_triple line cv b c :
  4 <= length (split line) ->
  read_triple py_int py_float (split line) = Some (b, c) ->
  record_data py_int py_float line cv = <[b := c]> cv.
Proof.
  intros Hlen Ht. unfold record_data. rewrite decide_True by done.
  by rewrite Ht.
Qed.

Lemma scan_line_next_step st st' line :
  scan_line' st line = Next st' ->
  TwoStateSpec.step py_int py_float indicator_name
    (mode_of st, computed_values st) line =
  (mode_of st', computed_values st').
Proof.
  unfold scan_line, TwoStateSpec.step, mode_of. simpl.
  destruct (is_header indicator_name line); [by intros [= <-]|].
  destruct (in_section st); simpl.
  - destruct (is_summary line); [done|]. by intros [= <-].
  - by intros [= <-].
Qed.

Lemma scan_line_break_step st st' line :
  scan_line' st line = Break st' ->
  TwoStateSpec.step py_int py_float indicator_name
    (mode_of st, computed_values st) line =
  (TwoStateSpec.Idle, computed_values st').
Proof.
  unfold scan_line, TwoStateSpec.step, mode_of. simpl.
  destruct (is_header indicator_name line); [done|].
  destruct (in_section st); simpl; [|done].
  destruct (is_summary line); [|done]. by intros [= <-].
Qed.

Lemma scan_lines_examined st lines :
  computed_values (scan_lines' st lines) =
  (TwoStateSpec.run py_int py_float indicator_name
     (mode_of st, computed_values st) (examined py_int py_float indicator_name st lines)).2.
Proof.
  revert st. induction lines as [|line rest IH]; intros st; simpl; [done|].
  destruct (scan_line' st line) as [st'|st'] eqn:Hline; simpl.
  - rewrite IH. unfold TwoStateSpec.run. simpl.
    by rewrite (scan_line_next_step _ _ _ Hline).
  - by rewrite (scan_line_break_step _ _ _ Hline).
Qed.

(** A line that is not a header line, met while collecting. *)
Lemma scan_line_collecting st line :
  is_header indicator_name line = false -> in_section st = true ->
  scan_line' st line =
  let st' :=
    {| in_section := true;
       computed_values :=
         if is_data line
         then record_data py_int py_float line (computed_values st)
         else computed_values st |} in
  if is_summary line then Break st' else Next st'.
Proof. intros H Hin. unfold scan_line. by rewrite H, Hin. Qed.

Lemma record_data_unread line cv :
  length (split line) < 4 \/ read_triple py_int py_float (split line) = None ->
  record_data py_int py_float line cv = cv.
Proof.
  intros H. unfold record_data. destruct (decide _) as [Hlen|]; [|done].
  destruct H as [H|H]; [lia|]. by rewrite H.
Qed.

(** The scan from the idle state is the scan from the collecting state of
    what follows the first header line. *)
Lemma scan_lines_idle cv lines :
  computed_values
    (scan_lines' {| in_section := false; computed_values := cv |} lines) =
  computed_values
    (scan_lines' {| in_section := true; computed_values := cv |}
       (drop_through (is_header indicator_name) lines)).
Proof.
  induction lines as [|line rest IH]; [done|]. simpl.
  destruct (is_header indicator_name line) eqn:Hh.
  - by rewrite scan_line_header.
  - by rewrite scan_line_idle.
Qed.

(** The scan from the collecting state records the data lines up to the
    line that ends the section. *)
Lemma scan_lines_collecting cv lines :
  computed_values
    (scan_lines' {| in_section := true; computed_values := cv |} lines) =
  foldl (fun cv line => record_data py_int py_float line cv) cv
    (filter (fun line => is_header indicator_name line = false /\
                         is_data line = true)
       (take_through (closes indicator_name) lines)).
Proof.
  revert cv. induction lines as [|line rest IH]; intros cv; [done|]. simpl.
  unfold closes. destruct (is_header indicator_name line) eqn:Hh.
  - rewrite scan_line_header by done. simpl.
    rewrite filter_cons_False by (intros [? _]; congruence). apply IH.
  - rewrite scan_line_collecting by done. simpl.
    destruct (is_summary line), (is_data line) eqn:Hd; simpl.
    + by rewrite filter_cons_True, filter_nil by done.
    + by rewrite filter_cons_False, filter_nil by (intros [_ ?]; congruence).
    + rewrite filter_cons_True by done. apply IH.
    + rewrite filter_cons_False by (intros [_ ?]; congruence). apply IH.
Qed.

Lemma extract_computed_values_entries output_text :
  extract_computed_values py_int py_float output_text indicator_name =
  section_entries py_int py_float indicator_name (split_lines output_text).
Proof.
  unfold extract_computed_values, scan_start, section_entries, section_lines.
  by rewrite scan_lines_idle, scan_lines_collecting.
Qed.

(** The lines the loop examines, read off the text. *)
Lemma examined_collecting st lines :
  in_section st = true ->
  examined py_int py_float indicator_name st lines =
  take_through (closes indicator_name) lines.
Proof.
  revert st. induction lines as [|line rest IH]; intros st Hin; [done|].
  simpl. unfold closes.
  destruct (is_header indicator_name line) eqn:Hh.
  - rewrite scan_line_header by done. simpl. by rewrite IH.
  - rewrite scan_line_collecting by done. simpl.
    destruct (is_summary line); simpl; [done|]. by rewrite IH.
Qed.

Lemma examined_idle st lines :
  in_section st = false ->
  examined py_int py_float indicator_name st lines =
  examined_lines indicator_name lines.
Proof.
  unfold examined_lines, section_lines.
  revert st. induction lines as [|line rest IH]; intros st Hin; [done|].
  simpl. destruct (is_header indicator_name line) eqn:Hh.
  - rewrite scan_line_header by done. simpl. by rewrite examined_collecting.
  - rewrite scan_line_idle by done. simpl. by rewrite IH.
Qed.
End ExtractFacts.

Section ExtractTheorems.
Import PyStr HitOrMiss.

Variable py_int : string -> option Z.
Variable py_float : string -> option float.
Variable indicator_name : string.

Local Abbreviation scan_line' := (scan_line py_int py_float indicator_name).
Local Abbreviation scan_lines' := (scan_lines py_int py_float indicator_name).

(** C3, as amended.  The extractor tests each line for the section header
    first, then for the data pattern, then for the summary marker.  A
    header line enters (or stays in) the collecting state and is not tested
    further; any other line met in the idle state changes nothing, whatever
    it matches; while collecting, a data line of at least four tokens whose
    triple converts adds its (bar index, computed value) entry, and one
    that is too short or does not convert adds nothing, without error; a
    line matching none of the three is ignored; and a summary line met while
    collecting ends the whole scan, after its own entry when it is a data
    line too: the loop breaks, so no later line, not even a later section
    header, is examined.  Hence the result holds the entries of the data
    lines among the lines that follow the first header line, up to and
    including the first summary line that is not a header line; it is the
    result of the two-state machine run over the text up to that line
    only. *)
Theorem extractor_scans_until_summary :
  (forall st line,
     is_header indicator_name line = true ->
     scan_line' st line =
     Next {| in_section := true; computed_values := computed_values st |}) /\
  (forall st line,
     is_header indicator_name line = false ->
     in_section st = false ->
     scan_line' st line = Next st) /\
  (forall st line b c,
     is_header indicator_name line = false ->
     in_section st = true ->
     is_data line = true ->
     4 <= length (split line) ->
     read_triple py_int py_float (split line) = Some (b, c) ->
     scan_line' st line =
     let st' := {| in_section := true;
                   computed_values := <[b := c]> (computed_values st) |} in
     if is_summary line then Break st' else Next st') /\
  (forall st line,
     is_header indicator_name line = false ->
     in_section st = true ->
     is_data line = true ->
     length (split line) < 4 \/
       read_triple py_int py_float (split line) = None ->
     scan_line' st line = if is_summary line then Break st else Next st) /\
  (forall st line,
     is_header indicator_name line = false ->
     is_data line = false ->
     is_summary line = false ->
     scan_line' st line = Next st) /\
  (forall st line rest,
     is_header indicator_name line = false ->
     in_section st = true ->
     is_summary line = true ->
     exists st',
       scan_line' st line = Break st' /\
       computed_values st' =
         (if is_data line
          then record_data py_int py_float line (computed_values st)
          else computed_values st) /\
       scan_lines' st (line :: rest) = st') /\
  (forall output_text,
     extract_computed_values py_int py_float output_text indicator_name =
     section_entries py_int py_float indicator_name
       (split_lines output_text)) /\
  (forall output_text,
     extract_computed_values py_int py_float output_text indicator_name =
     (TwoStateSpec.run py_int py_float indicator_name
        (TwoStateSpec.Idle, ∅)
        (examined_lines indicator_name (split_lines output_text))).2).
Proof.
  split; [apply scan_line_header|].
  split; [apply scan_line_idle|].
  split.
  { intros st line b c Hh Hin Hd Hlen Ht.
    rewrite scan_line_collecting, Hd by done.
    by rewrite (record_data_triple _ _ _ _ b c Hlen Ht). }
  split.
  { intros st line Hh Hin Hd Hno.
    rewrite scan_line_collecting, Hd by done. simpl.
    rewrite record_data_unread by done.
    destruct st as [i cv]. simpl in Hin. by subst i. }
  split; [apply scan_line_unmatched|].
  split.
  { intros st line rest Hh Hin Hs. simpl.
    rewrite scan_line_collecting, Hs by done. simpl. eauto. }
  split; [apply extract_computed_values_entries|].
  intros output_text. unfold extract_computed_values.
  rewrite scan_lines_examined. by rewrite examined_idle.
Qed.
End ExtractTheorems.

Section ExtractExamples.
Import PyFloat PyStr HitOrMiss Samples.

(** C3 is not the code's behaviour as stated: after a summary line the code
    never collects again, where a two-state machine does; and a data line
    that also matches the header adds no entry while collecting. *)
Lemma extractor_not_two_state :
  (extract_computed_values int_of_digits float_of_literal
     reopened_log "TGT_115" = ∅ /\
   TwoStateSpec.extract int_of_digits float_of_literal
     reopened_log "TGT_115" = {[ 7%Z := 2.5%float ]}) /\
  (is_data "7 1.0 2.5 Bar Expected TGT_115 Up=1" = true /\
   read_triple int_of_digits float_of_literal
     (split "7 1.0 2.5 Bar Expected TGT_115 Up=1") = Some (7%Z, 2.5%float) /\
   scan_line int_of_digits float_of_literal "TGT_115"
     {| in_section := true; computed_values := ∅ |}
     "7 1.0 2.5 Bar Expected TGT_115 Up=1"
   = Next {| in_section := true; computed_values := ∅ |}).
Proof. repeat split; vm_compute; reflexivity. Qed.

Lemma extractor_scans_until_summary_witness :
  is_header "TGT_115" "9 1.0 3.0 Bar Expected Summary: done" = false /\
  is_summary "9 1.0 3.0 Bar Expected Summary: done" = true /\
  exists st',
    scan_line int_of_digits float_of_literal "TGT_115"
      {| in_section := true; computed_values := {[ 7%Z := 2.5%float ]} |}
      "9 1.0 3.0 Bar Expected Summary: done"
    = Break st' /\
    computed_values st' =
      <[ 9%Z := 3%float ]> {[ 7%Z := 2.5%float ]} /\
    scan_lines int_of_digits float_of_literal "TGT_115"
      {| in_section := true; computed_values := {[ 7%Z := 2.5%float ]} |}
      ["9 1.0 3.0 Bar Expected Summary: done"; "TGT_115 Up=1";
       "8 1.0 1.0 Bar Expected"]%string
    = st'.
Proof.
  split; [reflexivity|]. split; [reflexivity|].
  apply (proj1 (proj2 (proj2 (proj2 (proj2 (proj2
           (extractor_scans_until_summary
              int_of_digits float_of_literal "TGT_115")))))));
    reflexivity.
Defined.
End ExtractExamples.

(** ** Floats *)

Section FloatFacts.
Import PyFloat.

Lemma isnan_eq v : isnan v = true -> v = nan.
Proof.
  unfold isnan. intros H. apply Prim2SF_inj.
  destruct (Prim2SF v); try discriminate. reflexivity.
Qed.


Lemma sub_nan_l v w : isnan v = true -> isnan (v - w)%float = true.
Proof.
  unfold isnan. rewrite sub_spec.
  destruct (Prim2SF v); try discriminate. reflexivity.
Qed.

Lemma sub_nan_r v w : isnan w = true -> isnan (v - w)%float = true.
Proof.
  unfold isnan. rewrite sub_spec.
  destruct (Prim2SF w); try discriminate. by destruct (Prim2SF v).
Qed.

Lemma div_nan_l v w : isnan v = true -> isnan (v / w)%float = true.
Proof.
  unfold isnan. rewrite div_spec.
  destruct (Prim2SF v); try discriminate. reflexivity.
Qed.

Lemma div_nan_r v w : isnan w = true -> isnan (v / w)%float = true.
Proof.
  unfold isnan. rewrite div_spec.
  destruct (Prim2SF w); try discriminate. by destruct (Prim2SF v).
Qed.

Lemma abs_nan v : isnan (abs v) = isnan v.
Proof. unfold isnan. rewrite abs_spec. by destruct (Prim2SF v). Qed.

(** Swapping the operands of a comparison reverses its outcome. *)
Lemma SFcompare_swap a b :
  SFcompare b a =
  match SFcompare a b with
  | Some c => Some (CompOpp c)
  | None => None
  end.
Proof.
  destruct a as [sa|sa| |sa ma ea], b as [sb|sb| |sb mb eb]; simpl;
    try reflexivity;
    try (destruct sa; reflexivity);
    try (destruct sb; reflexivity);
    try (destruct sa, sb; reflexivity).
  f_equal. destruct sa, sb; simpl; try reflexivity.
  - rewrite (Z.compare_antisym ea eb).
    destruct (ea ?= eb)%Z; simpl; try reflexivity.
    change (Pos.compare_cont Eq mb ma) with (mb ?= ma)%positive.
    change (Pos.compare_cont Eq ma mb) with (ma ?= mb)%positive.
    by rewrite (Pos.compare_antisym ma mb).
  - rewrite (Z.compare_antisym ea eb).
    destruct (ea ?= eb)%Z; simpl; try reflexivity.
    change (Pos.compare_cont Eq mb ma) with (mb ?= ma)%positive.
    change (Pos.compare_cont Eq ma mb) with (ma ?= mb)%positive.
    by rewrite (Pos.compare_antisym ma mb).
Qed.

Lemma SFcompare_defined a b :
  a <> S754_nan -> b <> S754_nan -> exists c, SFcompare a b = Some c.
Proof. destruct a, b; simpl; intros; try done; eauto. Qed.

(** For operands that are not NaN, [w < v] is the negation of [v <= w]. *)
Lemma ltb_negb_leb v w :
  isnan v = false -> isnan w = false ->
  (w <? v)%float = negb (v <=? w)%float.
Proof.
  unfold isnan. intros Hv Hw. rewrite ltb_spec, leb_spec. unfold SFltb, SFleb.
  rewrite (SFcompare_swap (Prim2SF v) (Prim2SF w)).
  destruct (SFcompare_defined (Prim2SF v) (Prim2SF w)) as [c ->].
  - by destruct (Prim2SF v).
  - by destruct (Prim2SF w).
  - by destruct c.
Qed.

Lemma eqb_zero_inv v :
  (v =? 0)%float = true -> exists s, Prim2SF v = S754_zero s.
Proof.
  rewrite FloatAxioms.eqb_spec. change (Prim2SF 0) with (S754_zero false).
  unfold SFeqb. destruct (Prim2SF v) as [s|s| |s m e]; simpl; eauto.
  - by destruct s.
  - done.
  - by destruct s.
Qed.

Lemma eqb_zero_false_inv v :
  isnan v = false -> (v =? 0)%float = false ->
  (exists s, Prim2SF v = S754_infinity s) \/
  (exists s m e, Prim2SF v = S754_finite s m e).
Proof.
  unfold isnan. rewrite FloatAxioms.eqb_spec. change (Prim2SF 0) with (S754_zero false).
  unfold SFeqb. destruct (Prim2SF v) as [s|s| |s m e]; simpl; try done; eauto 6.
Qed.

(** A non-zero difference over a zero reference: the relative term is
    [+inf]. *)
Lemma rel_term_zero_reference c p :
  (c =? 0)%float = true -> isnan p = false -> (p =? 0)%float = false ->
  abs ((p - c) / c) = infinity.
Proof.
  intros [sc Hc]%eqb_zero_inv Hp Hp0.
  apply Prim2SF_inj. rewrite abs_spec, div_spec, sub_spec, Hc.
  destruct (eqb_zero_false_inv p Hp Hp0) as [[s ->]|(s & m & e & ->)];
    reflexivity.
Qed.

(** A zero difference over a zero reference: the relative term is NaN. *)
Lemma rel_term_zero_over_zero c p :
  (c =? 0)%float = true -> (p =? 0)%float = true ->
  isnan (abs ((p - c) / c)) = true.
Proof.
  intros [sc Hc]%eqb_zero_inv [sp Hp]%eqb_zero_inv.
  unfold isnan. rewrite abs_spec, div_spec, sub_spec, Hc, Hp.
  by destruct sc, sp.
Qed.

Lemma rel_term_invalid c p :
  isnan c = true \/ isnan p = true -> isnan (abs ((p - c) / c)) = true.
Proof.
  intros [H|H]; rewrite abs_nan.
  - by apply div_nan_r.
  - by apply div_nan_l, sub_nan_l.
Qed.
End FloatFacts.

(** ** Rounding never yields NaN *)

Section RoundingFacts.
Variable prec emax : Z.

Lemma shr_1_nonneg mrs : (0 <= shr_m mrs)%Z -> (0 <= shr_m (shr_1 mrs))%Z.
Proof.
  destruct mrs as [m r s]. simpl.
  destruct m as [|[p|p|]|[p|p|]]; simpl; lia.
Qed.

Lemma iter_pos_shr_1_nonneg p mrs :
  (0 <= shr_m mrs)%Z -> (0 <= shr_m (@SpecFloat.iter_pos _ shr_1 p mrs))%Z.
Proof.
  revert mrs. induction p as [p IH|p IH|]; intros mrs H; simpl.
  - apply IH, IH. by apply shr_1_nonneg.
  - by apply IH, IH.
  - by apply shr_1_nonneg.
Qed.

Lemma shr_fexp_nonneg m e l :
  (0 <= m)%Z -> (0 <= shr_m (shr_fexp prec emax m e l).1)%Z.
Proof.
  intros H. unfold shr_fexp, shr.
  assert (0 <= shr_m (shr_record_of_loc m l))%Z as H0.
  { by destruct l as [|[]]. }
  destruct (_ - _)%Z; simpl; try done.
  by apply iter_pos_shr_1_nonneg.
Qed.

Lemma round_nearest_even_nonneg m l :
  (0 <= m)%Z -> (0 <= round_nearest_even m l)%Z.
Proof.
  intros H. unfold round_nearest_even.
  destruct l as [|[]]; try done; [destruct (Z.even m)|]; lia.
Qed.

(** Rounding a mantissa that is not negative gives a zero, a finite number
    or an infinity. *)
Lemma binary_round_aux_not_nan sx mx ex lx :
  (0 <= mx)%Z -> binary_round_aux prec emax sx mx ex lx <> S754_nan.
Proof.
  intros H. unfold binary_round_aux.
  pose proof (shr_fexp_nonneg mx ex lx H) as H1.
  destruct (shr_fexp prec emax mx ex lx) as [mrs' e']. simpl in H1.
  pose proof (shr_fexp_nonneg _ e' loc_Exact
                (round_nearest_even_nonneg _ (loc_of_shr_record mrs') H1)) as H2.
  destruct (shr_fexp prec emax _ e' loc_Exact) as [mrs'' e'']. simpl in H2.
  destruct (shr_m mrs''); [done| |lia].
  by destruct (_ <=? _)%Z.
Qed.

Lemma binary_normalize_not_nan m e szero :
  binary_normalize prec emax m e szero <> S754_nan.
Proof.
  unfold binary_normalize, binary_round.
  destruct m; [done| |]; destruct (shl_align _ _ _);
    by apply binary_round_aux_not_nan.
Qed.

Lemma SFdiv_core_binary_nonneg mx ex my ey :
  (0 <= (SFdiv_core_binary prec emax (Zpos mx) ex (Zpos my) ey).1.1)%Z.
Proof.
  unfold SFdiv_core_binary.
  set (s := (_ - _ - _)%Z).
  set (m' := match s with Z0 => _ | Zpos _ => _ | Zneg _ => _ end).
  assert (0 <= m')%Z as Hm.
  { unfold m'. destruct s; [done| |done]. by apply Z.shiftl_nonneg. }
  pose proof (Z.div_pos m' (Zpos my) Hm eq_refl) as Hq.
  unfold Z.div in Hq. by destruct (Z.div_eucl m' (Zpos my)).
Qed.
End RoundingFacts.

(** ** The relative term *)

Section RelativeTerm.
Import PyFloat.

Lemma SFsub_finite_not_nan sx mx ex sy my ey :
  SF64sub (S754_finite sx mx ex) (S754_finite sy my ey) <> S754_nan.
Proof. apply binary_normalize_not_nan. Qed.

Lemma SFdiv_finite_not_nan sx mx ex sy my ey :
  SF64div (S754_finite sx mx ex) (S754_finite sy my ey) <> S754_nan.
Proof.
  unfold SF64div, SFdiv.
  pose proof (SFdiv_core_binary_nonneg prec emax mx ex my ey) as H.
  destruct (SFdiv_core_binary _ _ _ _ _ _) as [[mz ez] lz].
  by apply binary_round_aux_not_nan.
Qed.

Lemma SFabs_nan x : SFabs x = S754_nan <-> x = S754_nan.
Proof. by destruct x. Qed.

(** Over a finite reference that is not zero, the relative term of a value
    that is not NaN is not NaN. *)
Lemma SFrel_term_finite v sc mc ec :
  v <> S754_nan ->
  SFabs (SF64div (SF64sub v (S754_finite sc mc ec)) (S754_finite sc mc ec))
  <> S754_nan.
Proof.
  intros Hv. rewrite SFabs_nan.
  destruct v as [sv|sv| |sv mv ev]; try done.
  - simpl. apply SFdiv_finite_not_nan.
  - pose proof (SFsub_finite_not_nan sv mv ev sc mc ec) as Hs.
    destruct (SF64sub _ _) as [s|s| |s m e]; try done.
    apply SFdiv_finite_not_nan.
Qed.

(** The relative term |(v - c) / c| is NaN exactly when the reference [c]
    is NaN or infinite, or the value [v] is NaN, or both are zero. *)
Lemma rel_term_nan c v :
  isnan (abs ((v - c) / c)) =
  negb (isfinite c) || isnan v || ((c =? 0)%float && (v =? 0)%float).
Proof.
  unfold isnan, isfinite.
  rewrite abs_spec, div_spec, sub_spec, !FloatAxioms.eqb_spec.
  change (Prim2SF 0) with (S754_zero false).
  destruct (Prim2SF c) as [sc|sc| |sc mc ec] eqn:Hc.
  - destruct (Prim2SF v) as [sv|sv| |sv mv ev]; try done;
      by destruct sv, sc.
  - destruct (Prim2SF v) as [sv|sv| |sv mv ev]; try done;
      by destruct sv, sc.
  - by destruct (Prim2SF v).
  - destruct (Prim2SF v) as [sv|sv| |sv mv ev] eqn:Hv; try done;
      (destruct (SFabs _) eqn:Habs; try (by destruct sc);
       exfalso; revert Habs; by apply SFrel_term_finite).
Qed.

Lemma rel_term_nan_iff c v :
  isnan (abs ((v - c) / c)) = true <->
  isfinite c = false \/ isnan v = true \/
  ((c =? 0)%float = true /\ (v =? 0)%float = true).
Proof.
  rewrite rel_term_nan, !orb_true_iff, andb_true_iff, negb_true_iff.
  tauto.
Qed.
End RelativeTerm.

(** ** Masks and selections *)

Section MaskFacts.
Import PySeq.
Context {A : Type}.

Lemma select_nil_r (mask : list bool) : select mask (@nil A) = [].
Proof. by destruct mask as [|[] mask]. Qed.

Lemma select_no_true (mask : list bool) (a : list A) :
  (forall i, mask !! i <> Some true) -> select mask a = [].
Proof.
  revert a. induction mask as [|b mask IH]; intros a H; [done|].
  destruct b; [by destruct (H 0)|].
  destruct a as [|v a]; simpl; [done|].
  apply IH. intros i. apply (H (S i)).
Qed.

(** Every selected entry sits at a position where the mask holds. *)
Lemma select_lookup (mask : list bool) (a : list A) k v :
  select mask a !! k = Some v ->
  exists i, mask !! i = Some true /\ a !! i = Some v.
Proof.
  revert a k. induction mask as [|b mask IH]; intros a k; [done|].
  destruct a as [|w a]; [by destruct b|].
  destruct b; simpl.
  - destruct k as [|k]; simpl.
    + intros [= ->]. by exists 0.
    + intros (i & Hm & Ha)%IH. by exists (S i).
  - intros (i & Hm & Ha)%IH. by exists (S i).
Qed.

(** Selections through one mask agree when the arrays agree wherever the
    mask holds. *)
Lemma select_agree (mask : list bool) (a b : list A) :
  (forall i, mask !! i = Some true -> a !! i = b !! i) ->
  select mask a = select mask b.
Proof.
  revert a b. induction mask as [|m mask IH]; intros a b H; [done|].
  destruct m.
  - pose proof (H 0 eq_refl) as H0.
    destruct a as [|v a], b as [|w b]; simpl in *; try done.
    injection H0 as ->. f_equal. apply IH. intros i. apply (H (S i)).
  - destruct a as [|v a], b as [|w b]; simpl; try done.
    + rewrite <- (select_nil_r mask). apply IH. intros i. apply (H (S i)).
    + rewrite <- (select_nil_r mask). apply IH. intros i. apply (H (S i)).
    + apply IH. intros i. apply (H (S i)).
Qed.
End MaskFacts.

Section MaskPairs.
Import PySeq.

(** Through a mask computed entry by entry from two arrays, the selected
    entries of either array pass the test. *)
Lemma select_zip_with_l (t : float -> float -> bool) (a b : list float) k v :
  select (zip_with t a b) a !! k = Some v -> exists w, t v w = true.
Proof.
  revert b k. induction a as [|x a IH]; intros b k; [done|].
  destruct b as [|y b]; [done|]. simpl.
  destruct (t x y) eqn:Ht; simpl.
  - destruct k as [|k]; simpl; [intros [= <-]; eauto|apply IH].
  - apply IH.
Qed.

Lemma select_zip_with_r (t : float -> float -> bool) (a b : list float) k w :
  select (zip_with t a b) b !! k = Some w -> exists v, t v w = true.
Proof.
  revert b k. induction a as [|x a IH]; intros b k; [done|].
  destruct b as [|y b]; [done|]. simpl.
  destruct (t x y) eqn:Ht; simpl.
  - destruct k as [|k]; simpl; [intros [= <-]; eauto|apply IH].
  - apply IH.
Qed.

Lemma slice_zip_with {B C D} (g : B -> C -> D) s e (a : list B) (b : list C) :
  slice s e (zip_with g a b) = zip_with g (slice s e a) (slice s e b).
Proof. unfold slice. by rewrite zip_with_drop, zip_with_take. Qed.
End MaskPairs.

(** ** create_comparison_plot *)

Section CmmaFacts.
Import PyFloat PySeq Cmma.

Variable np_sum : list float -> float.
Variable np_corrcoef : list float -> list float -> float.

Lemma df_col_Some df col c :
  columns df !! col = Some c -> df_col df col = Ok c.
Proof. intros H. unfold df_col. by rewrite H. Qed.

Lemma df_col_select mask df col c :
  columns df !! col = Some c ->
  df_col (df_select mask df) col = Ok (select mask c).
Proof. intros H. unfold df_col, df_select. simpl. by rewrite lookup_fmap, H. Qed.

(** What a plotted outcome holds. *)
Lemma create_comparison_plot_plotted df name cc pc csv comp p :
  columns df !! cc = Some csv ->
  columns df !! pc = Some comp ->
  create_comparison_plot np_sum np_corrcoef df name cc pc = Ok (Plotted p) ->
  csv_vals p = select (valid_mask csv comp) csv /\
  computed_vals p = select (valid_mask csv comp) comp /\
  diff p = zip_with (fun v c => (v - c)%float) (computed_vals p) (csv_vals p) /\
  mae p = np_mean np_sum (map abs (diff p)) /\
  ratio p = ratio_of (csv_vals p) (computed_vals p) /\
  corr p = np_corrcoef (csv_vals p) (computed_vals p).
Proof.
  intros Hc Hp. unfold create_comparison_plot.
  rewrite (df_col_Some _ _ _ Hc), (df_col_Some _ _ _ Hp). simpl.
  destruct (decide _); [done|].
  rewrite (df_col_select _ _ _ _ Hc), (df_col_select _ _ _ _ Hp).
  destruct (df_col _ "bar"); simpl; [|done].
  intros [= <-]. simpl. done.
Qed.

Lemma create_comparison_plot_columns df name cc pc p :
  create_comparison_plot np_sum np_corrcoef df name cc pc = Ok (Plotted p) ->
  exists csv comp, columns df !! cc = Some csv /\ columns df !! pc = Some comp.
Proof.
  unfold create_comparison_plot, df_col at 1 2.
  destruct (columns df !! cc) as [csv|]; simpl; [|done].
  destruct (columns df !! pc) as [comp|]; simpl; [|done]. eauto.
Qed.

Lemma valid_mask_lookup csv comp i :
  valid_mask csv comp !! i = Some true <->
  exists c v, csv !! i = Some c /\ comp !! i = Some v /\
              isfinite c = true /\ isfinite v = true.
Proof.
  unfold valid_mask. rewrite lookup_zip_with_Some. split.
  - intros (c & v & Ht & Hc & Hv). symmetry in Ht.
    apply andb_true_iff in Ht as [? ?]. by exists c, v.
  - intros (c & v & Hc & Hv & H1 & H2). exists c, v. by rewrite H1, H2.
Qed.
End CmmaFacts.

Section CmmaTheorems.
Import PyFloat PySeq Cmma.

Variable np_sum : list float -> float.
Variable np_corrcoef : list float -> list float -> float.


End CmmaTheorems.

(** ** The statistics of plot_hit_or_miss *)

Section HitOrMissStats.
Import PyFloat PySeq HitOrMiss.

Variable np_sum : list float -> float.

Lemma hm_valid_mask_lookup csv comp i :
  valid_mask csv comp !! i = Some true <->
  exists c v, csv !! i = Some c /\ comp !! i = Some v /\
              isnan c = false /\ isnan v = false.
Proof.
  unfold valid_mask. rewrite lookup_zip_with_Some. split.
  - intros (c & v & Ht & Hc & Hv). symmetry in Ht.
    apply andb_true_iff in Ht as [?%negb_true_iff ?%negb_true_iff].
    by exists c, v.
  - intros (c & v & Hc & Hv & H1 & H2). exists c, v. by rewrite H1, H2.
Qed.

Lemma compare_indicator_no_valid name csv comp :
  (forall i c v, csv !! i = Some c -> comp !! i = Some v ->
     isnan c = true \/ isnan v = true) ->
  compare_indicator np_sum name csv comp =
  Ok (NoValidData ("Warning: No valid data for " +:+ name)).
Proof.
  intros Hnone. unfold compare_indicator, where_true.
  rewrite select_no_true; [done|].
  intros i (c & v & Hci & Hvi & H1 & H2)%hm_valid_mask_lookup.
  destruct (Hnone i c v Hci Hvi); congruence.
Qed.

Lemma compare_indicator_span name csv comp :
  compare_indicator np_sum name csv comp =
  span_stats np_sum name (valid_mask csv comp)
    (zip_with (fun v c => (v - c)%float) comp csv)
    (zip_with (fun d c => (d / c)%float)
       (zip_with (fun v c => (v - c)%float) comp csv) csv).
Proof.
  unfold compare_indicator, span_stats.
  destruct (where_true (valid_mask csv comp)) as [|first rest]; [done|].
  by rewrite !slice_zip_with.
Qed.
End HitOrMissStats.

Section HitOrMissAgreement.
Import PyFloat PySeq HitOrMiss.

Variable np_sum : list float -> float.

(** Two pairs with one validity: equal when valid, and NaN in both
    differences and both relative terms when not. *)
Lemma pair_agree c v c' v' :
  negb (isnan c) && negb (isnan v) = negb (isnan c') && negb (isnan v') ->
  (negb (isnan c) && negb (isnan v) = true -> c' = c /\ v' = v) ->
  (v' - c' = v - c)%float /\ ((v' - c') / c' = (v - c) / c)%float.
Proof.
  intros Hmask Hsame.
  destruct (negb (isnan c) && negb (isnan v)) eqn:Hval.
  - destruct (Hsame eq_refl) as [-> ->]. done.
  - assert (forall a b, negb (isnan a) && negb (isnan b) = false ->
              isnan (b - a)%float = true) as Hnan.
    { intros a b [H|H]%andb_false_iff; apply negb_false_iff in H.
      - by apply sub_nan_r.
      - by apply sub_nan_l. }
    pose proof (Hnan c v Hval) as H1.
    pose proof (Hnan c' v' (eq_sym Hmask)) as H2.
    split.
    + by rewrite (isnan_eq _ H1), (isnan_eq _ H2).
    + rewrite (isnan_eq _ (div_nan_l _ c H1)).
      by rewrite (isnan_eq _ (div_nan_l _ c' H2)).
Qed.

Lemma arrays_agree csv comp csv' comp' :
  length csv = length comp ->
  length csv' = length csv ->
  length comp' = length comp ->
  (forall i, valid_mask csv' comp' !! i = valid_mask csv comp !! i) ->
  (forall i, valid_mask csv comp !! i = Some true ->
     csv' !! i = csv !! i /\ comp' !! i = comp !! i) ->
  zip_with (fun v c => (v - c)%float) comp' csv' =
  zip_with (fun v c => (v - c)%float) comp csv /\
  zip_with (fun d c => (d / c)%float)
    (zip_with (fun v c => (v - c)%float) comp' csv') csv' =
  zip_with (fun d c => (d / c)%float)
    (zip_with (fun v c => (v - c)%float) comp csv) csv.
Proof.
  intros L1 L2 L3 Hmask Hsame.
  assert (forall i,
    match csv !! i, comp !! i, csv' !! i, comp' !! i with
    | Some c, Some v, Some c', Some v' =>
        (v' - c' = v - c)%float /\ ((v' - c') / c' = (v - c) / c)%float
    | None, None, None, None => True
    | _, _, _, _ => False
    end) as Hpt.
  { intros i. destruct (decide (i < length csv)) as [Hi|Hi].
    - destruct (lookup_lt_is_Some_2 csv i) as [c Hc]; [lia|].
      destruct (lookup_lt_is_Some_2 comp i) as [v Hv]; [lia|].
      destruct (lookup_lt_is_Some_2 csv' i) as [c' Hc']; [lia|].
      destruct (lookup_lt_is_Some_2 comp' i) as [v' Hv']; [lia|].
      rewrite Hc, Hv, Hc', Hv'.
      pose proof (Hmask i) as Hm. pose proof (Hsame i) as Hs.
      unfold valid_mask in Hm, Hs. rewrite !lookup_zip_with in Hm.
      rewrite lookup_zip_with in Hs.
      rewrite Hc, Hv, Hc', Hv' in Hm. rewrite Hc, Hv, Hc', Hv' in Hs.
      simpl in Hm, Hs. injection Hm as Hm.
      apply pair_agree; [done|].
      intros Hval. rewrite Hval in Hs. destruct (Hs eq_refl) as [H1 H2].
      split; congruence.
    - rewrite (lookup_ge_None_2 csv i), (lookup_ge_None_2 comp i),
        (lookup_ge_None_2 csv' i), (lookup_ge_None_2 comp' i) by lia. done. }
  split; apply list_eq; intros i; specialize (Hpt i);
    rewrite !lookup_zip_with;
    destruct (csv !! i), (comp !! i), (csv' !! i), (comp' !! i);
    simpl; try done; destruct Hpt as [H1 H2]; congruence.
Qed.

Lemma compare_indicator_agree name csv comp csv' comp' :
  length csv = length comp ->
  length csv' = length csv ->
  length comp' = length comp ->
  (forall i, valid_mask csv' comp' !! i = valid_mask csv comp !! i) ->
  (forall i, valid_mask csv comp !! i = Some true ->
     csv' !! i = csv !! i /\ comp' !! i = comp !! i) ->
  compare_indicator np_sum name csv' comp' =
  compare_indicator np_sum name csv comp.
Proof.
  intros L1 L2 L3 Hmask Hsame. rewrite !compare_indicator_span.
  destruct (arrays_agree _ _ _ _ L1 L2 L3 Hmask Hsame) as [-> ->].
  by rewrite (list_eq _ _ Hmask).
Qed.

Lemma rel_terms_fused (csv comp : list float) :
  map abs (zip_with (fun d c => (d / c)%float)
             (zip_with (fun v c => (v - c)%float) comp csv) csv) =
  zip_with (fun c v => abs ((v - c) / c)) csv comp.
Proof.
  apply list_eq. intros i. rewrite list_lookup_fmap, !lookup_zip_with.
  by destruct (csv !! i), (comp !! i).
Qed.

Lemma slice_fmap {B C} (g : B -> C) s e (a : list B) :
  g <$> slice s e a = slice s e (g <$> a).
Proof. unfold slice. by rewrite fmap_take, fmap_drop. Qed.

Lemma list_last_default (l : list nat) d :
  l <> [] -> last l = Some (List.last l d).
Proof.
  induction l as [|a l IH]; [done|]. intros _.
  destruct l as [|b l]; [done|].
  change (last (a :: b :: l)) with (last (b :: l)).
  change (List.last (a :: b :: l) d) with (List.last (b :: l) d).
  by apply IH.
Qed.

Lemma compare_indicator_compared name csv comp s :
  compare_indicator np_sum name csv comp = Ok (Compared s) ->
  head (where_true (valid_mask csv comp)) = Some (start_idx s) /\
  last (where_true (valid_mask csv comp)) = Some (end_idx s) /\
  diff s = slice (start_idx s) (end_idx s + 1)
             (zip_with (fun v c => (v - c)%float) comp csv) /\
  mae s = nanmean np_sum (map abs (diff s)) /\
  nanmax (map abs (diff s)) = Ok (max_error s) /\
  mean_rel_error s =
    (nanmean np_sum
       (slice (start_idx s) (end_idx s + 1)
          (zip_with (fun c v => abs ((v - c) / c)) csv comp)) * 100)%float.
Proof.
  rewrite compare_indicator_span. unfold span_stats.
  destruct (where_true (valid_mask csv comp)) as [|first rest] eqn:Hw; [done|].
  destruct (nanmax _) as [mx|] eqn:Hmax; simpl; [|done].
  intros [= <-]. simpl. repeat split; try done.
  - by apply (list_last_default (first :: rest) first).
  - by rewrite <- rel_terms_fused, <- slice_fmap.
Qed.
End HitOrMissAgreement.

(** ** The order of floats *)

Section FloatOrder.
Import PyFloat.

Lemma SFcompare_refl a : a <> S754_nan -> SFcompare a a = Some Eq.
Proof.
  destruct a as [s|s| |s m e]; simpl; try done; intros _.
  - by destruct s.
  - f_equal. rewrite Z.compare_refl.
    change (Pos.compare_cont Eq m m) with (m ?= m)%positive.
    rewrite Pos.compare_refl. by destruct s.
Qed.

Lemma SFleb_trans a b c :
  SFleb a b = true -> SFleb b c = true -> SFleb a c = true.
Proof.
  unfold SFleb.
  destruct a as [sa|sa| |sa ma ea], b as [sb|sb| |sb mb eb],
    c as [sc|sc| |sc mc ec]; simpl; try done;
    try (destruct sa; done); try (destruct sb; done); try (destruct sc; done);
    try (destruct sa, sb; done); try (destruct sb, sc; done);
    try (destruct sa, sc; done); try (destruct sa, sb, sc; done).
  change (Pos.compare_cont Eq ma mb) with (ma ?= mb)%positive.
  change (Pos.compare_cont Eq mb mc) with (mb ?= mc)%positive.
  change (Pos.compare_cont Eq ma mc) with (ma ?= mc)%positive.
  destruct sa, sb, sc; try done;
    destruct (Z.compare_spec ea eb), (Z.compare_spec eb ec),
      (Z.compare_spec ea ec); try done; try lia;
    destruct (Pos.compare_spec ma mb), (Pos.compare_spec mb mc),
      (Pos.compare_spec ma mc); simpl; try done; try lia.
Qed.

Lemma leb_refl v : isnan v = false -> (v <=? v)%float = true.
Proof.
  unfold isnan. intros H. rewrite leb_spec. unfold SFleb.
  rewrite SFcompare_refl; [done|]. by destruct (Prim2SF v).
Qed.

Lemma leb_trans u v w :
  (u <=? v)%float = true -> (v <=? w)%float = true -> (u <=? w)%float = true.
Proof. rewrite !leb_spec. apply SFleb_trans. Qed.

Lemma ltb_leb v w : (v <? w)%float = true -> (v <=? w)%float = true.
Proof.
  rewrite ltb_spec, leb_spec. unfold SFltb, SFleb.
  by destruct (SFcompare _ _) as [[]|].
Qed.

Lemma fmax_cases v w : fmax v w = v \/ fmax v w = w.
Proof.
  unfold fmax. destruct (isnan v), (isnan w), (v <? w)%float; auto.
Qed.

Lemma fmax_nan v w : isnan (fmax v w) = isnan v && isnan w.
Proof.
  unfold fmax. destruct (isnan v) eqn:Hv; [done|].
  destruct (isnan w) eqn:Hw; [done|].
  by destruct (v <? w)%float.
Qed.

Lemma fmax_ge_l v w : isnan v = false -> (v <=? fmax v w)%float = true.
Proof.
  intros Hv. unfold fmax. rewrite Hv.
  destruct (isnan w); [by apply leb_refl|].
  destruct (v <? w)%float eqn:Hlt; [by apply ltb_leb|by apply leb_refl].
Qed.

Lemma fmax_ge_r v w : isnan w = false -> (w <=? fmax v w)%float = true.
Proof.
  intros Hw. unfold fmax.
  destruct (isnan v) eqn:Hv; [by apply leb_refl|]. rewrite Hw.
  destruct (v <? w)%float eqn:Hlt; [by apply leb_refl|].
  rewrite (ltb_negb_leb w v Hw Hv) in Hlt. by apply negb_false_iff in Hlt.
Qed.

(** The left fold of [fmax]: the result is an entry, it bounds every entry
    that is not NaN, and it is NaN only when every entry is. *)
Lemma foldl_fmax_spec (l : list float) v :
  foldl fmax v l ∈ v :: l /\
  (forall w, w ∈ v :: l -> isnan w = false ->
     (w <=? foldl fmax v l)%float = true) /\
  (isnan (foldl fmax v l) = true -> forall w, w ∈ v :: l -> isnan w = true).
Proof.
  revert v. induction l as [|u l IH]; intros v; simpl.
  - split; [left|]. split.
    + intros w ->%list_elem_of_singleton. apply leb_refl.
    + by intros H w ->%list_elem_of_singleton.
  - destruct (IH (fmax v u)) as (Hin & Hub & Hnan). split; [|split].
    + apply elem_of_cons in Hin as [->|Hin]; [|by do 2 right].
      destruct (fmax_cases v u) as [->| ->]; [left|right; left].
    + intros w Hw Hnw.
      assert (w ∈ l \/ (w = v \/ w = u)) as [Hl|Hvu].
      { apply elem_of_cons in Hw as [->|Hw]; [auto|].
        apply elem_of_cons in Hw as [->|Hw]; auto. }
      { apply Hub; [by right|done]. }
      assert ((w <=? fmax v u)%float = true) as Hstep.
      { destruct Hvu as [-> | ->]; [by apply fmax_ge_l|by apply fmax_ge_r]. }
      eapply leb_trans; [exact Hstep|]. apply Hub; [left|].
      rewrite fmax_nan. destruct Hvu as [-> | ->]; rewrite Hnw;
        [done|by rewrite andb_false_r].
    + intros Hr w Hw.
      assert (isnan (fmax v u) = true) as Hvu by (apply Hnan; [done|left]).
      rewrite fmax_nan in Hvu. apply andb_true_iff in Hvu as [Hv Hu].
      apply elem_of_cons in Hw as [->|Hw]; [done|].
      apply elem_of_cons in Hw as [->|Hw]; [done|].
      apply Hnan; [done|by right].
Qed.
End FloatOrder.

(** ** The positions of a mask *)

Section WhereTrueFacts.
Import PySeq.

Lemma select_elem_of {A} (mask : list bool) (a : list A) i v :
  mask !! i = Some true -> a !! i = Some v -> v ∈ select mask a.
Proof.
  revert a i. induction mask as [|b mask IH]; intros a i; [done|].
  destruct a as [|w a]; [done|].
  destruct i as [|i]; simpl.
  - intros [= ->] [= ->]. left.
  - intros Hm Ha. destruct b; [right|]; by eapply IH.
Qed.

Lemma elem_of_where_true mask i :
  i ∈ where_true mask <-> mask !! i = Some true.
Proof.
  unfold where_true. split.
  - intros (k & Hk)%list_elem_of_lookup.
    apply select_lookup in Hk as (j & Hm & Hj).
    apply lookup_seq in Hj as [-> _]. done.
  - intros Hm. apply (select_elem_of mask _ i); [done|].
    apply lookup_seq. split; [done|]. by apply lookup_lt_Some in Hm.
Qed.

Lemma select_seq_sorted mask n :
  StronglySorted lt (select mask (seq n (length mask))) /\
  Forall (le n) (select mask (seq n (length mask))).
Proof.
  revert n. induction mask as [|b mask IH]; intros n; simpl.
  - split; constructor.
  - destruct (IH (S n)) as [Hs Hle]. destruct b.
    + split.
      * constructor; [done|]. eapply Forall_impl; [exact Hle|].
        intros j Hj. simpl in Hj. lia.
      * constructor; [done|]. eapply Forall_impl; [exact Hle|].
        intros j Hj. simpl in Hj. lia.
    + split; [done|]. eapply Forall_impl; [exact Hle|].
      intros j Hj. simpl in Hj. lia.
Qed.

Lemma where_true_sorted mask : StronglySorted lt (where_true mask).
Proof. apply (select_seq_sorted mask 0). Qed.

Lemma sorted_head_least (l : list nat) first rest :
  StronglySorted lt l -> l = first :: rest ->
  forall i, i ∈ l -> first <= i.
Proof.
  intros Hs -> i [->|Hi]%elem_of_cons; [done|].
  apply StronglySorted_inv in Hs as [_ Hall].
  rewrite Forall_forall in Hall. apply Hall in Hi. lia.
Qed.

Lemma sorted_last_greatest (l : list nat) d :
  StronglySorted lt l -> forall i, i ∈ l -> i <= List.last l d.
Proof.
  induction 1 as [|a l Hs IH Hall]; intros i Hi.
  - by apply elem_of_nil in Hi.
  - destruct l as [|b l]; simpl.
    + apply list_elem_of_singleton in Hi. lia.
    + apply elem_of_cons in Hi as [->|Hi]; [|by apply IH].
      rewrite Forall_forall in Hall.
      trans b; [|apply IH; left]. pose proof (Hall b). 
      assert (a < b) by (apply Hall; left). lia.
Qed.

Lemma list_last_elem_of (l : list nat) a : List.last (a :: l) a ∈ a :: l.
Proof.
  apply last_Some_elem_of. by apply (list_last_default (a :: l) a).
Qed.
End WhereTrueFacts.

(** ** The span of a comparison *)

Section SpanFacts.
Import PyFloat PySeq HitOrMiss.

Variable np_sum : list float -> float.

Lemma length_slice {A} (a : list A) first last_idx :
  first <= last_idx -> last_idx < length a ->
  length (slice first (last_idx + 1) a) = last_idx + 1 - first.
Proof. intros H1 H2. unfold slice. rewrite length_take, length_drop. lia. Qed.

Lemma valid_mask_diff_bound csv comp i :
  valid_mask csv comp !! i = Some true ->
  i < length (zip_with (fun v c => (v - c)%float) comp csv).
Proof.
  intros (c & v & Hc & Hv & _)%hm_valid_mask_lookup.
  apply lookup_lt_Some in Hc. apply lookup_lt_Some in Hv.
  rewrite length_zip_with. by apply Nat.min_glb_lt.
Qed.

(** The first and the last position of a mask that has one. *)
Lemma where_true_ends mask first rest :
  where_true mask = first :: rest ->
  mask !! first = Some true /\
  mask !! List.last (where_true mask) first = Some true /\
  forall i, mask !! i = Some true ->
            first <= i <= List.last (where_true mask) first.
Proof.
  intros Hw. pose proof (where_true_sorted mask) as Hs. split; [|split].
  - apply elem_of_where_true. rewrite Hw. left.
  - apply elem_of_where_true. rewrite Hw. apply list_last_elem_of.
  - intros i Hi%elem_of_where_true. split.
    + by eapply sorted_head_least.
    + by apply sorted_last_greatest.
Qed.

Lemma compare_indicator_cases name csv comp :
  ((forall i, valid_mask csv comp !! i <> Some true) /\
   compare_indicator np_sum name csv comp =
   Ok (NoValidData ("Warning: No valid data for " +:+ name))) \/
  ((exists i, valid_mask csv comp !! i = Some true) /\
   exists s, compare_indicator np_sum name csv comp = Ok (Compared s)).
Proof.
  rewrite compare_indicator_span. unfold span_stats.
  destruct (where_true (valid_mask csv comp)) as [|first rest] eqn:Hw.
  - left. split; [|done]. intros i Hi%elem_of_where_true.
    rewrite Hw in Hi. by apply elem_of_nil in Hi.
  - right. destruct (where_true_ends _ _ _ Hw) as (Hfirst & Hlast & Hall).
    rewrite Hw in Hlast, Hall. split; [by exists first|].
    set (last_idx := List.last (first :: rest) first) in *.
    clearbody last_idx.
    set (d := zip_with (fun v c => (v - c)%float) comp csv).
    assert (length (slice first (last_idx + 1) d) = last_idx + 1 - first) as Hlen.
    { apply length_slice; [by apply Hall|by apply valid_mask_diff_bound]. }
    assert (first <= last_idx) as Hle by (by apply Hall).
    destruct (slice first (last_idx + 1) d) as [|d0 ds] eqn:Hsl.
    { change (length (@nil float)) with 0 in Hlen. lia. }
    simpl. eauto.
Qed.

(** The ends of the span and the number of its differences. *)
Lemma compare_indicator_span_ends name csv comp s :
  compare_indicator np_sum name csv comp = Ok (Compared s) ->
  valid_mask csv comp !! start_idx s = Some true /\
  valid_mask csv comp !! end_idx s = Some true /\
  (forall i, valid_mask csv comp !! i = Some true ->
     start_idx s <= i <= end_idx s) /\
  length (diff s) = end_idx s - start_idx s + 1.
Proof.
  intros Hcmp.
  destruct (compare_indicator_compared _ _ _ _ _ Hcmp)
    as (Hhead & Hlast & Hdiff & _).
  destruct (where_true (valid_mask csv comp)) as [|first rest] eqn:Hw; [done|].
  assert (start_idx s = first) as Hs by (simpl in Hhead; congruence).
  destruct (where_true_ends _ _ _ Hw) as (Hv1 & Hv2 & Hall).
  rewrite Hw in Hv2, Hall.
  rewrite (list_last_default (first :: rest) first) in Hlast by done.
  assert (end_idx s = List.last (first :: rest) first) as He by congruence.
  set (last_idx := List.last (first :: rest) first) in *. clearbody last_idx.
  rewrite Hdiff, Hs, He.
  assert (first <= last_idx) as Hle by (by apply Hall).
  split; [done|]. split; [done|]. split; [done|].
  rewrite length_slice; [lia|done|by apply valid_mask_diff_bound].
Qed.

(** The maximum error among the differences of the span. *)
Lemma compare_indicator_max_error name csv comp s :
  compare_indicator np_sum name csv comp = Ok (Compared s) ->
  max_error s ∈ map abs (diff s) /\
  (forall d, d ∈ diff s -> isnan d = false ->
     (abs d <=? max_error s)%float = true) /\
  (isnan (max_error s) = true -> forall d, d ∈ diff s -> isnan d = true).
Proof.
  intros Hcmp.
  destruct (compare_indicator_compared _ _ _ _ _ Hcmp)
    as (_ & _ & _ & _ & Hmax & _).
  unfold nanmax in Hmax.
  destruct (map abs (diff s)) as [|a0 rest] eqn:Habs; [done|].
  injection Hmax as Hmax.
  destruct (foldl_fmax_spec rest a0) as (Hin & Hub & Hnan).
  rewrite Hmax in Hin, Hub, Hnan.
  assert (forall d, d ∈ diff s -> abs d ∈ a0 :: rest) as Hmem.
  { intros d Hd. rewrite <- Habs. by apply list_elem_of_fmap_2. }
  split; [done|]. split.
  - intros d Hd Hnd. apply Hub; [by apply Hmem|]. by rewrite abs_nan.
  - intros Hm d Hd. rewrite <- abs_nan. apply Hnan; [done|by apply Hmem].
Qed.

Lemma lookup_slice {A} (a : list A) first stop k v :
  slice first stop a !! k = Some v -> a !! (first + k) = Some v.
Proof.
  unfold slice. intros [H _]%lookup_take_Some. by rewrite lookup_drop in H.
Qed.

(** [np.nanmean], spelled out. *)
Lemma nanmean_spelled (a : list float) :
  nanmean np_sum a =
  (np_sum (nan_as_zero a) / float_of_nat (count_not_nan a))%float.
Proof. reflexivity. Qed.

(** A difference of the span: the computed value less the reference at its
    position, NaN where the mask does not hold. *)
Lemma compare_indicator_diff name csv comp s k d :
  compare_indicator np_sum name csv comp = Ok (Compared s) ->
  diff s !! k = Some d ->
  exists c v,
    csv !! (start_idx s + k) = Some c /\
    comp !! (start_idx s + k) = Some v /\
    d = (v - c)%float /\
    (valid_mask csv comp !! (start_idx s + k) = Some false ->
     isnan (abs d) = true).
Proof.
  intros Hcmp Hd.
  destruct (compare_indicator_compared _ _ _ _ _ Hcmp)
    as (_ & _ & Hdiff & _).
  rewrite Hdiff in Hd. apply lookup_slice in Hd.
  apply lookup_zip_with_Some in Hd as (v & c & -> & Hv & Hc).
  exists c, v. repeat split; try done.
  unfold valid_mask. rewrite lookup_zip_with, Hc, Hv. simpl.
  intros [= Hm]. rewrite abs_nan.
  apply andb_false_iff in Hm as [Hm|Hm]; apply negb_false_iff in Hm.
  - by apply sub_nan_r.
  - by apply sub_nan_l.
Qed.

(** A relative term of the span. *)
Lemma compare_indicator_rel_term (csv comp : list float) first stop k t :
  slice first stop (zip_with (fun c v => abs ((v - c) / c)) csv comp) !! k
  = Some t ->
  exists c v,
    csv !! (first + k) = Some c /\ comp !! (first + k) = Some v /\
    t = abs ((v - c) / c).
Proof.
  intros Ht%lookup_slice.
  apply lookup_zip_with_Some in Ht as (c & v & -> & Hc & Hv). eauto.
Qed.
End SpanFacts.

(** ** Validity and statistics *)

Section CmmaValid.
Import PyFloat PySeq Cmma.

Variable np_sum : list float -> float.
Variable np_corrcoef : list float -> list float -> float.

End CmmaValid.

Section ComparisonTheorems.
Import PyFloat PySeq.

Variable np_sum : list float -> float.
Variable np_corrcoef : list float -> list float -> float.

(** C2, as amended.  In plot_cmma the validity mask holds at a position
    exactly when both series hold a finite value there, and the MAE and the
    correlation are computed on the mask-selected rows, all of them finite.
    In plot_hit_or_miss the mask holds exactly when neither value is NaN (an
    infinite value counts as valid), and the statistics are taken over the
    span from the first to the last mask-true position.  The span holds one
    difference, computed less reference, per position, and the difference
    at a mask-false position is NaN.  The MAE and the mean relative error
    are the sum of their terms with NaN taken as zero, over the number of
    terms that are not NaN; the max error is the greatest term that is not
    NaN.  So a mask-false position contributes to no statistic, and the
    statistics depend only on the mask and on the values at mask-true
    positions. *)
Theorem validity_mask_and_statistics :
  (forall csv comp i,
     Cmma.valid_mask csv comp !! i = Some true <->
     exists c v, csv !! i = Some c /\ comp !! i = Some v /\
                 isfinite c = true /\ isfinite v = true) /\
  (forall df name cc pc csv comp p,
     Cmma.columns df !! cc = Some csv ->
     Cmma.columns df !! pc = Some comp ->
     Cmma.create_comparison_plot np_sum np_corrcoef df name cc pc
     = Ok (Cmma.Plotted p) ->
     Cmma.csv_vals p = select (Cmma.valid_mask csv comp) csv /\
     Cmma.computed_vals p = select (Cmma.valid_mask csv comp) comp /\
     Cmma.mae p =
       Cmma.np_mean np_sum
         (map abs (zip_with (fun v c => (v - c)%float)
                     (Cmma.computed_vals p) (Cmma.csv_vals p))) /\
     Cmma.corr p = np_corrcoef (Cmma.csv_vals p) (Cmma.computed_vals p) /\
     (forall k r, Cmma.csv_vals p !! k = Some r -> isfinite r = true) /\
     (forall k c, Cmma.computed_vals p !! k = Some c -> isfinite c = true)) /\
  (forall csv comp i,
     HitOrMiss.valid_mask csv comp !! i = Some true <->
     exists c v, csv !! i = Some c /\ comp !! i = Some v /\
                 isnan c = false /\ isnan v = false) /\
  (forall name csv comp csv' comp',
     length csv = length comp ->
     length csv' = length csv ->
     length comp' = length comp ->
     (forall i, HitOrMiss.valid_mask csv' comp' !! i
                = HitOrMiss.valid_mask csv comp !! i) ->
     (forall i, HitOrMiss.valid_mask csv comp !! i = Some true ->
        csv' !! i = csv !! i /\ comp' !! i = comp !! i) ->
     HitOrMiss.compare_indicator np_sum name csv' comp' =
     HitOrMiss.compare_indicator np_sum name csv comp) /\
  (forall name csv comp s,
     length csv = length comp ->
     HitOrMiss.compare_indicator np_sum name csv comp
     = Ok (HitOrMiss.Compared s) ->
     HitOrMiss.valid_mask csv comp !! HitOrMiss.start_idx s = Some true /\
     HitOrMiss.valid_mask csv comp !! HitOrMiss.end_idx s = Some true /\
     (forall i, HitOrMiss.valid_mask csv comp !! i = Some true ->
        HitOrMiss.start_idx s <= i <= HitOrMiss.end_idx s) /\
     length (HitOrMiss.diff s)
     = HitOrMiss.end_idx s - HitOrMiss.start_idx s + 1 /\
     (forall k d, HitOrMiss.diff s !! k = Some d ->
        exists c v,
          csv !! (HitOrMiss.start_idx s + k) = Some c /\
          comp !! (HitOrMiss.start_idx s + k) = Some v /\
          d = (v - c)%float /\
          (HitOrMiss.valid_mask csv comp !! (HitOrMiss.start_idx s + k)
           = Some false -> isnan (abs d) = true)) /\
     HitOrMiss.mae s =
       (np_sum (nan_as_zero (map abs (HitOrMiss.diff s))) /
        float_of_nat (count_not_nan (map abs (HitOrMiss.diff s))))%float /\
     HitOrMiss.max_error s ∈ map abs (HitOrMiss.diff s) /\
     (forall d, d ∈ HitOrMiss.diff s -> isnan d = false ->
        (abs d <=? HitOrMiss.max_error s)%float = true) /\
     (isnan (HitOrMiss.max_error s) = true ->
      forall d, d ∈ HitOrMiss.diff s -> isnan d = true) /\
     HitOrMiss.mean_rel_error s =
       (np_sum
          (nan_as_zero
             (slice (HitOrMiss.start_idx s) (HitOrMiss.end_idx s + 1)
                (zip_with (fun c v => abs ((v - c) / c)) csv comp))) /
        float_of_nat
          (count_not_nan
             (slice (HitOrMiss.start_idx s) (HitOrMiss.end_idx s + 1)
                (zip_with (fun c v => abs ((v - c) / c)) csv comp)))
        * 100)%float).
Proof.
  split; [apply valid_mask_lookup|].
  split.
  { intros df name cc pc csv comp p Hc Hp Hplot.
    destruct (create_comparison_plot_plotted _ _ _ _ _ _ _ _ _ Hc Hp Hplot)
      as (H1 & H2 & H3 & H4 & _ & H6).
    rewrite H4, H3. repeat split; try done.
    - intros k r Hr. rewrite H1 in Hr.
      apply select_zip_with_l in Hr as [w Hw].
      by apply andb_true_iff in Hw as [? _].
    - intros k c Hk. rewrite H2 in Hk.
      apply select_zip_with_r in Hk as [w Hw].
      by apply andb_true_iff in Hw as [_ ?]. }
  split; [apply hm_valid_mask_lookup|].
  split; [intros name csv comp csv' comp'; apply compare_indicator_agree|].
  intros name csv comp s _ Hcmp.
  destruct (compare_indicator_span_ends np_sum _ _ _ _ Hcmp)
    as (E1 & E2 & E3 & E4).
  destruct (compare_indicator_compared _ _ _ _ _ Hcmp)
    as (_ & _ & _ & Hmae & _ & Hrel).
  destruct (compare_indicator_max_error np_sum _ _ _ _ Hcmp)
    as (M1 & M2 & M3).
  split; [done|]. split; [done|]. split; [done|]. split; [done|].
  split; [intros k d; by apply (compare_indicator_diff np_sum name)|].
  split; [by rewrite Hmae, nanmean_spelled|].
  split; [done|]. split; [done|]. split; [done|].
  by rewrite Hrel, nanmean_spelled.
Qed.

(** C4, as amended.  The mean relative error is the NaN-skipping mean of
    |difference / reference|, times 100, over the span from the first to the
    last valid position: one term per position of the span, their sum with
    NaN taken as zero, over the number of terms that are not NaN.  Only NaN
    terms are left out, and a term is NaN exactly when the reference is NaN
    or infinite, or the computed value is NaN, or both are zero.  A zero
    reference under a computed value that is neither zero nor NaN is not
    left out; its term is [+inf]. *)
Theorem mean_rel_error_skips_only_nan name csv comp s :
  length csv = length comp ->
  HitOrMiss.compare_indicator np_sum name csv comp = Ok (HitOrMiss.Compared s) ->
  head (where_true (HitOrMiss.valid_mask csv comp))
  = Some (HitOrMiss.start_idx s) /\
  last (where_true (HitOrMiss.valid_mask csv comp))
  = Some (HitOrMiss.end_idx s) /\
  length (slice (HitOrMiss.start_idx s) (HitOrMiss.end_idx s + 1)
            (zip_with (fun c v => abs ((v - c) / c)) csv comp))
  = HitOrMiss.end_idx s - HitOrMiss.start_idx s + 1 /\
  (forall k t,
     slice (HitOrMiss.start_idx s) (HitOrMiss.end_idx s + 1)
       (zip_with (fun c v => abs ((v - c) / c)) csv comp) !! k = Some t ->
     exists c v,
       csv !! (HitOrMiss.start_idx s + k) = Some c /\
       comp !! (HitOrMiss.start_idx s + k) = Some v /\
       t = abs ((v - c) / c)) /\
  HitOrMiss.mean_rel_error s =
    (np_sum
       (nan_as_zero
          (slice (HitOrMiss.start_idx s) (HitOrMiss.end_idx s + 1)
             (zip_with (fun c v => abs ((v - c) / c)) csv comp))) /
     float_of_nat
       (count_not_nan
          (slice (HitOrMiss.start_idx s) (HitOrMiss.end_idx s + 1)
             (zip_with (fun c v => abs ((v - c) / c)) csv comp)))
     * 100)%float /\
  (forall c v,
     isnan (abs ((v - c) / c)) = true <->
     isfinite c = false \/ isnan v = true \/
     ((c =? 0)%float = true /\ (v =? 0)%float = true)) /\
  (forall c v, (c =? 0)%float = true -> isnan v = false ->
     (v =? 0)%float = false ->
     abs ((v - c) / c) = infinity).
Proof.
  intros _ Hcmp.
  destruct (compare_indicator_compared _ _ _ _ _ Hcmp)
    as (H1 & H2 & _ & _ & _ & H6).
  destruct (compare_indicator_span_ends np_sum _ _ _ _ Hcmp)
    as (_ & E2 & E3 & _).
  split; [done|]. split; [done|]. split.
  { pose proof (E3 _ E2) as [Hle _].
    rewrite length_slice; [lia|done|].
    apply hm_valid_mask_lookup in E2 as (c & v & Hc & Hv & _).
    apply lookup_lt_Some in Hc. apply lookup_lt_Some in Hv.
    rewrite length_zip_with. by apply Nat.min_glb_lt. }
  split; [intros k t; apply compare_indicator_rel_term|].
  split; [by rewrite H6, nanmean_spelled|].
  split; [apply rel_term_nan_iff|apply rel_term_zero_reference].
Qed.

End ComparisonTheorems.

Section ComparisonExamples.
Import PyFloat PySeq Samples.

(** C2 is not the code's behaviour as stated: plot_hit_or_miss counts an
    infinite value as valid. *)
Lemma hit_or_miss_mask_admits_infinity :
  HitOrMiss.valid_mask [infinity] [1%float] = [true] /\
  isfinite infinity = false.
Proof. split; reflexivity. Qed.

Lemma validity_mask_and_statistics_witness :
  HitOrMiss.compare_indicator sum_left "TGT_115"
    [1%float; nan; 3%float] [1; 0; 2.5]%float =
  HitOrMiss.compare_indicator sum_left "TGT_115"
    [1%float; nan; 3%float] [1; 2; 2.5]%float /\
  exists s,
    HitOrMiss.compare_indicator sum_left "TGT_115"
      [1%float; nan; 3%float] [1; 2; 2.5]%float
    = Ok (HitOrMiss.Compared s) /\
    HitOrMiss.diff s = [0%float; nan; (-0.5)%float] /\
    HitOrMiss.mae s = (sum_left [0; 0; 0.5] / 2)%float.
Proof.
  split.
  - apply (proj1 (proj2 (proj2 (proj2
             (validity_mask_and_statistics sum_left pearson))))).
    + reflexivity.
    + reflexivity.
    + reflexivity.
    + intros i. reflexivity.
    + intros [|[|[|i]]]; simpl; intros; done.
  - eexists. split; [vm_compute; reflexivity|]. split; [reflexivity|].
    refine (proj1 (proj2 (proj2 (proj2 (proj2 (proj2
              (proj2 (proj2 (proj2 (proj2
                 (validity_mask_and_statistics sum_left pearson))))
                 "TGT_115" [1%float; nan; 3%float] [1; 2; 2.5]%float _
                 eq_refl _))))))).
    vm_compute. reflexivity.
Defined.

(** C4 is not the code's behaviour as stated: a zero reference under a
    non-zero difference enters the mean, and makes it infinite. *)
Lemma mean_rel_error_counts_zero_reference :
  (exists s,
     HitOrMiss.compare_indicator sum_left "TGT_115" [0; 1]%float [1; 1]%float
     = Ok (HitOrMiss.Compared s) /\
     HitOrMiss.mean_rel_error s = infinity) /\
  SpecStats.mean_rel_error sum_left [0; 1]%float [1; 1]%float = 0%float.
Proof.
  split.
  - eexists. split; [vm_compute; reflexivity|reflexivity].
  - vm_compute. reflexivity.
Qed.

Lemma mean_rel_error_skips_only_nan_witness :
  exists s,
    HitOrMiss.compare_indicator sum_left "TGT_115"
      [0%float; nan; infinity; 1%float] [1; 2; 1; 1]%float
    = Ok (HitOrMiss.Compared s) /\
    HitOrMiss.start_idx s = 0 /\ HitOrMiss.end_idx s = 3 /\
    HitOrMiss.mean_rel_error s =
      (HitOrMiss.nanmean sum_left [infinity; nan; nan; 0%float] * 100)%float.
Proof.
  eexists. split; [vm_compute; reflexivity|].
  split; [reflexivity|]. split; [reflexivity|].
  refine (proj1 (proj2 (proj2 (proj2 (proj2
            (mean_rel_error_skips_only_nan sum_left "TGT_115"
               [0%float; nan; infinity; 1%float] [1; 2; 1; 1]%float _
               eq_refl _)))))).
  vm_compute. reflexivity.
Defined.



End ComparisonExamples.

(** * Part III: further properties of the scripts *)

(** ** Loops that may raise *)

Lemma rbind_Ok {A B} (a : A) (k : A -> result B) : (x <- Ok a ;; k x) = k a.
Proof. done. Qed.

Section ForEachFacts.
Context {A S : Type}.
Variable body : S -> A -> result S.

Lemma for_each_invariant (P : S -> Prop) st l st' :
  (forall s a s', P s -> body s a = Ok s' -> P s') ->
  P st -> for_each body st l = Ok st' -> P st'.
Proof.
  intros Hstep. revert st. induction l as [|a l IH]; intros st Hst; simpl.
  - by intros [= <-].
  - destruct (body st a) as [s1|] eqn:Hb; simpl; [|done].
    apply IH. by eapply Hstep.
Qed.

(** Entries the body passes over can be left out of the input. *)
Lemma for_each_filter (P : A -> Prop) `{forall a, Decision (P a)} st l :
  (forall s a, ~ P a -> body s a = Ok s) ->
  for_each body st l = for_each body st (filter P l).
Proof.
  intros Hskip. revert st. induction l as [|a l IH]; intros st; [done|].
  destruct (decide (P a)) as [Ha|Ha].
  - rewrite filter_cons_True by done. simpl.
    destruct (body st a); simpl; [apply IH|done].
  - rewrite filter_cons_False by done. simpl.
    rewrite (Hskip st a Ha). simpl. apply IH.
Qed.

Lemma for_each_cons st a l :
  for_each body st (a :: l) = (st' <- body st a ;; for_each body st' l).
Proof. done. Qed.

Lemma for_each_raise_at st before a after acc e :
  for_each body st before = Ok acc ->
  body acc a = Raise e ->
  for_each body st (before ++ a :: after) = Raise e.
Proof. intros Hb Ha. rewrite for_each_app, Hb. simpl. by rewrite Ha. Qed.
End ForEachFacts.

(** ** parse_ohlcv *)

Section OhlcvFacts.
Import PyFloat PySeq PyStr HitOrMiss.

Variable py_int : string -> option Z.
Variable py_float : string -> option float.

Lemma int_at_cases parts k :
  k < length parts ->
  (exists s z, parts !! k = Some s /\ py_int s = Some z /\
               int_at py_int parts k = Ok z) \/
  (exists s, parts !! k = Some s /\ py_int s = None /\
             int_at py_int parts k = Raise ValueError).
Proof.
  intros [s Hs]%lookup_lt_is_Some_2. unfold int_at. rewrite Hs.
  destruct (py_int s) as [z|] eqn:Hz; [left|right]; eauto.
Qed.

Lemma float_at_cases parts k :
  k < length parts ->
  (exists s v, parts !! k = Some s /\ py_float s = Some v /\
               float_at py_float parts k = Ok v) \/
  (exists s, parts !! k = Some s /\ py_float s = None /\
             float_at py_float parts k = Raise ValueError).
Proof.
  intros [s Hs]%lookup_lt_is_Some_2. unfold float_at. rewrite Hs.
  destruct (py_float s) as [v|] eqn:Hv; [left|right]; eauto.
Qed.

Lemma parse_ohlcv_row_short acc line :
  ~ 7 <= length (split line) ->
  parse_ohlcv_row py_int py_float acc line = Ok acc.
Proof. intros H. unfold parse_ohlcv_row. by rewrite decide_False. Qed.

Lemma parse_ohlcv_row_rows acc line acc' n :
  7 <= length (split line) ->
  ohlcv_rows acc n ->
  parse_ohlcv_row py_int py_float acc line = Ok acc' ->
  ohlcv_rows acc' (S n).
Proof.
  intros Hlen Hacc. unfold parse_ohlcv_row. rewrite decide_True by done.
  destruct (int_at _ _ 0); simpl; [|done].
  destruct (int_at _ _ 1); simpl; [|done].
  destruct (float_at _ _ 2); simpl; [|done].
  destruct (float_at _ _ 3); simpl; [|done].
  destruct (float_at _ _ 4); simpl; [|done].
  destruct (float_at _ _ 5); simpl; [|done].
  destruct (float_at _ _ 6); simpl; [|done].
  intros [= <-]. unfold ohlcv_rows in *. simpl.
  rewrite !length_app. simpl. lia.
Qed.

Lemma for_each_parse_ohlcv_rows lines acc d n :
  ohlcv_rows acc n ->
  for_each (parse_ohlcv_row py_int py_float) acc lines = Ok d ->
  ohlcv_rows d
    (n + length (filter (fun line => 7 <= length (split line)) lines)).
Proof.
  revert acc n. induction lines as [|line lines IH]; intros acc n Hacc; simpl.
  - intros [= <-]. by rewrite Nat.add_0_r.
  - destruct (parse_ohlcv_row _ _ acc line) as [acc1|] eqn:Hrow; simpl; [|done].
    intros Hrest. destruct (decide (7 <= length (split line))) as [Hl|Hl].
    + rewrite filter_cons_True by done. simpl.
      rewrite Nat.add_succ_r, <- Nat.add_succ_l.
      apply (IH acc1); [|done]. by eapply parse_ohlcv_row_rows.
    + rewrite filter_cons_False by done.
      rewrite parse_ohlcv_row_short in Hrow by done. injection Hrow as <-.
      by apply (IH acc).
Qed.

Lemma parse_ohlcv_rows lines d :
  parse_ohlcv py_int py_float lines = Ok d ->
  ohlcv_rows d (length (filter (fun line => 7 <= length (split line)) lines)).
Proof.
  intros H. apply (for_each_parse_ohlcv_rows lines empty_ohlcv d 0); [|done].
  by repeat split.
Qed.

(** X1.  A parse of the OHLCV file that returns has one bar per line of at
    least seven fields, and its seven columns have that one length. *)
Theorem parse_ohlcv_one_bar_per_long_line lines d :
  parse_ohlcv py_int py_float lines = Ok d ->
  ohlcv_rows d (length (filter (fun line => 7 <= length (split line)) lines)).
Proof. apply parse_ohlcv_rows. Qed.

(** X2.  Lines of fewer than seven fields are passed over: the parse of a
    file is the parse of its lines of at least seven fields. *)
Theorem parse_ohlcv_drops_short_lines lines :
  parse_ohlcv py_int py_float lines =
  parse_ohlcv py_int py_float
    (filter (fun line => 7 <= length (split line)) lines).
Proof.
  unfold parse_ohlcv. apply for_each_filter.
  intros acc line. apply parse_ohlcv_row_short.
Qed.

(** X3.  The conversions of an OHLCV line are not guarded: a line of at
    least seven fields one of whose first seven fields does not convert
    (the first two with [int], the next five with [float]) makes the whole
    parse raise [ValueError], whatever follows. *)
Theorem parse_ohlcv_bad_field_raises before line after acc k cell :
  parse_ohlcv py_int py_float before = Ok acc ->
  7 <= length (split line) ->
  split line !! k = Some cell ->
  (k < 2 /\ py_int cell = None) \/ (2 <= k < 7 /\ py_float cell = None) ->
  parse_ohlcv py_int py_float (before ++ line :: after) = Raise ValueError.
Proof.
  intros Hbefore Hlen Hcell Hbad. unfold parse_ohlcv in *.
  apply (for_each_raise_at _ _ _ _ _ acc); [done|].
  unfold parse_ohlcv_row. rewrite decide_True by done.
  destruct (int_at_cases (split line) 0) as
    [(s0 & z0 & Hs0 & Hz0 & ->)|(? & _ & _ & ->)]; [lia| |done]. simpl.
  destruct (int_at_cases (split line) 1) as
    [(s1 & z1 & Hs1 & Hz1 & ->)|(? & _ & _ & ->)]; [lia| |done]. simpl.
  destruct (float_at_cases (split line) 2) as
    [(s2 & v2 & Hs2 & Hv2 & ->)|(? & _ & _ & ->)]; [lia| |done]. simpl.
  destruct (float_at_cases (split line) 3) as
    [(s3 & v3 & Hs3 & Hv3 & ->)|(? & _ & _ & ->)]; [lia| |done]. simpl.
  destruct (float_at_cases (split line) 4) as
    [(s4 & v4 & Hs4 & Hv4 & ->)|(? & _ & _ & ->)]; [lia| |done]. simpl.
  destruct (float_at_cases (split line) 5) as
    [(s5 & v5 & Hs5 & Hv5 & ->)|(? & _ & _ & ->)]; [lia| |done]. simpl.
  destruct (float_at_cases (split line) 6) as
    [(s6 & v6 & Hs6 & Hv6 & ->)|(? & _ & _ & ->)]; [lia| |done]. simpl.
  exfalso.
  destruct Hbad as [[Hk Hfail]|[Hk Hfail]].
  - destruct k as [|[|k]]; [| |lia]; congruence.
  - destruct k as [|[|[|[|[|[|[|k]]]]]]]; try lia; congruence.
Qed.
End OhlcvFacts.

(** ** parse_tssb_csv, further *)

Section CsvFacts.
Import PyFloat PySeq PyStr HitOrMiss.

Variable py_int : string -> option Z.
Variable py_float : string -> option float.

Lemma length_read_cell parts idx col :
  length (read_cell py_float parts idx col) =
  if truthy idx then S (length col) else length col.
Proof.
  unfold read_cell. destruct (truthy idx); [|done].
  destruct (_ ≫= py_float); rewrite length_app; simpl; lia.
Qed.

Lemma parse_row_short i115 i315 i555 acc line m :
  py_max (filter_truthy [i115; i315; i555]) = Ok m ->
  ~ m < length (split line) ->
  parse_row py_int py_float i115 i315 i555 acc line = Ok acc.
Proof.
  intros Hm Hlen. unfold parse_row. rewrite Hm. simpl.
  by rewrite decide_False.
Qed.

Lemma parse_row_rows i115 i315 i555 acc line acc' n :
  csv_rows i115 i315 i555 acc n ->
  parse_row py_int py_float i115 i315 i555 acc line = Ok acc' ->
  csv_rows i115 i315 i555 acc' n \/ csv_rows i115 i315 i555 acc' (S n).
Proof.
  intros (Hd & Ht & Hf). unfold parse_row.
  destruct (py_max _) as [m|]; simpl; [|done].
  destruct (decide _); [|intros [= <-]; by left].
  destruct (int_at _ _ 0); simpl; [|done].
  destruct (int_at _ _ 1); simpl; [|done].
  intros [= <-]. right. unfold csv_rows. simpl.
  rewrite !length_app. simpl. split; [lia|]. split; [lia|].
  intros f. pose proof (Hf f) as Hlen.
  destruct f; simpl in *; rewrite length_read_cell;
    match goal with |- context [truthy ?i] => destruct (truthy i) end; lia.
Qed.

(** X4.  A parse of the reference CSV that returns keeps its columns in
    step: the date and time columns have one length, every collected
    indicator column (header index not 0) has that length too, and a column
    that is not collected is empty. *)
Theorem parse_tssb_csv_columns_in_step header_line data_lines d :
  parse_tssb_csv py_int py_float header_line data_lines = Ok d ->
  length (c_time d) = length (c_date d) /\
  forall f,
    length (csv_field f d) =
    if truthy (column_index (split header_line) f)
    then length (c_date d) else 0.
Proof.
  intros Hparse. unfold parse_tssb_csv in Hparse.
  set (i115 := column_index (split header_line) TGT_115) in *.
  set (i315 := column_index (split header_line) TGT_315) in *.
  set (i555 := column_index (split header_line) TGT_555) in *.
  assert (exists n, csv_rows i115 i315 i555 d n) as (n & Hd & Ht & Hf).
  { eapply (for_each_invariant _
              (fun s => exists n, csv_rows i115 i315 i555 s n)); [| |exact Hparse].
    - intros s line s' [n Hs] Hrow.
      destruct (parse_row_rows _ _ _ _ _ _ _ Hs Hrow); eauto.
    - exists 0. repeat split. intros f.
      by destruct f, (truthy _). }
  split; [lia|]. intros f. rewrite Hd. specialize (Hf f). by destruct f.
Qed.

(** X5.  With [m] the largest collected index, data lines of at most [m]
    fields (blank lines among them) are passed over: the parse is that of
    the lines of more than [m] fields. *)
Theorem parse_tssb_csv_drops_short_lines header_line data_lines m :
  py_max (filter_truthy [column_index (split header_line) TGT_115;
                         column_index (split header_line) TGT_315;
                         column_index (split header_line) TGT_555]) = Ok m ->
  parse_tssb_csv py_int py_float header_line data_lines =
  parse_tssb_csv py_int py_float header_line
    (filter (fun line => m < length (split line)) data_lines).
Proof.
  intros Hm. unfold parse_tssb_csv. apply for_each_filter.
  intros acc line Hshort. by eapply parse_row_short.
Qed.

(** X6.  Only the indicator cells are guarded.  An accepted line whose date
    or time field does not convert with [int] makes the whole parse raise
    [ValueError]. *)
Theorem parse_tssb_csv_bad_date_raises
    header_line before line after acc m k cell :
  parse_tssb_csv py_int py_float header_line before = Ok acc ->
  py_max (filter_truthy [column_index (split header_line) TGT_115;
                         column_index (split header_line) TGT_315;
                         column_index (split header_line) TGT_555]) = Ok m ->
  m < length (split line) ->
  k < 2 -> split line !! k = Some cell -> py_int cell = None ->
  parse_tssb_csv py_int py_float header_line (before ++ line :: after)
  = Raise ValueError.
Proof.
  intros Hbefore Hm Hlen Hk Hcell Hfail. unfold parse_tssb_csv in *.
  apply (for_each_raise_at _ _ _ _ _ acc); [done|].
  unfold parse_row. rewrite Hm. simpl. rewrite decide_True by done.
  assert (1 <= m) as Hm1.
  { apply py_max_attained, elem_of_filter_truthy in Hm as [_ ?]. lia. }
  destruct (int_at_cases py_int (split line) 0) as
    [(s0 & z0 & Hs0 & Hz0 & ->)|(? & _ & _ & ->)]; [lia| |done]. simpl.
  destruct (int_at_cases py_int (split line) 1) as
    [(s1 & z1 & Hs1 & Hz1 & ->)|(? & _ & _ & ->)]; [lia| |done]. simpl.
  exfalso. destruct k as [|[|k]]; [| |lia]; congruence.
Qed.
End CsvFacts.

(** ** compare_indicator, further *)

Section CompareFacts.
Import PyFloat PySeq HitOrMiss.

Variable np_sum : list float -> float.

(** X7.  The statistics block never raises: without a valid position it
    yields the warning, and with one it yields statistics, the maximum being
    taken over a span that is never empty. *)
Theorem compare_indicator_never_raises name csv comp :
  ((forall i, valid_mask csv comp !! i <> Some true) /\
   compare_indicator np_sum name csv comp =
   Ok (NoValidData ("Warning: No valid data for " +:+ name))) \/
  ((exists i, valid_mask csv comp !! i = Some true) /\
   exists s, compare_indicator np_sum name csv comp = Ok (Compared s)).
Proof. apply compare_indicator_cases. Qed.

(** X8.  When statistics are produced, the span runs from the first to the
    last valid position: both ends are valid, every valid position lies
    between them, and the difference array has one entry per position of
    the span. *)
Theorem compared_span_bounds name csv comp s :
  compare_indicator np_sum name csv comp = Ok (Compared s) ->
  valid_mask csv comp !! start_idx s = Some true /\
  valid_mask csv comp !! end_idx s = Some true /\
  (forall i, valid_mask csv comp !! i = Some true ->
     start_idx s <= i <= end_idx s) /\
  length (diff s) = end_idx s - start_idx s + 1.
Proof. apply compare_indicator_span_ends. Qed.

(** X9.  The maximum error is the absolute difference at some position of
    the span, it is at least every absolute difference of the span that is
    not NaN, and it is NaN only when every difference of the span is. *)
Theorem max_error_is_greatest name csv comp s :
  compare_indicator np_sum name csv comp = Ok (Compared s) ->
  max_error s ∈ map abs (diff s) /\
  (forall d, d ∈ diff s -> isnan d = false ->
     (abs d <=? max_error s)%float = true) /\
  (isnan (max_error s) = true -> forall d, d ∈ diff s -> isnan d = true).
Proof. apply compare_indicator_max_error. Qed.
End CompareFacts.

(** ** align_data, further *)

Section AlignMore.
Import PyFloat PySeq HitOrMiss.

Lemma run_no_column m n rows : run m n [] rows = replicate n nan.
Proof.
  induction rows as [|k rows IH] using rev_ind; [done|].
  rewrite run_snoc, IH. by destruct (m !! k).
Qed.

(** Either no row writes a position, or one row is the last to write it. *)
Lemma last_writer m col rows p :
  (forall i, ~ writes m col rows p i) \/
  (exists i, writes m col rows p i /\
             forall j, i < j -> ~ writes m col rows p j).
Proof.
  induction rows as [|k rows IH] using rev_ind.
  - left. intros i (key & H & _). done.
  - pose proof (writes_snoc_last m col rows k p) as Hlast.
    destruct (decide (m !! k = Some p)) as [Hk|Hk].
    + destruct (col !! length rows) as [w|] eqn:Hw.
      * right. exists (length rows). split.
        -- apply Hlast. split; [done|]. by eexists.
        -- intros j Hj Hwj. apply writes_lt in Hwj.
           rewrite length_app in Hwj. simpl in Hwj. lia.
      * assert (~ writes m col (rows ++ [k]) p (length rows)) as Hno.
        { rewrite Hlast. intros [_ [? ?]]. done. }
        destruct IH as [Hnone|(i & Hi & Hmax)].
        -- left. intros i Hi. apply (Hnone i). by eapply writes_snoc_inv.
        -- right. exists i. split.
           ++ apply writes_snoc_lt; [by eapply writes_lt|done].
           ++ intros j Hj Hwj. apply (Hmax j Hj). by eapply writes_snoc_inv.
    + assert (~ writes m col (rows ++ [k]) p (length rows)) as Hno.
      { rewrite Hlast. intros [? _]. done. }
      destruct IH as [Hnone|(i & Hi & Hmax)].
      * left. intros i Hi. apply (Hnone i). by eapply writes_snoc_inv.
      * right. exists i. split.
        -- apply writes_snoc_lt; [by eapply writes_lt|done].
        -- intros j Hj Hwj. apply (Hmax j Hj). by eapply writes_snoc_inv.
Qed.

(** What a position of the output holds, read backwards. *)
Lemma run_lookup_inv m n col rows p v :
  run m n col rows !! p = Some v ->
  (v = nan /\ forall i, ~ writes m col rows p i) \/
  (exists i, writes m col rows p i /\ col !! i = Some v /\
             forall j, i < j -> ~ writes m col rows p j).
Proof.
  intros Hv. pose proof (lookup_lt_Some _ _ _ Hv) as Hp.
  rewrite run_length in Hp.
  destruct (run_spec m n col rows p Hp) as [HA HB].
  destruct (last_writer m col rows p) as [Hnone|(i & Hi & Hmax)].
  - left. rewrite (HB Hnone) in Hv. split; [congruence|done].
  - right. exists i. destruct Hi as (key & Hk & Hm & [w Hw]).
    assert (writes m col rows p i) as Hwi by (exists key; rewrite Hw; eauto).
    rewrite (HA i w Hwi Hw Hmax) in Hv. split; [done|]. split; [congruence|done].
Qed.

(** X10.  Alignment invents no value: every entry of an aligned series is
    the missing marker or a value of the reference column, taken from a row
    whose key is the key of that bar. *)
Theorem align_data_entries_from_rows f ohlcv csv p v :
  aligned_field f (align_data ohlcv csv) !! p = Some v ->
  v = nan \/
  exists r key,
    row_keys csv !! r = Some key /\ bar_keys ohlcv !! p = Some key /\
    csv_field f csv !! r = Some v.
Proof.
  rewrite align_data_run. intros [[-> _]|(i & Hi & Hv & _)]%run_lookup_inv.
  - by left.
  - right. destruct Hi as (key & Hk & Hm & _). exists i, key.
    apply build_ohlcv_map_Some in Hm as [Hm _]. done.
Qed.

(** X11.  Aligning a dataset with itself gives it back: when the reference
    rows carry the keys of the bars, in the order of the bars and without a
    repeated key, the aligned series of a full column is that column. *)
Theorem align_data_same_keys f ohlcv csv :
  NoDup (bar_keys ohlcv) ->
  length (bar_keys ohlcv) = length (o_date ohlcv) ->
  row_keys csv = bar_keys ohlcv ->
  length (csv_field f csv) = length (bar_keys ohlcv) ->
  aligned_field f (align_data ohlcv csv) = csv_field f csv.
Proof.
  intros Hnd Hn Hrows Hcol. apply list_eq. intros p.
  destruct (decide (p < length (bar_keys ohlcv))) as [Hp|Hp].
  - destruct (lookup_lt_is_Some_2 (bar_keys ohlcv) p Hp) as [key Hkey].
    destruct (lookup_lt_is_Some_2 (csv_field f csv) p) as [v Hv]; [lia|].
    rewrite Hv. apply (align_data_last_row f ohlcv csv key p p v).
    + apply build_ohlcv_map_Some. split; [done|].
      intros j Hj Hkj. pose proof (NoDup_lookup _ _ _ _ Hnd Hkey Hkj). lia.
    + by rewrite Hrows.
    + done.
    + intros r' Hr' Hkr. rewrite Hrows in Hkr.
      pose proof (NoDup_lookup _ _ _ _ Hnd Hkey Hkr). lia.
  - rewrite (lookup_ge_None_2 (csv_field f csv)) by lia.
    apply lookup_ge_None_2.
    rewrite align_data_run, run_length. lia.
Qed.

(** The rows of a run whose keys do not repeat, under an index that gives
    distinct keys distinct positions: a position holds the value of the one
    row that writes it. *)
Lemma run_lookup_nodup m n col rows p :
  (forall k k' q, m !! k = Some q -> m !! k' = Some q -> k = k') ->
  NoDup rows -> p < n ->
  (forall key v, (key, v) ∈ zip rows col -> m !! key = Some p ->
     run m n col rows !! p = Some v) /\
  ((forall key v, (key, v) ∈ zip rows col -> m !! key <> Some p) ->
   run m n col rows !! p = Some nan).
Proof.
  intros Hinj Hnd Hp. destruct (run_spec m n col rows p Hp) as [HA HB]. split.
  - intros key v (i & Hi)%list_elem_of_lookup Hm.
    apply lookup_zip_Some in Hi as [Hk Hv].
    apply (HA i v); [exists key; rewrite Hv; eauto|done|].
    intros j Hj (key' & Hk' & Hm' & _).
    rewrite (Hinj key' key p Hm' Hm) in Hk'.
    pose proof (NoDup_lookup _ _ _ _ Hnd Hk Hk'). lia.
  - intros Hnone. apply HB. intros i (key & Hk & Hm & [w Hw]).
    apply (Hnone key w); [|done].
    apply list_elem_of_lookup. exists i. by apply lookup_zip_Some.
Qed.

Lemma build_ohlcv_map_inj keys k k' q :
  build_ohlcv_map keys !! k = Some q -> build_ohlcv_map keys !! k' = Some q ->
  k = k'.
Proof.
  intros [H1 _]%build_ohlcv_map_Some [H2 _]%build_ohlcv_map_Some. congruence.
Qed.

(** X12.  The order of the reference rows does not matter when no key
    repeats among them: two reference datasets whose (key, value) rows for a
    field are permutations of each other align to the same series. *)
Theorem align_data_row_order f ohlcv csv csv' :
  NoDup (row_keys csv) ->
  length (csv_field f csv) = length (row_keys csv) ->
  length (csv_field f csv') = length (row_keys csv') ->
  zip (row_keys csv') (csv_field f csv') ≡ₚ zip (row_keys csv) (csv_field f csv) ->
  aligned_field f (align_data ohlcv csv') = aligned_field f (align_data ohlcv csv).
Proof.
  intros Hnd Hlen Hlen' Hperm.
  assert (NoDup (row_keys csv')) as Hnd'.
  { rewrite <- (fst_zip (row_keys csv') (csv_field f csv')) by lia.
    rewrite Hperm. rewrite fst_zip by lia. done. }
  rewrite !align_data_run. apply list_eq. intros p.
  set (m := build_ohlcv_map (bar_keys ohlcv)).
  set (n := length (o_date ohlcv)).
  destruct (decide (p < n)) as [Hp|Hp].
  2:{ rewrite !lookup_ge_None_2; [done| |]; rewrite run_length; lia. }
  destruct (run_lookup_nodup m n (csv_field f csv) (row_keys csv) p
              (build_ohlcv_map_inj _) Hnd Hp) as [HA HB].
  destruct (run_lookup_nodup m n (csv_field f csv') (row_keys csv') p
              (build_ohlcv_map_inj _) Hnd' Hp) as [HA' HB'].
  destruct (lookup_lt_is_Some_2 (run m n (csv_field f csv) (row_keys csv)) p)
    as [v Hv]; [by rewrite run_length|].
  rewrite Hv.
  apply run_lookup_inv in Hv as [[-> Hnone]|(i & Hi & Hvi & _)].
  - apply HB'. intros key w Hin Hm.
    rewrite Hperm in Hin. apply list_elem_of_lookup in Hin as [i Hi].
    apply lookup_zip_Some in Hi as [Hk Hw].
    apply (Hnone i). exists key. rewrite Hw. eauto.
  - destruct Hi as (key & Hk & Hm & _).
    apply (HA' key v); [|done]. rewrite Hperm.
    apply list_elem_of_lookup. exists i. by apply lookup_zip_Some.
Qed.
End AlignMore.

(** ** extract_computed_values, further *)

Section ExtractMore.
Import PyStr HitOrMiss.

Variable py_int : string -> option Z.
Variable py_float : string -> option float.
Variable indicator_name : string.

Lemma from_section_app seen more b c :
  from_section py_int py_float indicator_name seen b c -> from_section py_int py_float indicator_name (seen ++ more) b c.
Proof.
  intros (i & j & h & d & Hij & Hi & Hj & H). exists i, j, h, d.
  split; [done|]. split; [by apply lookup_app_l_Some|].
  split; [by apply lookup_app_l_Some|done].
Qed.

Lemma scanned_app seen more st :
  scanned py_int py_float indicator_name seen st -> scanned py_int py_float indicator_name (seen ++ more) st.
Proof.
  intros [Hh He]. split.
  - intros Hin. destruct (Hh Hin) as (i & h & Hi & Hhd).
    exists i, h. split; [by apply lookup_app_l_Some|done].
  - intros b c Hbc. by apply from_section_app, He.
Qed.

Lemma record_data_lookup line cv b c :
  record_data py_int py_float line cv !! b = Some c ->
  cv !! b = Some c \/
  (4 <= length (split line) /\
   read_triple py_int py_float (split line) = Some (b, c)).
Proof.
  unfold record_data. destruct (decide _) as [Hlen|]; [|by left].
  destruct (read_triple _ _ _) as [[b' c']|] eqn:Ht; [|by left].
  destruct (decide (b' = b)) as [->|Hne].
  - rewrite lookup_insert_eq. intros [= ->]. by right.
  - rewrite lookup_insert_ne by done. by left.
Qed.

Lemma scan_line_scanned seen st line :
  scanned py_int py_float indicator_name seen st ->
  match scan_line py_int py_float indicator_name st line with
  | Next st' | Break st' => scanned py_int py_float indicator_name (seen ++ [line]) st'
  end.
Proof.
  intros Hst. pose proof (scanned_app seen [line] st Hst) as [Hh He].
  unfold scan_line.
  destruct (is_header indicator_name line) eqn:Hhd.
  - split; [|exact He]. intros _. exists (length seen), line.
    by rewrite lookup_app_r, Nat.sub_diag by lia.
  - assert (scanned py_int py_float indicator_name (seen ++ [line])
              {| in_section := in_section st;
                 computed_values :=
                   if in_section st && is_data line
                   then record_data py_int py_float line (computed_values st)
                   else computed_values st |}) as Hnew.
    { split; [exact Hh|]. simpl. intros b c.
      destruct (in_section st) eqn:Hin; simpl; [|apply He].
      destruct (is_data line) eqn:Hd; [|apply He].
      intros [Hold|[Hlen Ht]]%record_data_lookup; [by apply He|].
      destruct Hst as [Hhs _]. destruct (Hhs Hin) as (i & h & Hi & Hih).
      exists i, (length seen), h, line.
      split; [by apply lookup_lt_Some in Hi|].
      split; [by apply lookup_app_l_Some|].
      split; [by rewrite lookup_app_r, Nat.sub_diag by lia|done]. }
    by destruct (in_section st && is_summary line).
Qed.

Lemma scan_lines_scanned lines seen st :
  scanned py_int py_float indicator_name seen st ->
  scanned py_int py_float indicator_name (seen ++ lines) (scan_lines py_int py_float indicator_name st lines).
Proof.
  revert seen st. induction lines as [|line rest IH]; intros seen st Hst; simpl.
  - by rewrite app_nil_r.
  - pose proof (scan_line_scanned seen st line Hst) as Hline.
    rewrite (cons_middle line seen rest), app_assoc.
    destruct (scan_line _ _ _ st line) as [st'|st'].
    + by apply IH.
    + by apply scanned_app.
Qed.

(** X13.  Every entry of the extracted dict stems from a data line of the
    text that follows a header line of the indicator: its key and value are
    the bar index and the computed value of that line.  A text without a
    header line yields the empty dict. *)
Theorem extracted_entries_from_section output_text :
  (forall b c,
     extract_computed_values py_int py_float output_text indicator_name !! b
     = Some c ->
     from_section py_int py_float indicator_name (split_lines output_text) b c) /\
  ((forall line, line ∈ split_lines output_text ->
      is_header indicator_name line = false) ->
   extract_computed_values py_int py_float output_text indicator_name = ∅).
Proof.
  assert (forall b c,
    extract_computed_values py_int py_float output_text indicator_name !! b
    = Some c -> from_section py_int py_float indicator_name (split_lines output_text) b c) as Hfrom.
  { unfold extract_computed_values. intros b c H.
    destruct (scan_lines_scanned (split_lines output_text) [] scan_start)
      as [_ He].
    - split; [done|]. intros b' c'. simpl. by rewrite lookup_empty.
    - by apply He. }
  split; [done|]. intros Hno. apply map_empty. intros b.
  destruct (extract_computed_values _ _ _ _ !! b) as [c|] eqn:Hb; [|done].
  destruct (Hfrom b c Hb) as (i & j & h & d & _ & Hi & _ & Hh & _).
  rewrite Hno in Hh; [done|]. apply list_elem_of_lookup. eauto.
Qed.

Lemma split_lines_cons s : exists l ls, split_lines s = l :: ls.
Proof.
  destruct s as [|c s]; simpl; [eauto|].
  destruct (Ascii.eqb c "010"); [eauto|].
  destruct (split_lines s); eauto.
Qed.

Lemma split_lines_newline a b :
  split_lines (a +:+ String "010" b) = split_lines a ++ split_lines b.
Proof.
  induction a as [|c a IH]; simpl; [done|].
  destruct (Ascii.eqb c "010"); [by rewrite IH|].
  rewrite IH. by destruct (split_lines_cons a) as (l & ls & ->).
Qed.

Lemma scan_lines_idle_prefix pre rest :
  (forall line, line ∈ pre -> is_header indicator_name line = false) ->
  scan_lines py_int py_float indicator_name scan_start (pre ++ rest) =
  scan_lines py_int py_float indicator_name scan_start rest.
Proof.
  induction pre as [|line pre IH]; intros Hpre; simpl; [done|].
  rewrite scan_line_idle; [|apply Hpre; left|done].
  apply IH. intros l Hl. apply Hpre. by right.
Qed.

(** X14.  Text before the first header line is ignored, whatever it holds:
    lines that look like data or like a summary collect nothing and end
    nothing while no header has been met. *)
Theorem text_before_header_ignored preamble rest :
  (forall line, line ∈ split_lines preamble ->
     is_header indicator_name line = false) ->
  extract_computed_values py_int py_float
    (preamble +:+ String "010" rest) indicator_name =
  extract_computed_values py_int py_float rest indicator_name.
Proof.
  intros Hpre. unfold extract_computed_values.
  by rewrite split_lines_newline, scan_lines_idle_prefix.
Qed.
End ExtractMore.

(** ** The exporter's output *)

Section ExportFacts.
Import PyFloat PySeq PyStr HitOrMiss.

Variable py_int : string -> option Z.
Variable py_float : string -> option float.

Lemma np_index_Ok n idx k : np_index n idx = Ok k -> k < n.
Proof.
  unfold np_index. repeat case_decide; intros [= <-]; lia.
Qed.

Lemma np_index_in_range n idx :
  (- Z.of_nat n <= idx < Z.of_nat n)%Z ->
  np_index n idx = Ok (Z.to_nat (idx `mod` Z.of_nat n)).
Proof.
  intros Hr. unfold np_index. destruct (decide (0 <= idx < Z.of_nat n)%Z).
  - by rewrite Z.mod_small.
  - rewrite decide_True by lia. do 2 f_equal.
    replace idx with ((Z.of_nat n + idx) + (-1) * Z.of_nat n)%Z at 2 by lia.
    rewrite Z.mod_add by lia. rewrite Z.mod_small; lia.
Qed.

Lemma np_index_out_of_range n idx :
  ~ (- Z.of_nat n <= idx < Z.of_nat n)%Z ->
  np_index n idx =
  Raise (if decide (2 ^ 63 <= idx < 2 ^ 64)%Z then OverflowError
         else IndexError).
Proof.
  intros Hr. unfold np_index. rewrite !decide_False by lia.
  by destruct (decide _).
Qed.

Lemma np_store_length a idx v a' :
  np_store a idx v = Ok a' -> length a' = length a.
Proof.
  unfold np_store. destruct (np_index _ _); simpl; [|done].
  intros [= <-]. apply length_insert.
Qed.

Lemma export_row_rows acc line acc' n :
  computed_rows acc n ->
  export_row py_int py_float acc line = Ok acc' ->
  computed_rows acc' n.
Proof.
  intros Hacc. unfold export_row. destruct (decide _); [|by intros [= <-]].
  destruct (int_at _ _ 0) as [idx|]; simpl; [|done].
  destruct (float_at _ _ 1) as [v1|]; simpl; [|done].
  destruct (np_store _ idx v1) as [a1|] eqn:H1; simpl; [|done].
  destruct (float_at _ _ 2) as [v2|]; simpl; [|done].
  destruct (np_store _ idx v2) as [a2|] eqn:H2; simpl; [|done].
  destruct (float_at _ _ 3) as [v3|]; simpl; [|done].
  destruct (np_store _ idx v3) as [a3|] eqn:H3; simpl; [|done].
  intros [= <-]. intros f.
  apply np_store_length in H1, H2, H3.
  pose proof (Hacc TGT_115). pose proof (Hacc TGT_315).
  pose proof (Hacc TGT_555). destruct f; simpl in *; congruence.
Qed.

Lemma for_each_export_rows lines acc acc' n :
  computed_rows acc n ->
  for_each (export_row py_int py_float) acc lines = Ok acc' ->
  computed_rows acc' n.
Proof.
  intros Hacc. apply (for_each_invariant _ (fun c => computed_rows c n));
    [|done].
  intros s a s' Hs Hrow. by eapply export_row_rows.
Qed.

Lemma parse_export_rows n_bars stdout c :
  parse_export py_int py_float n_bars stdout = Ok c -> computed_rows c n_bars.
Proof.
  intros Hc. eapply for_each_export_rows; [|exact Hc].
  intros f. destruct f; apply length_replicate.
Qed.

(** X15.  Reading the exporter's output keeps the three computed arrays at
    [n_bars] entries, and lines that do not have exactly four fields are
    passed over. *)
Theorem parse_export_keeps_length n_bars stdout :
  (forall c, parse_export py_int py_float n_bars stdout = Ok c ->
     forall f, length (computed_field f c) = n_bars) /\
  parse_export py_int py_float n_bars stdout =
  for_each (export_row py_int py_float)
    {| computed_115 := replicate n_bars nan;
       computed_315 := replicate n_bars nan;
       computed_555 := replicate n_bars nan |}
    (filter (fun line => length (split line) = 4)
       (split_lines (strip stdout))).
Proof.
  split.
  - intros c Hc. exact (parse_export_rows _ _ _ Hc).
  - unfold parse_export. apply for_each_filter.
    intros acc line Hn. unfold export_row. by rewrite decide_False.
Qed.

(** X16.  A line of four fields whose bar index fits 64 bits, signed or
    unsigned, and lies outside [-n_bars, n_bars) raises at its first store,
    once the index and the first value have converted: [IndexError] for an
    index below [2^63], [OverflowError] for one from [2^63] on. *)
Theorem parse_export_index_out_of_range
    n_bars stdout before line after acc s0 s1 s2 s3 idx v1 :
  split_lines (strip stdout) = before ++ line :: after ->
  for_each (export_row py_int py_float)
    {| computed_115 := replicate n_bars nan;
       computed_315 := replicate n_bars nan;
       computed_555 := replicate n_bars nan |} before = Ok acc ->
  split line = [s0; s1; s2; s3] ->
  py_int s0 = Some idx -> py_float s1 = Some v1 ->
  ~ (- Z.of_nat n_bars <= idx < Z.of_nat n_bars)%Z ->
  (- 2 ^ 63 <= idx < 2 ^ 64)%Z ->
  parse_export py_int py_float n_bars stdout =
  Raise (if decide (idx < 2 ^ 63)%Z then IndexError else OverflowError).
Proof.
  intros Hlines Hbefore Hparts H0 H1 Hout Hfit. unfold parse_export.
  rewrite Hlines. apply (for_each_raise_at _ _ _ _ _ acc); [done|].
  assert (length (computed_115 acc) = n_bars) as Hlen.
  { apply (for_each_export_rows before _ acc n_bars) in Hbefore.
    - apply (Hbefore TGT_115).
    - intros f. destruct f; apply length_replicate. }
  unfold export_row. rewrite Hparts. simpl.
  unfold int_at, float_at. simpl. rewrite H0, H1. simpl.
  unfold np_store. rewrite Hlen, np_index_out_of_range by done. simpl.
  by repeat case_decide; try lia.
Qed.

(** X17.  A bar index in [-n_bars, n_bars) is accepted, a negative one
    counting from the end: the line stores its three values at position
    [idx mod n_bars] and leaves the other positions as they were. *)
Theorem export_row_stores_modulo acc line n s0 s1 s2 s3 idx v1 v2 v3 :
  (forall f, length (computed_field f acc) = n) ->
  split line = [s0; s1; s2; s3] ->
  py_int s0 = Some idx ->
  py_float s1 = Some v1 -> py_float s2 = Some v2 -> py_float s3 = Some v3 ->
  (- Z.of_nat n <= idx < Z.of_nat n)%Z ->
  export_row py_int py_float acc line =
  Ok {| computed_115 := <[Z.to_nat (idx `mod` Z.of_nat n) := v1]> (computed_115 acc);
        computed_315 := <[Z.to_nat (idx `mod` Z.of_nat n) := v2]> (computed_315 acc);
        computed_555 := <[Z.to_nat (idx `mod` Z.of_nat n) := v3]> (computed_555 acc) |}
  /\ Z.to_nat (idx `mod` Z.of_nat n) < n.
Proof.
  intros Hlen Hparts H0 H1 H2 H3 Hr.
  pose proof (Hlen TGT_115) as L1. pose proof (Hlen TGT_315) as L2.
  pose proof (Hlen TGT_555) as L3. simpl in L1, L2, L3.
  pose proof (np_index_in_range n idx Hr) as Hidx. split.
  - unfold export_row. rewrite Hparts. simpl.
    unfold int_at, float_at. simpl. rewrite H0, H1, H2, H3. simpl.
    unfold np_store. rewrite L1, Hidx. simpl. rewrite L2, Hidx. simpl.
    rewrite L3, Hidx. simpl. done.
  - by apply np_index_Ok in Hidx.
Qed.
End ExportFacts.

(** ** plot_cmma, further *)

Section CmmaMore.
Import PyFloat PySeq Cmma.

Variable np_sum : list float -> float.
Variable np_corrcoef : list float -> list float -> float.

Lemma df_col_iloc_select k mask df col c :
  columns df !! col = Some c ->
  df_col (df_iloc_head k (df_select mask df)) col
  = Ok (head_slice k (select mask c)).
Proof.
  intros H. unfold df_col, df_iloc_head, df_select. simpl.
  by rewrite !lookup_fmap, H.
Qed.

Lemma df_col_select_inv mask df col c :
  df_col (df_select mask df) col = Ok c ->
  exists c0, columns df !! col = Some c0 /\ c = select mask c0.
Proof.
  unfold df_col, df_select. simpl. rewrite lookup_fmap.
  destruct (columns df !! col) as [c0|]; simpl; [|done].
  intros [= <-]. eauto.
Qed.

Lemma head_slice_nonneg {A} k (a : list A) :
  (0 <= k)%Z -> head_slice k a = take (Z.to_nat k) a.
Proof. intros Hk. unfold head_slice. by rewrite decide_False by lia. Qed.

(** A plotted outcome, taken apart. *)
Lemma create_comparison_plot_inv df name cc pc p :
  create_comparison_plot np_sum np_corrcoef df name cc pc = Ok (Plotted p) ->
  exists csv comp bar,
    columns df !! cc = Some csv /\ columns df !! pc = Some comp /\
    columns df !! "bar"%string = Some bar /\
    n_rows (df_select (valid_mask csv comp) df) <> 0 /\
    x p = select (valid_mask csv comp) bar /\
    csv_vals p = select (valid_mask csv comp) csv /\
    computed_vals p = select (valid_mask csv comp) comp /\
    diff p = zip_with (fun v c => (v - c)%float) (computed_vals p) (csv_vals p) /\
    ratio p = ratio_of (csv_vals p) (computed_vals p).
Proof.
  intros Hplot.
  destruct (create_comparison_plot_columns _ _ _ _ _ _ _ Hplot)
    as (csv & comp & Hc & Hp).
  exists csv, comp. revert Hplot. unfold create_comparison_plot.
  rewrite (df_col_Some _ _ _ Hc), (df_col_Some _ _ _ Hp). simpl.
  destruct (decide _) as [|Hn]; [done|].
  rewrite (df_col_select _ _ _ _ Hc), (df_col_select _ _ _ _ Hp).
  destruct (df_col _ "bar") as [xs|] eqn:Hbar; simpl; [|done].
  apply df_col_select_inv in Hbar as (bar & Hbar & ->).
  intros [= <-]. exists bar. simpl. done.
Qed.

(** The zoomed plot, from the outcome of the comparison plot. *)
Lemma zoomed_plot_of_comparison df name cc pc zoom_bars :
  (0 <= zoom_bars)%Z ->
  (forall w,
     create_comparison_plot np_sum np_corrcoef df name cc pc
     = Ok (NoValidData w) ->
     create_zoomed_plot np_sum df name cc pc zoom_bars
     = Ok (ZoomNoValidData w)) /\
  (forall p,
     create_comparison_plot np_sum np_corrcoef df name cc pc
     = Ok (Plotted p) ->
     exists z,
       create_zoomed_plot np_sum df name cc pc zoom_bars = Ok (Zoomed z) /\
       zoom_x z = take (Z.to_nat zoom_bars) (x p) /\
       zoom_csv_vals z = take (Z.to_nat zoom_bars) (csv_vals p) /\
       zoom_computed_vals z = take (Z.to_nat zoom_bars) (computed_vals p) /\
       zoom_diff z = take (Z.to_nat zoom_bars) (diff p) /\
       zoom_mae z =
         np_mean np_sum (map abs (take (Z.to_nat zoom_bars) (diff p)))).
Proof.
  intros Hk. split.
  - intros w. unfold create_comparison_plot, create_zoomed_plot.
    destruct (df_col df cc) as [csv|]; simpl; [|done].
    destruct (df_col df pc) as [comp|]; simpl; [|done].
    destruct (decide _); [by intros [= <-]|].
    destruct (df_col _ "bar"); simpl; [|done].
    destruct (df_col _ cc); simpl; [|done].
    destruct (df_col _ pc); simpl; done.
  - intros p Hplot.
    destruct (create_comparison_plot_inv _ _ _ _ _ Hplot)
      as (csv & comp & bar & Hc & Hp & Hbar & Hn & Hx & Hcv & Hpv & Hd & _).
    unfold create_zoomed_plot.
    rewrite (df_col_Some _ _ _ Hc), (df_col_Some _ _ _ Hp). simpl.
    rewrite decide_False by done.
    rewrite (df_col_iloc_select _ _ _ _ _ Hbar),
      (df_col_iloc_select _ _ _ _ _ Hc), (df_col_iloc_select _ _ _ _ _ Hp).
    simpl. eexists. split; [done|]. simpl.
    rewrite !head_slice_nonneg by done.
    rewrite Hx, Hd, Hcv, Hpv, zip_with_take. done.
Qed.

(** X18.  The zoomed plot follows the comparison plot: it warns on the same
    inputs with the same warning, and when the comparison plot has data the
    zoomed plot shows its first [zoom_bars] rows, with the differences and
    the MAE of those rows only. *)
Theorem zoomed_plot_is_prefix df name cc pc zoom_bars :
  (0 <= zoom_bars)%Z ->
  (forall w,
     create_comparison_plot np_sum np_corrcoef df name cc pc
     = Ok (NoValidData w) ->
     create_zoomed_plot np_sum df name cc pc zoom_bars
     = Ok (ZoomNoValidData w)) /\
  (forall p,
     create_comparison_plot np_sum np_corrcoef df name cc pc
     = Ok (Plotted p) ->
     exists z,
       create_zoomed_plot np_sum df name cc pc zoom_bars = Ok (Zoomed z) /\
       zoom_x z = take (Z.to_nat zoom_bars) (x p) /\
       zoom_csv_vals z = take (Z.to_nat zoom_bars) (csv_vals p) /\
       zoom_computed_vals z = take (Z.to_nat zoom_bars) (computed_vals p) /\
       zoom_diff z = take (Z.to_nat zoom_bars) (diff p) /\
       zoom_mae z =
         np_mean np_sum (map abs (take (Z.to_nat zoom_bars) (diff p)))).
Proof. apply zoomed_plot_of_comparison. Qed.

Lemma length_select_same {A B} (mask : list bool) (a : list A) (b : list B) :
  length mask <= length a -> length mask <= length b ->
  length (select mask a) = length (select mask b).
Proof.
  revert a b. induction mask as [|m mask IH]; intros a b Ha Hb; [done|].
  destruct a as [|v a], b as [|w b]; simpl in *; try lia.
  destruct m; simpl; [f_equal|]; apply IH; lia.
Qed.

(** X19.  On a frame whose columns all hold [n_rows] entries, the arrays of
    a plotted outcome have one common length, which is not zero: the bar
    numbers, both value series, the differences and the ratios line up. *)
Theorem plotted_panels_line_up df name cc pc p :
  df_wf df ->
  create_comparison_plot np_sum np_corrcoef df name cc pc = Ok (Plotted p) ->
  0 < length (x p) /\
  length (csv_vals p) = length (x p) /\
  length (computed_vals p) = length (x p) /\
  length (diff p) = length (x p) /\
  length (ratio p) = length (x p).
Proof.
  intros Hwf Hplot.
  destruct (create_comparison_plot_inv _ _ _ _ _ Hplot)
    as (csv & comp & bar & Hc & Hp & Hbar & Hn & Hx & Hcv & Hpv & Hd & Hr).
  pose proof (Hwf _ _ Hc) as Lc. pose proof (Hwf _ _ Hp) as Lp.
  pose proof (Hwf _ _ Hbar) as Lb.
  assert (length (valid_mask csv comp) = n_rows df) as Lm.
  { unfold valid_mask. rewrite length_zip_with. lia. }
  assert (length (select (valid_mask csv comp) bar) =
          length (select (valid_mask csv comp) (seq 0 (n_rows df)))) as E0.
  { apply length_select_same; rewrite ?length_seq; lia. }
  assert (length (select (valid_mask csv comp) csv) =
          length (select (valid_mask csv comp) bar)) as E1.
  { apply length_select_same; lia. }
  assert (length (select (valid_mask csv comp) comp) =
          length (select (valid_mask csv comp) bar)) as E2.
  { apply length_select_same; lia. }
  simpl in Hn. rewrite Hd, Hr. unfold ratio_of.
  rewrite !length_zip_with, Hx, Hcv, Hpv. lia.
Qed.

(** X20.  A frame without a [bar] column is only noticed when there is data
    to plot: with a row where both values are finite the function raises
    [KeyError] for [bar]. *)
Theorem missing_bar_column_raises df name cc pc csv comp i :
  df_wf df ->
  columns df !! cc = Some csv ->
  columns df !! pc = Some comp ->
  columns df !! "bar"%string = None ->
  valid_mask csv comp !! i = Some true ->
  create_comparison_plot np_sum np_corrcoef df name cc pc
  = Raise (KeyError "bar").
Proof.
  intros Hwf Hc Hp Hbar Hi. unfold create_comparison_plot.
  rewrite (df_col_Some _ _ _ Hc), (df_col_Some _ _ _ Hp). simpl.
  rewrite decide_False.
  - unfold df_col at 1, df_select. simpl. by rewrite lookup_fmap, Hbar.
  - unfold df_len, df_select. simpl.
    assert (i ∈ select (valid_mask csv comp) (seq 0 (n_rows df))) as Hin.
    { apply (select_elem_of _ _ i); [done|]. apply lookup_seq. split; [done|].
      apply valid_mask_lookup in Hi as (c & v & Hci & _).
      apply lookup_lt_Some in Hci. by rewrite <- (Hwf _ _ Hc). }
    destruct (select _ _); [by apply elem_of_nil in Hin|simpl; lia].
Qed.

Lemma create_comparison_plot_total df name cc pc :
  is_Some (columns df !! cc) -> is_Some (columns df !! pc) ->
  is_Some (columns df !! "bar"%string) ->
  exists o, create_comparison_plot np_sum np_corrcoef df name cc pc = Ok o.
Proof.
  intros [csv Hc] [comp Hp] [bar Hbar]. unfold create_comparison_plot.
  rewrite (df_col_Some _ _ _ Hc), (df_col_Some _ _ _ Hp). simpl.
  destruct (decide _); [eauto|].
  rewrite (df_col_select _ _ _ _ Hbar), (df_col_select _ _ _ _ Hc),
    (df_col_select _ _ _ _ Hp). simpl. eauto.
Qed.

(** X21.  On a frame that has the [bar] column and the six indicator
    columns, every column lookup made for the three indicators of main
    succeeds, whether or not an indicator has valid data: for each of them
    either both functions end with the same warning, or both reach the data
    of their panels, the zoomed one holding the first 200 valid rows.  The
    drawing and saving calls that follow the lookups belong to matplotlib
    and are not covered. *)
Theorem main_column_lookups_succeed df name cc pc :
  (forall col,
     col ∈ ["bar"; "csv_CMMA_S"; "computed_CMMA_S"; "csv_CMMA_M";
            "computed_CMMA_M"; "csv_CMMA_L"; "computed_CMMA_L"]%string ->
     is_Some (columns df !! col)) ->
  (name, cc, pc) ∈ indicators ->
  (exists w,
     create_comparison_plot np_sum np_corrcoef df name cc pc
     = Ok (NoValidData w) /\
     create_zoomed_plot np_sum df name cc pc main_zoom_bars
     = Ok (ZoomNoValidData w)) \/
  (exists p z,
     create_comparison_plot np_sum np_corrcoef df name cc pc
     = Ok (Plotted p) /\
     create_zoomed_plot np_sum df name cc pc main_zoom_bars
     = Ok (Zoomed z) /\
     zoom_x z = take 200 (x p) /\
     zoom_csv_vals z = take 200 (csv_vals p) /\
     zoom_computed_vals z = take 200 (computed_vals p)).
Proof.
  intros Hcols Hind.
  assert (is_Some (columns df !! cc) /\ is_Some (columns df !! pc)) as [H1 H2].
  { unfold indicators in Hind.
    repeat (apply elem_of_cons in Hind as [[= -> -> ->]|Hind];
            [split; apply Hcols; by repeat first [left | right]|]).
    by apply elem_of_nil in Hind. }
  assert (is_Some (columns df !! "bar"%string)) as Hb
    by (apply Hcols; by repeat first [left | right]).
  destruct (create_comparison_plot_total df name cc pc H1 H2 Hb) as [o Ho].
  destruct (zoomed_plot_of_comparison df name cc pc main_zoom_bars)
    as [Hwarn Hplot]; [done|].
  destruct o as [w|p].
  - left. exists w. split; [done|]. by apply Hwarn.
  - right. destruct (Hplot p Ho) as (z & Hz & Hx & Hcv & Hpv & _).
    by exists p, z.
Qed.
End CmmaMore.

(** ** The data path of main *)

Section MainFacts.
Import PyFloat PySeq PyStr HitOrMiss.

Variable py_int : string -> option Z.
Variable py_float : string -> option float.
Variable np_sum : list float -> float.

Lemma uncollected_column_nan header_line data_lines csv ohlcv f :
  parse_tssb_csv py_int py_float header_line data_lines = Ok csv ->
  truthy (column_index (split header_line) f) = false ->
  aligned_field f (align_data ohlcv csv)
  = replicate (length (o_date ohlcv)) nan.
Proof.
  intros Hparse Hf. unfold parse_tssb_csv in Hparse.
  apply (for_each_parse_row_falsy _ _ _ _ _ f) in Hparse; [|by destruct f].
  rewrite align_data_run, Hparse.
  replace (csv_field f empty_csv) with (@nil float) by (by destruct f).
  apply run_no_column.
Qed.

(** X22.  A column that is not collected (absent from the header, or at
    header position 0) aligns to an array of missing markers, one per bar. *)
Theorem uncollected_column_aligns_to_nan header_line data_lines csv ohlcv f :
  parse_tssb_csv py_int py_float header_line data_lines = Ok csv ->
  truthy (column_index (split header_line) f) = false ->
  aligned_field f (align_data ohlcv csv)
  = replicate (length (o_date ohlcv)) nan.
Proof. apply uncollected_column_nan. Qed.

(** X23.  In main the two arrays of every comparison have the same number
    of entries, one per bar of the OHLCV file, so the masks and differences
    are taken entry by entry over whole arrays. *)
Theorem main_arrays_have_n_bars ohlcv_lines ohlcv csv exporter_stdout cp f :
  parse_ohlcv py_int py_float ohlcv_lines = Ok ohlcv ->
  parse_export py_int py_float (length (o_date ohlcv)) exporter_stdout
  = Ok cp ->
  length (aligned_field f (align_data ohlcv csv))
  = length (filter (fun line => 7 <= length (split line)) ohlcv_lines) /\
  length (computed_field f cp)
  = length (filter (fun line => 7 <= length (split line)) ohlcv_lines).
Proof.
  intros Ho Hc.
  destruct (parse_ohlcv_rows _ _ _ _ Ho) as [Hd _].
  split.
  - rewrite align_data_run, run_length. done.
  - rewrite (parse_export_rows _ _ _ _ _ Hc f). done.
Qed.

(** X24.  Once the reference CSV and the exporter's output are read, the
    turn of main's comparison loop for an indicator whose column is not
    collected (absent from the header, or at header position 0) ends with
    the "no valid data" warning, whatever the bars are and whatever the
    exporter computed for it: the turn reaches no statistic and no drawing
    call before it goes on to the next indicator. *)
Theorem uncollected_indicator_is_skipped
    csv_header csv_lines csv ohlcv exporter_stdout cp f :
  parse_tssb_csv py_int py_float csv_header csv_lines = Ok csv ->
  parse_export py_int py_float (length (o_date ohlcv)) exporter_stdout
  = Ok cp ->
  truthy (column_index (split csv_header) f) = false ->
  compare_indicator np_sum (field_name f)
    (aligned_field f (align_data ohlcv csv)) (computed_field f cp)
  = Ok (NoValidData ("Warning: No valid data for " +:+ field_name f)).
Proof.
  intros Hcsv _ Hf. apply compare_indicator_no_valid.
  intros i c v Hc _. left.
  rewrite (uncollected_column_nan _ _ _ _ _ Hcsv Hf) in Hc.
  apply lookup_replicate in Hc as [-> _]. done.
Qed.
End MainFacts.

(** ** build_ilp *)

Section QuestDbFacts.
Import PyFloat PyStr QuestDb.

Variable py_int : string -> option Z.
Variable py_float : string -> option float.
Variable float_str : float -> string.

Lemma str_append_nil_r s : s +:+ EmptyString = s.
Proof.
  induction s as [|a s IH]; [done|].
  change (String a (s +:+ EmptyString) = String a s). by rewrite IH.
Qed.

Lemma str_in_char_cons c a s :
  str_in (String c EmptyString) (String a s) =
  if Ascii.ascii_dec c a then true else str_in (String c EmptyString) s.
Proof.
  simpl. destruct (Ascii.ascii_dec c a); [|done]. by destruct s.
Qed.

Lemma str_in_char_replaced c new s :
  c <> new -> str_in (String c EmptyString) (replace_char c new s) = false.
Proof.
  intros Hne. induction s as [|a s IH]; [done|].
  cbn [replace_char]. rewrite str_in_char_cons, IH.
  destruct (Ascii.eqb_spec a c) as [->|Hac];
    destruct (Ascii.ascii_dec _ _); congruence.
Qed.

Lemma str_in_char_kept c old new s :
  c <> new -> str_in (String c EmptyString) s = false ->
  str_in (String c EmptyString) (replace_char old new s) = false.
Proof.
  intros Hne. induction s as [|a s IH]; [done|].
  cbn [replace_char]. rewrite !str_in_char_cons.
  destruct (Ascii.ascii_dec c a) as [->|Hca]; [done|]. intros Hs.
  rewrite (IH Hs).
  destruct (Ascii.eqb a old); destruct (Ascii.ascii_dec _ _); congruence.
Qed.

Lemma safe_key_escaped key :
  str_in " " (safe_key key) = false /\ str_in "," (safe_key key) = false.
Proof.
  unfold safe_key. split.
  - apply str_in_char_kept; [done|]. by apply str_in_char_replaced.
  - by apply str_in_char_replaced.
Qed.

(** X25.  Every field of a line comes from a column of the row that is not
    one of the four reserved names and whose cell converts to a number; it
    reads [key=number], where the key has its spaces and commas replaced by
    underscores, so that a field key holds neither. *)
Theorem fields_are_escaped r fld :
  fld ∈ build_fields py_int py_float float_str r ->
  exists key value number,
    (key, value) ∈ r /\
    (key ∉ ["timestamp_unix"; "timestamp"; "Date"; "Time"]%string) /\
    to_number py_int py_float float_str value = Some number /\
    fld = safe_key key +:+ "=" +:+ number /\
    str_in " " (safe_key key) = false /\
    str_in "," (safe_key key) = false.
Proof.
  unfold build_fields. intros ([key value] & Hin & Hf)%list_elem_of_omap.
  simpl in Hf. unfold reserved in Hf.
  destruct (bool_decide _) eqn:Hres; [done|].
  apply bool_decide_eq_false in Hres.
  destruct (to_number _ _ _ value) as [number|] eqn:Hn; [|done].
  injection Hf as <-. exists key, value, number.
  destruct (safe_key_escaped key). done.
Qed.

(** X26.  A row yields a line only if one of its two timestamp cells is not
    empty ([timestamp_unix] first), that cell converts to a finite float,
    and the row has at least one numeric field.  The line is the
    measurement, the dataset tag when asked for, the fields joined by
    commas, and the timestamp cut to whole seconds and given in
    nanoseconds. *)
Theorem ilp_line_shape measurement r tag_dataset s :
  build_ilp py_int py_float float_str measurement r tag_dataset = Line s ->
  exists ts_raw v ts_seconds,
    py_or (row_get "timestamp_unix" r) (row_get "timestamp" r) = Some ts_raw /\
    ts_raw <> EmptyString /\
    py_float ts_raw = Some v /\
    int_of_float v = Truncated ts_seconds /\
    build_fields py_int py_float float_str r <> [] /\
    s = (measurement +:+
         (if tag_dataset then "," +:+ "dataset=" +:+ measurement
          else EmptyString)) +:+ " " +:+
        join "," (build_fields py_int py_float float_str r) +:+ " " +:+
        int_str (ts_seconds * 1000000000).
Proof.
  unfold build_ilp.
  destruct (py_or _ _) as [ts_raw|] eqn:Hts; [|done].
  destruct ts_raw as [|c0 ts_raw]; [done|]. cbn [nonempty negb mbind option_bind].
  destruct (py_float _) as [v|] eqn:Hv; [|done].
  destruct (int_of_float v) as [ts| |] eqn:Hint; [|done|done].
  destruct (decide _) as [|Hfields]; [done|].
  intros [= <-]. exists (String c0 ts_raw), v, ts.
  split; [done|]. split; [done|]. split; [done|]. split; [done|].
  split; [done|]. destruct tag_dataset; simpl.
  - done.
  - by rewrite str_append_nil_r.
Qed.

(** X27.  A timestamp cell that converts to an infinity is not caught:
    [int] raises [OverflowError], which [build_ilp] lets through, while a
    NaN timestamp only drops the row. *)
Theorem ilp_infinite_timestamp_overflows measurement r tag_dataset ts_raw v :
  py_or (row_get "timestamp_unix" r) (row_get "timestamp" r) = Some ts_raw ->
  ts_raw <> EmptyString ->
  py_float ts_raw = Some v ->
  (isnan v = false -> isfinite v = false ->
   build_ilp py_int py_float float_str measurement r tag_dataset = Overflow) /\
  (isnan v = true ->
   build_ilp py_int py_float float_str measurement r tag_dataset = NoLine).
Proof.
  intros Hts Hne Hv. unfold build_ilp. rewrite Hts.
  destruct ts_raw as [|c0 ts_raw]; [done|].
  cbn [nonempty negb mbind option_bind]. rewrite Hv.
  unfold int_of_float, isnan, isfinite.
  destruct (Prim2SF v); split; intros; done.
Qed.
End QuestDbFacts.

(** ** Worked inputs for the further properties *)

Section FurtherExamples.
Import PyFloat PySeq PyStr HitOrMiss Samples.

Lemma parse_ohlcv_one_bar_per_long_line_witness :
  exists d,
    parse_ohlcv int_of_digits float_of_literal ohlcv_lines = Ok d /\
    ohlcv_rows d 2.
Proof.
  eexists. split; [vm_compute; reflexivity|].
  exact (parse_ohlcv_one_bar_per_long_line int_of_digits float_of_literal
           ohlcv_lines _ eq_refl).
Defined.

Lemma parse_ohlcv_bad_field_raises_witness :
  parse_ohlcv int_of_digits float_of_literal
    (["20240101 930 1.0 2.5 0.0 1.0 3.0"%string]
     ++ "20240101 931 1.0 2.5 0.0 x 3.0"%string
     :: ["20240101 932 1.0 2.5 0.0 1.0 3.0"%string])
  = Raise ValueError.
Proof.
  eapply (parse_ohlcv_bad_field_raises int_of_digits float_of_literal
            _ _ _ _ 5 "x").
  - vm_compute. reflexivity.
  - vm_compute. lia.
  - reflexivity.
  - right. split; [lia|reflexivity].
Defined.

Lemma parse_tssb_csv_columns_in_step_witness :
  exists d,
    parse_tssb_csv int_of_digits float_of_literal "Date Time TGT_115 TGT_315"
      ["20240101 930 1.0 2.5"; "20240101 931 x 3.0"]%string = Ok d /\
    length (c_time d) = length (c_date d) /\
    length (c_115 d) = length (c_date d) /\
    length (c_315 d) = length (c_date d) /\
    length (c_555 d) = 0.
Proof.
  eexists. split; [vm_compute; reflexivity|].
  pose proof (parse_tssb_csv_columns_in_step int_of_digits float_of_literal
                "Date Time TGT_115 TGT_315"
                ["20240101 930 1.0 2.5"; "20240101 931 x 3.0"]%string
                _ eq_refl) as [Ht Hf].
  split; [exact Ht|]. split; [exact (Hf TGT_115)|].
  split; [exact (Hf TGT_315)|exact (Hf TGT_555)].
Defined.

Lemma parse_tssb_csv_drops_short_lines_witness :
  parse_tssb_csv int_of_digits float_of_literal "Date Time TGT_115 TGT_315"
    ["20240101 930 1.0 2.5"; ""; "20240101 931 1.0"; "20240101 932 3.0 3.0"]%string
  = parse_tssb_csv int_of_digits float_of_literal "Date Time TGT_115 TGT_315"
      ["20240101 930 1.0 2.5"; "20240101 932 3.0 3.0"]%string.
Proof.
  exact (parse_tssb_csv_drops_short_lines int_of_digits float_of_literal
           "Date Time TGT_115 TGT_315"
           ["20240101 930 1.0 2.5"; ""; "20240101 931 1.0";
            "20240101 932 3.0 3.0"]%string 3 eq_refl).
Defined.

Lemma parse_tssb_csv_bad_date_raises_witness :
  parse_tssb_csv int_of_digits float_of_literal "Date Time TGT_115"
    (["20240101 930 1.0"%string] ++ "2024-01-01 931 1.0"%string :: [])
  = Raise ValueError.
Proof.
  eapply (parse_tssb_csv_bad_date_raises int_of_digits float_of_literal
            _ _ _ _ _ 2 0 "2024-01-01").
  - vm_compute. reflexivity.
  - reflexivity.
  - vm_compute. lia.
  - lia.
  - reflexivity.
  - reflexivity.
Defined.

Lemma compared_span_bounds_witness :
  exists s,
    compare_indicator sum_left "TGT_115"
      [nan; 1%float; nan; 3%float; nan] [0; 1; 1; 2.5; 0]%float
    = Ok (Compared s) /\
    start_idx s = 1 /\ end_idx s = 3 /\
    length (diff s) = end_idx s - start_idx s + 1.
Proof.
  eexists. split; [vm_compute; reflexivity|].
  split; [reflexivity|]. split; [reflexivity|].
  refine (proj2 (proj2 (proj2
            (compared_span_bounds sum_left "TGT_115"
               [nan; 1%float; nan; 3%float; nan] [0; 1; 1; 2.5; 0]%float
               _ _)))).
  vm_compute. reflexivity.
Defined.

Lemma max_error_is_greatest_witness :
  exists s,
    compare_indicator sum_left "TGT_115"
      [nan; 1%float; nan; 3%float; nan] [0; 1; 1; 2.5; 0]%float
    = Ok (Compared s) /\
    max_error s = 0.5%float /\
    max_error s ∈ map abs (diff s).
Proof.
  eexists. split; [vm_compute; reflexivity|]. split; [reflexivity|].
  refine (proj1 (max_error_is_greatest sum_left "TGT_115"
                   [nan; 1%float; nan; 3%float; nan] [0; 1; 1; 2.5; 0]%float
                   _ _)).
  vm_compute. reflexivity.
Defined.

Lemma align_data_entries_from_rows_witness :
  2.5%float = nan \/
  exists r key,
    row_keys three_rows !! r = Some key /\ bar_keys three_bars !! 0 = Some key /\
    csv_field TGT_115 three_rows !! r = Some 2.5%float.
Proof.
  apply (align_data_entries_from_rows TGT_115 three_bars three_rows 0).
  vm_compute. reflexivity.
Defined.

Lemma align_data_same_keys_witness :
  aligned_field TGT_115 (align_data three_bars same_rows)
  = [1; 2.5; 3]%float.
Proof.
  apply (align_data_same_keys TGT_115 three_bars same_rows).
  - apply (bool_decide_unpack _). by vm_compute.
  - reflexivity.
  - reflexivity.
  - reflexivity.
Defined.

Lemma align_data_row_order_witness :
  aligned_field TGT_115 (align_data three_bars two_rows_swapped)
  = aligned_field TGT_115 (align_data three_bars two_rows).
Proof.
  apply (align_data_row_order TGT_115 three_bars two_rows two_rows_swapped).
  - apply (bool_decide_unpack _). by vm_compute.
  - reflexivity.
  - reflexivity.
  - apply Permutation_swap.
Defined.

Lemma extracted_entries_from_section_witness :
  extract_computed_values int_of_digits float_of_literal
    ("7 1.0 2.5 Bar Expected" +:+ newline +:+ "Summary: done") "TGT_115" = ∅.
Proof.
  apply (proj2 (extracted_entries_from_section int_of_digits float_of_literal
                  "TGT_115" _)).
  apply Forall_forall. repeat constructor.
Defined.

Lemma text_before_header_ignored_witness :
  extract_computed_values int_of_digits float_of_literal
    (("9 1.0 3.0 Bar Expected" +:+ newline +:+ "Summary: early")
     +:+ String "010" ("TGT_115 Up=1" +:+ newline +:+ "7 1.0 2.5 Bar Expected"))
    "TGT_115"
  = extract_computed_values int_of_digits float_of_literal
      ("TGT_115 Up=1" +:+ newline +:+ "7 1.0 2.5 Bar Expected") "TGT_115".
Proof.
  apply (text_before_header_ignored int_of_digits float_of_literal "TGT_115").
  apply Forall_forall. repeat constructor.
Defined.

Lemma parse_export_index_out_of_range_witness :
  parse_export int_of_digits float_of_literal 3 "3 1.0 2.5 3.0"
  = Raise IndexError /\
  parse_export int_of_digits float_of_literal 3
    "9223372036854775808 1.0 2.5 3.0"
  = Raise OverflowError.
Proof.
  split.
  - eapply (parse_export_index_out_of_range int_of_digits float_of_literal
              3 "3 1.0 2.5 3.0" [] "3 1.0 2.5 3.0" [] _
              "3" "1.0" "2.5" "3.0" 3%Z 1%float);
      [reflexivity..|lia|lia].
  - eapply (parse_export_index_out_of_range int_of_digits float_of_literal
              3 "9223372036854775808 1.0 2.5 3.0" []
              "9223372036854775808 1.0 2.5 3.0" [] _
              "9223372036854775808" "1.0" "2.5" "3.0"
              9223372036854775808%Z 1%float);
      [reflexivity..|lia|lia].
Defined.

Lemma export_row_stores_modulo_witness :
  export_row signed_int float_of_literal
    {| computed_115 := [nan; nan; nan]; computed_315 := [nan; nan; nan];
       computed_555 := [nan; nan; nan] |} "-1 1.0 2.5 3.0"
  = Ok {| computed_115 := [nan; nan; 1%float];
          computed_315 := [nan; nan; 2.5%float];
          computed_555 := [nan; nan; 3%float] |}.
Proof.
  refine (proj1 (export_row_stores_modulo signed_int float_of_literal
                   _ "-1 1.0 2.5 3.0" 3
                   "-1" "1.0" "2.5" "3.0" (-1)%Z 1%float 2.5%float 3%float
                   _ _ _ _ _ _ _)).
  - intros []; reflexivity.
  - reflexivity.
  - reflexivity.
  - reflexivity.
  - reflexivity.
  - reflexivity.
  - lia.
Defined.
End FurtherExamples.

Section FurtherExamplesCmma.
Import PyFloat PySeq Samples.

Lemma cmma_frame_wf : df_wf cmma_frame.
Proof.
  intros col c. unfold cmma_frame. simpl.
  rewrite !lookup_insert. repeat case_decide; try done;
    intros [= <-]; reflexivity.
Qed.

Lemma zoomed_plot_is_prefix_witness :
  exists z,
    Cmma.create_zoomed_plot sum_left cmma_frame
      "CMMA_S" "csv_CMMA_S" "computed_CMMA_S" 1 = Ok (Cmma.Zoomed z) /\
    Cmma.zoom_csv_vals z = [0%float] /\
    Cmma.zoom_computed_vals z = [1%float] /\
    Cmma.zoom_diff z = [1%float].
Proof.
  edestruct (proj2 (zoomed_plot_is_prefix sum_left pearson cmma_frame
                      "CMMA_S" "csv_CMMA_S" "computed_CMMA_S" 1 ltac:(lia)))
    as (z & Hz & _ & Hc & Hp & Hd & _).
  - vm_compute. reflexivity.
  - exists z. split; [exact Hz|]. split; [exact Hc|]. split; [exact Hp|exact Hd].
Defined.

Lemma plotted_panels_line_up_witness :
  exists p,
    Cmma.create_comparison_plot sum_left pearson cmma_frame
      "CMMA_S" "csv_CMMA_S" "computed_CMMA_S" = Ok (Cmma.Plotted p) /\
    length (Cmma.x p) = 2 /\
    length (Cmma.ratio p) = length (Cmma.x p).
Proof.
  eexists. split; [vm_compute; reflexivity|]. split; [reflexivity|].
  refine (proj2 (proj2 (proj2 (proj2
            (plotted_panels_line_up sum_left pearson cmma_frame
               "CMMA_S" "csv_CMMA_S" "computed_CMMA_S" _ cmma_frame_wf _))))).
  vm_compute. reflexivity.
Defined.

Lemma frame_without_bar_wf : df_wf frame_without_bar.
Proof.
  intros col c. unfold frame_without_bar. simpl.
  rewrite !lookup_insert. repeat case_decide; try done;
    intros [= <-]; reflexivity.
Qed.

Lemma missing_bar_column_raises_witness :
  Cmma.create_comparison_plot sum_left pearson frame_without_bar
    "CMMA_S" "csv_CMMA_S" "computed_CMMA_S" = Raise (KeyError "bar").
Proof.
  apply (missing_bar_column_raises sum_left pearson frame_without_bar
           "CMMA_S" "csv_CMMA_S" "computed_CMMA_S"
           [1; 2]%float [1; 3]%float 0).
  - exact frame_without_bar_wf.
  - reflexivity.
  - reflexivity.
  - reflexivity.
  - reflexivity.
Defined.

Lemma main_column_lookups_succeed_witness :
  (exists w,
     Cmma.create_comparison_plot sum_left pearson full_frame
       "CMMA_M" "csv_CMMA_M" "computed_CMMA_M" = Ok (Cmma.NoValidData w) /\
     Cmma.create_zoomed_plot sum_left full_frame
       "CMMA_M" "csv_CMMA_M" "computed_CMMA_M" Cmma.main_zoom_bars
     = Ok (Cmma.ZoomNoValidData w)) \/
  (exists p z,
     Cmma.create_comparison_plot sum_left pearson full_frame
       "CMMA_M" "csv_CMMA_M" "computed_CMMA_M" = Ok (Cmma.Plotted p) /\
     Cmma.create_zoomed_plot sum_left full_frame
       "CMMA_M" "csv_CMMA_M" "computed_CMMA_M" Cmma.main_zoom_bars
     = Ok (Cmma.Zoomed z) /\
     Cmma.zoom_x z = take 200 (Cmma.x p) /\
     Cmma.zoom_csv_vals z = take 200 (Cmma.csv_vals p) /\
     Cmma.zoom_computed_vals z = take 200 (Cmma.computed_vals p)).
Proof.
  apply (main_column_lookups_succeed sum_left pearson full_frame).
  - intros col Hin.
    repeat (apply elem_of_cons in Hin as [->|Hin]; [by eexists|]).
    by apply elem_of_nil in Hin.
  - right. left.
Defined.
End FurtherExamplesCmma.

Section FurtherExamplesMain.
Import PyFloat PySeq PyStr HitOrMiss Samples.

Lemma uncollected_column_aligns_to_nan_witness :
  aligned_field TGT_115
    (align_data three_bars
       {| c_date := [20240101; 20240101]%Z; c_time := [930; 931]%Z;
          c_115 := []; c_315 := [1; 2.5]%float; c_555 := [] |})
  = [nan; nan; nan].
Proof.
  apply (uncollected_column_aligns_to_nan int_of_digits float_of_literal
           "TGT_115 Time TGT_315"
           ["20240101 930 1.0"; "20240101 931 2.5"]%string).
  - vm_compute. reflexivity.
  - reflexivity.
Defined.

Lemma main_arrays_have_n_bars_witness :
  exists ohlcv cp,
    parse_ohlcv int_of_digits float_of_literal ohlcv_lines = Ok ohlcv /\
    parse_export int_of_digits float_of_literal 2 "0 1.0 2.5 3.0" = Ok cp /\
    length (aligned_field TGT_315 (align_data ohlcv one_row)) = 2 /\
    length (computed_field TGT_315 cp) = 2.
Proof.
  eexists. eexists. split; [vm_compute; reflexivity|].
  split; [vm_compute; reflexivity|].
  refine (main_arrays_have_n_bars int_of_digits float_of_literal
            ohlcv_lines _ one_row "0 1.0 2.5 3.0" _ TGT_315 _ _);
    vm_compute; reflexivity.
Defined.

Lemma uncollected_indicator_is_skipped_witness :
  compare_indicator sum_left "TGT_115"
    (aligned_115
       (align_data three_bars
          {| c_date := [20240101; 20240101]%Z; c_time := [930; 931]%Z;
             c_115 := []; c_315 := [1; 2.5]%float; c_555 := [] |}))
    [1%float; nan; nan]
  = Ok (NoValidData "Warning: No valid data for TGT_115").
Proof.
  apply (uncollected_indicator_is_skipped int_of_digits float_of_literal
           sum_left "TGT_115 Time TGT_315"
           ["20240101 930 1.0"; "20240101 931 2.5"]%string
           _ three_bars "0 1.0 2.5 3.0"
           {| computed_115 := [1%float; nan; nan];
              computed_315 := [2.5%float; nan; nan];
              computed_555 := [3%float; nan; nan] |} TGT_115).
  - vm_compute. reflexivity.
  - vm_compute. reflexivity.
  - reflexivity.
Defined.
End FurtherExamplesMain.

Section FurtherExamplesQuestDb.
Import PyFloat PyStr QuestDb Samples.

Lemma fields_are_escaped_witness :
  exists key value number,
    (key, value) ∈ ilp_row /\
    (key ∉ ["timestamp_unix"; "timestamp"; "Date"; "Time"]%string) /\
    to_number int_of_digits float_of_literal float_text value = Some number /\
    "CMMA_S_x=2.5"%string = safe_key key +:+ "=" +:+ number /\
    str_in " " (safe_key key) = false /\
    str_in "," (safe_key key) = false.
Proof.
  apply (fields_are_escaped int_of_digits float_of_literal float_text ilp_row).
  vm_compute. left.
Defined.

Lemma ilp_line_shape_witness :
  exists ts_raw v ts_seconds,
    py_or (row_get "timestamp_unix" ilp_row) (row_get "timestamp" ilp_row)
    = Some ts_raw /\
    ts_raw <> EmptyString /\
    float_of_literal ts_raw = Some v /\
    int_of_float v = Truncated ts_seconds /\
    build_fields int_of_digits float_of_literal float_text ilp_row <> [] /\
    "btc25_1,dataset=btc25_1 CMMA_S_x=2.5,n=12i 3000000000"%string =
      ("btc25_1" +:+ "," +:+ "dataset=" +:+ "btc25_1") +:+ " " +:+
      join "," (build_fields int_of_digits float_of_literal float_text ilp_row)
      +:+ " " +:+ int_str (ts_seconds * 1000000000).
Proof.
  apply (ilp_line_shape int_of_digits float_of_literal float_text
           "btc25_1" ilp_row true).
  vm_compute. reflexivity.
Defined.

Lemma ilp_infinite_timestamp_overflows_witness :
  build_ilp int_of_digits float_of_literal float_text "btc25_1"
    [("timestamp", Some "inf"); ("n", Some "12")]%string false = Overflow.
Proof.
  apply (proj1 (ilp_infinite_timestamp_overflows int_of_digits float_of_literal
                  float_text "btc25_1"
                  [("timestamp", Some "inf"); ("n", Some "12")]%string false
                  "inf" infinity eq_refl ltac:(done) eq_refl));
    reflexivity.
Defined.
End FurtherExamplesQuestDb.
